(** * super-market-system: product-service repositories and services

    A shallow embedding of the product service of the repository:
    - [models/product.go]: the entities, the filter and the patch DTOs;
    - [PostgresRepository]: the relational repository (GORM on Postgres);
    - [repository/dynamodb.go]: the key-value repository (DynamoDB);
    - [service/product_service.go], [service/category_service.go] and the
      [DepartmentService]: the services on top of the [ProductRepository]
      interface.

    Conventions of the embedding.
    - A table is the list of its rows (items) in storage (scan) order.
    - Go [int] values are integers of [Z]; where the code does arithmetic on
      them the 64-bit wrap-around is written out ([wrap64]).
    - [float64] fields hold decimals (DECIMAL(10,2), DECIMAL(3,2), ... in the
      schema); they are modelled as scaled integers of which only the order
      is used.  What a decimal turns into on its way to a store (the six
      digits that [%f] prints, the scale of a DECIMAL column) is not
      modelled: the statements on written or formatted decimals leave their
      value open ([decimals_apart]) or are made for the relational query,
      which compares the bound as it is.
    - Go strings are taken over ASCII; [ToLower] lowers the letters A-Z.
    - A Go [error] is its message ([err.Error()]); [fmt.Errorf("ctx: %w", e)]
      is [wrapf ctx e].  The handler classifies errors by substring, and so
      do [is_not_found] and [is_insufficient_stock].
    - Of the ways a call to a store can fail, the embedding has those that
      the id and the stored data decide: a row or item that is missing, a
      key DynamoDB refuses ([valid_key]), a taken key or a missing category
      on insert, a stock that leaves the INTEGER range.  A lost connection,
      text that is no uuid, a row other tables refer to and the size limits
      of columns, items and scan pages are outside it.
    - The wall clock ([time.Now], GORM's autoUpdateTime) and the generated
      uuid are explicit arguments [now] and [newid]. *)

From Stdlib Require Import List String Ascii ZArith Bool Lia DecimalString.
Import ListNotations.

Local Open Scope string_scope.
Local Open Scope Z_scope.

(* ================================================================== *)
(** * Strings: [strings.ToLower], [strings.Contains], SQL [LIKE]       *)
(* ================================================================== *)

Module Strings.

(** [unicode.ToLower] on an ASCII byte; a byte outside ASCII is left as it
    is. *)
Definition lower_ascii (c : ascii) : ascii :=
  if (Ascii.leb "A" c && Ascii.leb c "Z")%bool
  then ascii_of_N (N_of_ascii c + 32)
  else c.

(** [strings.ToLower] / SQL [LOWER]. *)
Fixpoint ToLower (s : string) : string :=
  match s with
  | EmptyString => EmptyString
  | String c t => String (lower_ascii c) (ToLower t)
  end.

(** [strings.Contains s substr]: [substr] occurs at some position of [s]. *)
Fixpoint Contains (s substr : string) : bool :=
  (String.prefix substr s
   || match s with
      | EmptyString => false
      | String _ t => Contains t substr
      end)%bool.

(** The three characters that SQL [LIKE] does not match literally. *)
Definition like_meta (c : ascii) : bool :=
  (Ascii.eqb c "%" || Ascii.eqb c "_" || Ascii.eqb c "\")%bool.

(** [s LIKE pat] of Postgres, default escape character backslash:
    [%] matches any run of characters, [_] any one character, a backslash
    makes the next pattern character literal.  A pattern ending in a lone
    backslash matches nothing here (Postgres rejects it; the patterns built
    by the repository always end in [%]). *)
Fixpoint Like (pat : string) : string -> bool :=
  match pat with
  | EmptyString => fun s => match s with EmptyString => true | _ => false end
  | String c pat' =>
      if Ascii.eqb c "%" then
        fix star (s : string) : bool :=
          (Like pat' s
           || match s with
              | EmptyString => false
              | String _ s' => star s'
              end)%bool
      else if Ascii.eqb c "_" then
        fun s => match s with
                 | EmptyString => false
                 | String _ s' => Like pat' s'
                 end
      else if Ascii.eqb c "\" then
        match pat' with
        | EmptyString => fun _ => false
        | String e pat'' =>
            fun s => match s with
                     | EmptyString => false
                     | String x s' => (Ascii.eqb e x && Like pat'' s')%bool
                     end
        end
      else
        fun s => match s with
                 | EmptyString => false
                 | String x s' => (Ascii.eqb c x && Like pat' s')%bool
                 end
  end.

(** No character of [s] is a [LIKE] metacharacter. *)
Fixpoint like_plain (s : string) : bool :=
  match s with
  | EmptyString => true
  | String c t => (negb (like_meta c) && like_plain t)%bool
  end.

End Strings.

(* ================================================================== *)
(** * Errors and results                                               *)
(* ================================================================== *)

(** A Go [(T, error)] pair: exactly one side is meaningful. *)
Inductive result (A : Type) : Type :=
| Ok (a : A)
| Err (msg : string).
Arguments Ok {A} a.
Arguments Err {A} msg.

Definition is_ok {A} (r : result A) : bool :=
  match r with Ok _ => true | Err _ => false end.

(** [fmt.Errorf(ctx + ": %w", err)]. *)
Definition wrapf (ctx : string) (err : string) : string := ctx ++ ": " ++ err.

(** [gorm.ErrRecordNotFound.Error()]. *)
Definition ErrRecordNotFound : string := "record not found".

(** The handler's classification: [strings.Contains(err.Error(), ...)]. *)
Definition is_not_found (err : string) : bool :=
  Strings.Contains err "not found".
Definition is_insufficient_stock (err : string) : bool :=
  Strings.Contains err "insufficient stock".

(** [%d] of [fmt]. *)
Definition fmt_d (z : Z) : string := NilZero.string_of_int (Z.to_int z).

(** Go's [int] is 64 bits wide on the deployment targets. *)
Definition MinInt64 : Z := - 2 ^ 63.
Definition MaxInt64 : Z := 2 ^ 63 - 1.
Definition wrap64 (z : Z) : Z := (z + 2 ^ 63) mod 2 ^ 64 - 2 ^ 63.
Definition in_int64 (z : Z) : Prop := MinInt64 <= z <= MaxInt64.

(** Postgres [INTEGER] (the type of the [stock] column). *)
Definition in_int4 (z : Z) : bool := (- 2 ^ 31 <=? z) && (z <=? 2 ^ 31 - 1).

(** [len(xs)]. *)
Definition len {A} (xs : list A) : Z := Z.of_nat (List.length xs).

(* ================================================================== *)
(** * Entity model ([models/product.go])                               *)
(* ================================================================== *)

(** A decimal held in a [float64], as a scaled integer; only the order of
    decimals is used. *)
Definition decimal := Z.
(** A [time.Time], as a number of clock ticks. *)
Definition time := Z.

Record ProductDimensions := {
  Length : decimal;
  Width : decimal;
  Height : decimal
}.

Record Product := {
  ID : string;
  SKU : string;
  Slug : string;
  Name : string;
  Description : string;
  Price : decimal;
  OriginalPrice : option decimal;
  Images : list string;
  CategoryID : string;
  DepartmentID : string;
  Brand : string;
  Unit : string;
  Stock : Z;
  MinStock : Z;
  Weight : decimal;
  WeightUnit : string;
  Dimensions : ProductDimensions;
  IsOnSale : bool;
  Discount : option decimal;
  Rating : decimal;
  Reviews : Z;
  IsActive : bool;
  Tags : list string;
  CreatedAt : time;
  UpdatedAt : time
}.

Record Department := {
  dID : string;
  dName : string;
  dDescription : string;
  dIcon : string;
  dImage : string;
  dSlug : string;
  dIsActive : bool;
  dCreatedAt : time;
  dUpdatedAt : time
}.

Record Category := {
  cID : string;
  cName : string;
  cSlug : string;
  cDescription : string;
  cParentID : option string;
  cLevel : Z;
  cIsActive : bool;
  cCreatedAt : time;
  cUpdatedAt : time
}.

Record ProductFilter := {
  fCategoryID : string;
  fDepartmentID : string;
  fBrand : string;
  fMinPrice : option decimal;
  fMaxPrice : option decimal;
  fInStock : option bool;
  fIsOnSale : option bool;
  fMinRating : option decimal;
  fSearch : string;
  fTags : list string;
  fLimit : Z;
  fOffset : Z
}.

Record ProductListResponse := {
  Products : list Product;
  TotalCount : Z;
  rLimit : Z;
  rOffset : Z
}.

Record UpdateProductRequest := {
  uName : option string;
  uDescription : option string;
  uSlug : option string;
  uPrice : option decimal;
  uOriginalPrice : option decimal;
  uCategoryID : option string;
  uDepartmentID : option string;
  uBrand : option string;
  uUnit : option string;
  uImages : list string;
  uStock : option Z;
  uMinStock : option Z;
  uWeight : option decimal;
  uWeightUnit : option string;
  uDimensions : option ProductDimensions;
  uIsOnSale : option bool;
  uDiscount : option decimal;
  uRating : option decimal;
  uReviews : option Z;
  uIsActive : option bool;
  uTags : list string
}.

Record UpdateDepartmentRequest := {
  udName : option string;
  udDescription : option string;
  udIcon : option string;
  udImage : option string;
  udSlug : option string;
  udIsActive : option bool
}.

Record CreateCategoryRequest := {
  ccName : string;
  ccSlug : string;
  ccDescription : string;
  ccParentID : option string
}.

Record UpdateCategoryRequest := {
  ucName : option string;
  ucSlug : option string;
  ucDescription : option string;
  ucParentID : option string;
  ucIsActive : option bool
}.

(** The zero value [models.ProductFilter{}]. *)
Definition emptyFilter : ProductFilter :=
  {| fCategoryID := EmptyString; fDepartmentID := EmptyString;
     fBrand := EmptyString; fMinPrice := None; fMaxPrice := None;
     fInStock := None; fIsOnSale := None; fMinRating := None;
     fSearch := EmptyString; fTags := []; fLimit := 0; fOffset := 0 |}.

(** The zero value [models.UpdateProductRequest{}]: every field absent. *)
Definition emptyPatch : UpdateProductRequest :=
  {| uName := None; uDescription := None; uSlug := None; uPrice := None;
     uOriginalPrice := None; uCategoryID := None; uDepartmentID := None;
     uBrand := None; uUnit := None; uImages := []; uStock := None;
     uMinStock := None; uWeight := None; uWeightUnit := None;
     uDimensions := None; uIsOnSale := None; uDiscount := None;
     uRating := None; uReviews := None; uIsActive := None; uTags := [] |}.


(* ================================================================== *)
(** * Storage helpers shared by the two repositories                   *)
(* ================================================================== *)

(** [UPDATE ... WHERE cond SET ...] / [UpdateItem]: the rows selected by
    [cond] are rewritten by [f], the others are kept, order unchanged. *)
Definition update_where {A} (cond : A -> bool) (f : A -> A) (rows : list A)
  : list A :=
  map (fun r => if cond r then f r else r) rows.

(** Number of rows selected by [cond] ([RowsAffected]). *)
Definition rows_affected {A} (cond : A -> bool) (rows : list A) : Z :=
  len (filter cond rows).

(** [DELETE ... WHERE cond] / [DeleteItem]. *)
Definition delete_where {A} (cond : A -> bool) (rows : list A) : list A :=
  filter (fun r => negb (cond r)) rows.

(** [OFFSET n] / [xs[n:]] and [LIMIT n] / [xs[:n]] with [n >= 0]. *)
Definition drop {A} (n : Z) (xs : list A) : list A := skipn (Z.to_nat n) xs.
Definition take {A} (n : Z) (xs : list A) : list A := firstn (Z.to_nat n) xs.

Definition nonempty (s : string) : bool := negb (String.eqb s EmptyString).

(** One [column = value] of a sparse product patch: an entry of GORM's
    [updateFields] map, a [SET #col = :col] of DynamoDB's update expression. *)
Inductive assign :=
| SetName (v : string)
| SetDescription (v : string)
| SetPrice (v : decimal)
| SetCategoryID (v : string)
| SetSlug (v : string)
| SetOriginalPrice (v : decimal)
| SetDepartmentID (v : string)
| SetBrand (v : string)
| SetUnit (v : string)
| SetStock (v : Z)
| SetWeight (v : decimal)
| SetWeightUnit (v : string)
| SetIsOnSale (v : bool)
| SetDiscount (v : decimal)
| SetRating (v : decimal)
| SetReviews (v : Z)
| SetIsActive (v : bool)
| SetUpdatedAt (v : time).

Definition apply_assign (p : Product) (a : assign) : Product :=
  {| ID := ID p;
     SKU := SKU p;
     Slug := match a with SetSlug v => v | _ => Slug p end;
     Name := match a with SetName v => v | _ => Name p end;
     Description := match a with SetDescription v => v | _ => Description p end;
     Price := match a with SetPrice v => v | _ => Price p end;
     OriginalPrice :=
       match a with SetOriginalPrice v => Some v | _ => OriginalPrice p end;
     Images := Images p;
     CategoryID := match a with SetCategoryID v => v | _ => CategoryID p end;
     DepartmentID :=
       match a with SetDepartmentID v => v | _ => DepartmentID p end;
     Brand := match a with SetBrand v => v | _ => Brand p end;
     Unit := match a with SetUnit v => v | _ => Unit p end;
     Stock := match a with SetStock v => v | _ => Stock p end;
     MinStock := MinStock p;
     Weight := match a with SetWeight v => v | _ => Weight p end;
     WeightUnit := match a with SetWeightUnit v => v | _ => WeightUnit p end;
     Dimensions := Dimensions p;
     IsOnSale := match a with SetIsOnSale v => v | _ => IsOnSale p end;
     Discount := match a with SetDiscount v => Some v | _ => Discount p end;
     Rating := match a with SetRating v => v | _ => Rating p end;
     Reviews := match a with SetReviews v => v | _ => Reviews p end;
     IsActive := match a with SetIsActive v => v | _ => IsActive p end;
     Tags := Tags p;
     CreatedAt := CreatedAt p;
     UpdatedAt := match a with SetUpdatedAt v => v | _ => UpdatedAt p end |}.

Definition apply_assigns (sets : list assign) (p : Product) : Product :=
  fold_left apply_assign sets p.

(** [if ptr != nil] then the dereferenced value is added to [fields]. *)
Definition set_if {A B} (ptr : option A) (mk : A -> B) (fields : list B)
  : list B :=
  match ptr with
  | Some v => fields ++ [mk v]
  | None => fields
  end.

(** The patch fields both repositories look at, in source order.  [Images],
    [MinStock], [Dimensions] and [Tags] of the request are read by neither. *)
Definition patch_assigns (updates : UpdateProductRequest) : list assign :=
  let fields := [] in
  let fields := set_if (uName updates) SetName fields in
  let fields := set_if (uDescription updates) SetDescription fields in
  let fields := set_if (uPrice updates) SetPrice fields in
  let fields := set_if (uCategoryID updates) SetCategoryID fields in
  let fields := set_if (uSlug updates) SetSlug fields in
  let fields := set_if (uOriginalPrice updates) SetOriginalPrice fields in
  let fields := set_if (uDepartmentID updates) SetDepartmentID fields in
  let fields := set_if (uBrand updates) SetBrand fields in
  let fields := set_if (uUnit updates) SetUnit fields in
  let fields := set_if (uStock updates) SetStock fields in
  let fields := set_if (uWeight updates) SetWeight fields in
  let fields := set_if (uWeightUnit updates) SetWeightUnit fields in
  let fields := set_if (uIsOnSale updates) SetIsOnSale fields in
  let fields := set_if (uDiscount updates) SetDiscount fields in
  let fields := set_if (uRating updates) SetRating fields in
  let fields := set_if (uReviews updates) SetReviews fields in
  let fields := set_if (uIsActive updates) SetIsActive fields in
  fields.

(** The five lower-cased text columns the search looks at. *)
Definition search_columns (p : Product) : list string :=
  [Strings.ToLower (Name p); Strings.ToLower (Description p);
   Strings.ToLower (SKU p); Strings.ToLower (Brand p);
   Strings.ToLower (Slug p)].

(* ================================================================== *)
(** * The relational repository ([PostgresRepository])                  *)
(* ================================================================== *)

Module Postgres.

(** The three tables of the schema the repository touches. *)
Record DB := {
  products : list Product;
  departments : list Department;
  categories : list Category
}.

Definition with_products (db : DB) (rows : list Product) : DB :=
  {| products := rows; departments := departments db;
     categories := categories db |}.
Definition with_departments (db : DB) (rows : list Department) : DB :=
  {| products := products db; departments := rows;
     categories := categories db |}.
Definition with_categories (db : DB) (rows : list Category) : DB :=
  {| products := products db; departments := departments db;
     categories := rows |}.

(** One [.Where(...)] of the product query, with its bound arguments. *)
Inductive clause :=
| IsActiveEq (v : bool)                (* is_active = ? *)
| CategoryIDEq (v : string)            (* category_id = ? *)
| DepartmentIDEq (v : string)          (* department_id = ? *)
| BrandEq (v : string)                 (* brand = ? *)
| PriceGe (v : decimal)                (* price >= ? *)
| PriceLe (v : decimal)                (* price <= ? *)
| StockGt (v : Z)                      (* stock > ? *)
| IsOnSaleEq (v : bool)                (* is_on_sale = ? *)
| RatingGe (v : decimal)               (* rating >= ? *)
| SearchLike (pattern : string).       (* LOWER(name) LIKE ? OR ... *)

Definition eval_clause (c : clause) (p : Product) : bool :=
  match c with
  | IsActiveEq v => Bool.eqb (IsActive p) v
  | CategoryIDEq v => String.eqb (CategoryID p) v
  | DepartmentIDEq v => String.eqb (DepartmentID p) v
  | BrandEq v => String.eqb (Brand p) v
  | PriceGe v => v <=? Price p
  | PriceLe v => Price p <=? v
  | StockGt v => v <? Stock p
  | IsOnSaleEq v => Bool.eqb (IsOnSale p) v
  | RatingGe v => v <=? Rating p
  | SearchLike pattern => existsb (Strings.Like pattern) (search_columns p)
  end.

(** Chained [Where]s are joined by [AND]. *)
Definition eval_query (query : list clause) (p : Product) : bool :=
  forallb (fun c => eval_clause c p) query.

(** [query = query.Where(c)] guarded by [cond]. *)
Definition where_if (cond : bool) (c : clause) (query : list clause)
  : list clause :=
  if cond then query ++ [c] else query.

Definition is_true (b : option bool) : bool :=
  match b with Some true => true | _ => false end.

(** The [WHERE] part built by [ListProducts]. *)
Definition list_query (filter : ProductFilter) : list clause :=
  let query := [IsActiveEq true] in
  let query := where_if (nonempty (fCategoryID filter))
                 (CategoryIDEq (fCategoryID filter)) query in
  let query := where_if (nonempty (fDepartmentID filter))
                 (DepartmentIDEq (fDepartmentID filter)) query in
  let query := where_if (nonempty (fBrand filter))
                 (BrandEq (fBrand filter)) query in
  let query := set_if (fMinPrice filter) PriceGe query in
  let query := set_if (fMaxPrice filter) PriceLe query in
  let query := where_if (is_true (fInStock filter)) (StockGt 0) query in
  let query := where_if (is_true (fIsOnSale filter)) (IsOnSaleEq true) query in
  let query := set_if (fMinRating filter) RatingGe query in
  let query :=
    where_if (nonempty (fSearch filter))
      (SearchLike ("%" ++ Strings.ToLower (fSearch filter) ++ "%")) query in
  query.

(** [query.Count(&n)]. *)
Definition Count (query : list clause) (rows : list Product) : Z :=
  len (filter (eval_query query) rows).

(** [query.Offset(o).Limit(l).Find(&rows)]; [None] is "not set". *)
Definition Find (query : list clause) (offset limit : option Z)
    (rows : list Product) : list Product :=
  let rows := filter (eval_query query) rows in
  let rows := match offset with Some o => drop o rows | None => rows end in
  match limit with Some l => take l rows | None => rows end.

Definition positive (n : Z) : option Z := if 0 <? n then Some n else None.

Definition GetProduct (id : string) (db : DB) : result Product :=
  match find (fun p => String.eqb (ID p) id && Bool.eqb (IsActive p) true)
             (products db) with
  | None => Err "product not found"
  | Some product => Ok product
  end.

Definition ListProducts (filter : ProductFilter) (db : DB)
  : result ProductListResponse :=
  let query := list_query filter in
  let totalCount := Count query (products db) in
  let products := Find query (positive (fOffset filter))
                    (positive (fLimit filter)) (products db) in
  Ok {| Products := products; TotalCount := totalCount;
        rLimit := fLimit filter; rOffset := fOffset filter |}.

(** [r.DB.Model(&product).Updates(updateFields)]: the row with the primary
    key of [product]; GORM's [autoUpdateTime] stamps [updated_at]. *)
Definition Updates (now : time) (id : string) (updateFields : list assign)
    (rows : list Product) : list Product :=
  update_where (fun p => String.eqb (ID p) id)
    (fun p => apply_assign (apply_assigns updateFields p) (SetUpdatedAt now))
    rows.

Definition UpdateProduct (now : time) (id : string)
    (updates : UpdateProductRequest) (db : DB) : result Product * DB :=
  match find (fun p => String.eqb (ID p) id) (products db) with
  | None => (Err "product not found", db)
  | Some product =>
      let updateFields := patch_assigns updates in
      if len updateFields =? 0 then (Err "no fields to update", db)
      else
        let db' := with_products db
                     (Updates now (ID product) updateFields (products db)) in
        match find (fun p => String.eqb (ID p) id) (products db') with
        | None => (Err (wrapf "failed to get updated product"
                          ErrRecordNotFound), db')
        | Some product' => (Ok product', db')
        end
  end.

(** [Where("id = ?", id).Delete(&models.Product{})]: the rows under the id
    are removed, and no affected row is "product not found".  The branch on
    [result.Error] is taken for a statement the database refuses (an id
    that is no uuid text, a row that order items refer to), which the
    embedding does not have. *)
Definition DeleteProduct (id : string) (db : DB) : result unit * DB :=
  let cond := fun p => String.eqb (ID p) id in
  if rows_affected cond (products db) =? 0
  then (Err "product not found", db)
  else (Ok tt, with_products db (delete_where cond (products db))).

(** [Update("stock", gorm.Expr("stock + ?", quantity))]: the sum is taken by
    the database on the [INTEGER] column; a row leaving its range fails the
    whole statement. *)
Definition UpdateStock (now : time) (id : string) (quantity : Z) (db : DB)
  : result unit * DB :=
  let cond := fun p => String.eqb (ID p) id in
  if forallb (fun p => in_int4 (Stock p + quantity))
       (filter cond (products db))
  then
    if rows_affected cond (products db) =? 0
    then (Err "product not found", db)
    else
      (Ok tt,
       with_products db
         (update_where cond
            (fun p => apply_assign
                        (apply_assign p (SetStock (Stock p + quantity)))
                        (SetUpdatedAt now))
            (products db)))
  else (Err (wrapf "failed to update stock" "integer out of range"), db).

Definition GetLowStockProducts (db : DB) : result (list Product) :=
  Ok (filter (fun p => (Stock p <=? MinStock p) && Bool.eqb (IsActive p) true)
        (products db)).

(** ** Departments *)

Inductive dassign :=
| SetDName (v : string)
| SetDDescription (v : string)
| SetDIcon (v : string)
| SetDImage (v : string)
| SetDSlug (v : string)
| SetDIsActive (v : bool)
| SetDUpdatedAt (v : time).

Definition apply_dassign (d : Department) (a : dassign) : Department :=
  {| dID := dID d;
     dName := match a with SetDName v => v | _ => dName d end;
     dDescription :=
       match a with SetDDescription v => v | _ => dDescription d end;
     dIcon := match a with SetDIcon v => v | _ => dIcon d end;
     dImage := match a with SetDImage v => v | _ => dImage d end;
     dSlug := match a with SetDSlug v => v | _ => dSlug d end;
     dIsActive := match a with SetDIsActive v => v | _ => dIsActive d end;
     dCreatedAt := dCreatedAt d;
     dUpdatedAt := match a with SetDUpdatedAt v => v | _ => dUpdatedAt d end |}.

Definition GetDepartment (id : string) (db : DB) : result Department :=
  match find (fun d => String.eqb (dID d) id && Bool.eqb (dIsActive d) true)
             (departments db) with
  | None => Err "department not found"
  | Some department => Ok department
  end.

Definition ListDepartments (db : DB) : result (list Department) :=
  Ok (filter (fun d => Bool.eqb (dIsActive d) true) (departments db)).

Definition UpdateDepartment (now : time) (id : string)
    (updates : UpdateDepartmentRequest) (db : DB) : result Department * DB :=
  match find (fun d => String.eqb (dID d) id) (departments db) with
  | None => (Err "department not found", db)
  | Some department =>
      let updateFields := [] in
      let updateFields := set_if (udName updates) SetDName updateFields in
      let updateFields :=
        set_if (udDescription updates) SetDDescription updateFields in
      let updateFields := set_if (udIcon updates) SetDIcon updateFields in
      let updateFields := set_if (udImage updates) SetDImage updateFields in
      let updateFields := set_if (udSlug updates) SetDSlug updateFields in
      let updateFields :=
        set_if (udIsActive updates) SetDIsActive updateFields in
      if len updateFields =? 0 then (Err "no fields to update", db)
      else
        let db' :=
          with_departments db
            (update_where (fun d => String.eqb (dID d) (dID department))
               (fun d => apply_dassign (fold_left apply_dassign updateFields d)
                           (SetDUpdatedAt now))
               (departments db)) in
        match find (fun d => String.eqb (dID d) id) (departments db') with
        | None => (Err (wrapf "failed to get updated department"
                          ErrRecordNotFound), db')
        | Some department' => (Ok department', db')
        end
  end.

Definition DeleteDepartment (now : time) (id : string) (db : DB)
  : result unit * DB :=
  let cond := fun d => String.eqb (dID d) id in
  if rows_affected cond (departments db) =? 0
  then (Err "department not found", db)
  else
    (Ok tt,
     with_departments db
       (update_where cond
          (fun d => apply_dassign (apply_dassign d (SetDIsActive false))
                      (SetDUpdatedAt now))
          (departments db))).

(** ** Categories *)

Inductive cassign :=
| SetCName (v : string)
| SetCSlug (v : string)
| SetCDescription (v : string)
| SetCParentID (v : string)
| SetCLevel (v : Z)
| SetCIsActive (v : bool)
| SetCUpdatedAt (v : time).

Definition apply_cassign (c : Category) (a : cassign) : Category :=
  {| cID := cID c;
     cName := match a with SetCName v => v | _ => cName c end;
     cSlug := match a with SetCSlug v => v | _ => cSlug c end;
     cDescription :=
       match a with SetCDescription v => v | _ => cDescription c end;
     cParentID := match a with SetCParentID v => Some v | _ => cParentID c end;
     cLevel := match a with SetCLevel v => v | _ => cLevel c end;
     cIsActive := match a with SetCIsActive v => v | _ => cIsActive c end;
     cCreatedAt := cCreatedAt c;
     cUpdatedAt := match a with SetCUpdatedAt v => v | _ => cUpdatedAt c end |}.

(** [r.DB.Where("id = ?", id).First(&category)]: any row, active or not. *)
Definition first_category (id : string) (db : DB) : option Category :=
  find (fun c => String.eqb (cID c) id) (categories db).

Definition GetCategory (id : string) (db : DB) : result Category :=
  match find (fun c => String.eqb (cID c) id && Bool.eqb (cIsActive c) true)
             (categories db) with
  | None => Err "category not found"
  | Some category => Ok category
  end.

Definition ListCategories (parentID : option string) (db : DB)
  : result (list Category) :=
  Ok (filter
        (fun c =>
           Bool.eqb (cIsActive c) true &&
           match parentID, cParentID c with
           | Some want, Some have => String.eqb have want
           | None, None => true
           | _, _ => false
           end)
        (categories db)).

(** [category] carries [Name], [Slug], [Description] and [ParentID] of the
    request; the stored row is returned (the Go code fills it in place).
    The insert is refused when the primary key is taken. *)
Definition CreateCategory (now : time) (newid : string) (category : Category)
    (db : DB) : result Category * DB :=
  let level :=
    match cParentID category with
    | Some parentID =>
        match first_category parentID db with
        | None => Err (wrapf "parent category not found" ErrRecordNotFound)
        | Some parent => Ok (wrap64 (cLevel parent + 1))
        end
    | None => Ok 0
    end in
  match level with
  | Err e => (Err e, db)
  | Ok level =>
      let row :=
        {| cID := newid; cName := cName category; cSlug := cSlug category;
           cDescription := cDescription category;
           cParentID := cParentID category; cLevel := level;
           cIsActive := true; cCreatedAt := now; cUpdatedAt := now |} in
      match first_category newid db with
      | Some _ =>
          (Err (wrapf "failed to create category" "duplicate key value"), db)
      | None => (Ok row, with_categories db (categories db ++ [row]))
      end
  end.

(** The [parent_id] and [level] entries of [updateFields]. *)
Definition parent_fields (parentID : option string) (db : DB)
  : result (list cassign) :=
  match parentID with
  | None => Ok []
  | Some parentID =>
      if nonempty parentID then
        match first_category parentID db with
        | None => Err (wrapf "parent category not found" ErrRecordNotFound)
        | Some parent =>
            Ok [SetCParentID parentID; SetCLevel (wrap64 (cLevel parent + 1))]
        end
      else Ok [SetCParentID parentID; SetCLevel 0]
  end.

Definition UpdateCategory (now : time) (id : string)
    (updates : UpdateCategoryRequest) (db : DB) : result Category * DB :=
  match first_category id db with
  | None => (Err "category not found", db)
  | Some category =>
      let updateFields := [] in
      let updateFields := set_if (ucName updates) SetCName updateFields in
      let updateFields := set_if (ucSlug updates) SetCSlug updateFields in
      let updateFields :=
        set_if (ucDescription updates) SetCDescription updateFields in
      match parent_fields (ucParentID updates) db with
      | Err e => (Err e, db)
      | Ok pf =>
          let updateFields := (updateFields ++ pf)%list in
          let updateFields :=
            set_if (ucIsActive updates) SetCIsActive updateFields in
          if len updateFields =? 0 then (Err "no fields to update", db)
          else
            let db' :=
              with_categories db
                (update_where (fun c => String.eqb (cID c) (cID category))
                   (fun c =>
                      apply_cassign (fold_left apply_cassign updateFields c)
                        (SetCUpdatedAt now))
                   (categories db)) in
            match first_category id db' with
            | None => (Err (wrapf "failed to get updated category"
                              ErrRecordNotFound), db')
            | Some category' => (Ok category', db')
            end
      end
  end.

Definition DeleteCategory (now : time) (id : string) (db : DB)
  : result unit * DB :=
  let cond := fun c => String.eqb (cID c) id in
  if rows_affected cond (categories db) =? 0
  then (Err "category not found", db)
  else
    (Ok tt,
     with_categories db
       (update_where cond
          (fun c => apply_cassign (apply_cassign c (SetCIsActive false))
                      (SetCUpdatedAt now))
          (categories db))).

End Postgres.

(* ================================================================== *)
(** * The key-value repository ([repository/dynamodb.go])              *)
(* ================================================================== *)

Module DynamoDB.

(** The product table: its items in scan order, keyed by [id]. *)
Definition Table := list Product.

(** One conjunct of the scan's filter expression, with its bound value. *)
Inductive cond :=
| CategoryIDEq (v : string)        (* #category_id = :category_id *)
| DepartmentIDEq (v : string)      (* #department_id = :department_id *)
| BrandEq (v : string)             (* #brand = :brand *)
| PriceGe (v : decimal)            (* #price >= :min_price *)
| PriceLe (v : decimal)            (* #price <= :max_price *)
| StockGt (v : Z)                  (* #stock > :zero *)
| IsOnSaleEq (v : bool)            (* #is_on_sale = :is_on_sale *)
| RatingGe (v : decimal)           (* #rating >= :min_rating *)
| IsActiveEq (v : bool)            (* #is_active = :is_active *)
| StockLeMinStock.                 (* #stock <= #min_stock *)

Definition eval_cond (c : cond) (p : Product) : bool :=
  match c with
  | CategoryIDEq v => String.eqb (CategoryID p) v
  | DepartmentIDEq v => String.eqb (DepartmentID p) v
  | BrandEq v => String.eqb (Brand p) v
  | PriceGe v => v <=? Price p
  | PriceLe v => Price p <=? v
  | StockGt v => v <? Stock p
  | IsOnSaleEq v => Bool.eqb (IsOnSale p) v
  | RatingGe v => v <=? Rating p
  | IsActiveEq v => Bool.eqb (IsActive p) v
  | StockLeMinStock => Stock p <=? MinStock p
  end.

(** [strings.Join(filterExpression, " AND ")]. *)
Definition eval_expression (filterExpression : list cond) (p : Product)
  : bool :=
  forallb (fun c => eval_cond c p) filterExpression.

(** [client.Scan]: [Limit] bounds the number of items the scan evaluates,
    the filter expression is applied to the evaluated items afterwards.
    The call is not repeated on [LastEvaluatedKey], so it returns one page.
    A page also ends after 1 MB of evaluated items; item sizes are not
    modelled, so here the page is the whole table, and a statement on what a
    scan returns holds of the code only as far as it says which items may
    be returned, not that all of them are. *)
Definition Scan (filterExpression : option (list cond)) (limit : option Z)
    (table : Table) : list Product :=
  let evaluated :=
    match limit with Some n => take n table | None => table end in
  match filterExpression with
  | Some fe => filter (eval_expression fe) evaluated
  | None => evaluated
  end.

(** What the store answers to a request it refuses. *)
Definition ValidationException : string := "ValidationException".

(** The value of the key attribute [id] is a string of 1 to 2048 bytes;
    [GetItem], [PutItem], [UpdateItem] and [DeleteItem] refuse a request
    with any other key. *)
Definition valid_key (id : string) : bool :=
  (1 <=? Z.of_nat (String.length id))
  && (Z.of_nat (String.length id) <=? 2048).

Definition append_if (b : bool) (c : cond) (fe : list cond) : list cond :=
  if b then fe ++ [c] else fe.

Definition is_true (b : option bool) : bool :=
  match b with Some true => true | _ => false end.

(** The filter expression built by [ListProducts].  The three decimal
    bounds are sent as [fmt.Sprintf("%f", bound)]; the six digits this keeps
    are not modelled. *)
Definition list_expression (filter : ProductFilter) : list cond :=
  let fe := [] in
  let fe := append_if (nonempty (fCategoryID filter))
              (CategoryIDEq (fCategoryID filter)) fe in
  let fe := append_if (nonempty (fDepartmentID filter))
              (DepartmentIDEq (fDepartmentID filter)) fe in
  let fe := append_if (nonempty (fBrand filter)) (BrandEq (fBrand filter)) fe in
  let fe := set_if (fMinPrice filter) PriceGe fe in
  let fe := set_if (fMaxPrice filter) PriceLe fe in
  let fe := append_if (is_true (fInStock filter)) (StockGt 0) fe in
  let fe := append_if (is_true (fIsOnSale filter)) (IsOnSaleEq true) fe in
  let fe := set_if (fMinRating filter) RatingGe fe in
  let fe := (fe ++ [IsActiveEq true])%list in
  fe.

(** The in-memory search of [ListProducts]. *)
Definition search_match (searchLower : string) (product : Product) : bool :=
  Strings.Contains (Strings.ToLower (Name product)) searchLower
  || Strings.Contains (Strings.ToLower (Description product)) searchLower
  || Strings.Contains (Strings.ToLower (SKU product)) searchLower
  || Strings.Contains (Strings.ToLower (Brand product)) searchLower
  || Strings.Contains (Strings.ToLower (Slug product)) searchLower.

(** [client.GetItem] answers a key the store refuses with an error, a key
    that is not in the table with no item. *)
Definition GetProduct (id : string) (table : Table) : result Product :=
  if valid_key id then
    match find (fun p => String.eqb (ID p) id) table with
    | None => Err "product not found"
    | Some product => Ok product
    end
  else Err (wrapf "failed to get product" ValidationException).

Definition ListProducts (filter : ProductFilter) (table : Table)
  : result ProductListResponse :=
  let filterExpression := list_expression filter in
  let input_FilterExpression :=
    if 0 <? len filterExpression then Some filterExpression else None in
  let input_Limit :=
    if 0 <? fLimit filter then Some (fLimit filter) else None in
  let products := Scan input_FilterExpression input_Limit table in
  let products :=
    if nonempty (fSearch filter)
    then List.filter (search_match (Strings.ToLower (fSearch filter))) products
    else products in
  let products :=
    if (0 <? fOffset filter) && (fOffset filter <? len products)
    then drop (fOffset filter) products
    else if len products <=? fOffset filter then []
    else products in
  let totalCount := len products in
  let products :=
    if (0 <? fLimit filter) && (fLimit filter <? len products)
    then take (fLimit filter) products
    else products in
  Ok {| Products := products; TotalCount := totalCount;
        rLimit := fLimit filter; rOffset := fOffset filter |}.

(** The item [UpdateItem] starts from when the key is not in the table: it
    holds the key alone, and read back into a [Product] every other field
    has its zero value. *)
Definition keyOnly (id : string) : Product :=
  {| ID := id; SKU := EmptyString; Slug := EmptyString;
     Name := EmptyString; Description := EmptyString; Price := 0;
     OriginalPrice := None; Images := []; CategoryID := EmptyString;
     DepartmentID := EmptyString; Brand := EmptyString; Unit := EmptyString;
     Stock := 0; MinStock := 0; Weight := 0; WeightUnit := EmptyString;
     Dimensions := {| Length := 0; Width := 0; Height := 0 |};
     IsOnSale := false; Discount := None; Rating := 0; Reviews := 0;
     IsActive := false; Tags := []; CreatedAt := 0; UpdatedAt := 0 |}.

(** [client.UpdateItem] with a [SET] expression and [ReturnValues: ALL_NEW]:
    the item under the key is rewritten, or created when there is none; a
    key the store refuses is an error. *)
Definition UpdateItem (id : string) (sets : list assign) (table : Table)
  : result (Product * Table) :=
  if valid_key id then
    match find (fun p => String.eqb (ID p) id) table with
    | Some item =>
        Ok (apply_assigns sets item,
            update_where (fun p => String.eqb (ID p) id) (apply_assigns sets)
              table)
    | None =>
        let item := apply_assigns sets (keyOnly id) in
        Ok (item, (table ++ [item])%list)
    end
  else Err ValidationException.

Definition UpdateProduct (now : time) (id : string)
    (updates : UpdateProductRequest) (table : Table)
  : result Product * Table :=
  let updateExpression := patch_assigns updates in
  let updateExpression := (updateExpression ++ [SetUpdatedAt now])%list in
  if len updateExpression =? 0 then (Err "no fields to update", table)
  else
    match UpdateItem id updateExpression table with
    | Err err => (Err (wrapf "failed to update product" err), table)
    | Ok (product, table') => (Ok product, table')
    end.

(** [client.DeleteItem]: no condition on the item, so a key that is not in
    the table is no error. *)
Definition DeleteProduct (id : string) (table : Table)
  : result unit * Table :=
  if valid_key id
  then (Ok tt, delete_where (fun p => String.eqb (ID p) id) table)
  else (Err (wrapf "failed to delete product" ValidationException), table).

(** [SET #stock = #stock + :quantity, #updated_at = :updated_at]; the
    expression reads [#stock], so the call fails when the item is absent. *)
Definition UpdateStock (now : time) (id : string) (quantity : Z)
    (table : Table) : result unit * Table :=
  if valid_key id then
    match find (fun p => String.eqb (ID p) id) table with
    | None => (Err (wrapf "failed to update stock" ValidationException), table)
    | Some _ =>
        (Ok tt,
         update_where (fun p => String.eqb (ID p) id)
           (fun p => apply_assign
                       (apply_assign p (SetStock (Stock p + quantity)))
                       (SetUpdatedAt now))
           table)
    end
  else (Err (wrapf "failed to update stock" ValidationException), table).

Definition GetLowStockProducts (table : Table) : result (list Product) :=
  Ok (Scan (Some [StockLeMinStock; IsActiveEq true]) None table).

End DynamoDB.

(* ================================================================== *)
(** * The repository interface ([ProductRepository])                   *)
(* ================================================================== *)

(** The product methods of the interface, over a store of type [S]. *)
Class ProductRepository (S : Type) := {
  repoGetProduct : string -> S -> result Product;
  repoListProducts : ProductFilter -> S -> result ProductListResponse;
  repoUpdateProduct :
    time -> string -> UpdateProductRequest -> S -> result Product * S;
  repoDeleteProduct : string -> S -> result unit * S;
  repoUpdateStock : time -> string -> Z -> S -> result unit * S;
  repoGetLowStockProducts : S -> result (list Product)
}.

(** The department methods of the interface. *)
Class DepartmentRepository (S : Type) := {
  repoGetDepartment : string -> S -> result Department;
  repoListDepartments : S -> result (list Department);
  repoUpdateDepartment :
    time -> string -> UpdateDepartmentRequest -> S -> result Department * S;
  repoDeleteDepartment : time -> string -> S -> result unit * S
}.

(** The category methods of the interface. *)
Class CategoryRepository (S : Type) := {
  repoGetCategory : string -> S -> result Category;
  repoListCategories : option string -> S -> result (list Category);
  repoCreateCategory : time -> string -> Category -> S -> result Category * S;
  repoUpdateCategory :
    time -> string -> UpdateCategoryRequest -> S -> result Category * S;
  repoDeleteCategory : time -> string -> S -> result unit * S
}.

#[export] Instance PostgresProducts : ProductRepository Postgres.DB := {
  repoGetProduct := Postgres.GetProduct;
  repoListProducts := Postgres.ListProducts;
  repoUpdateProduct := Postgres.UpdateProduct;
  repoDeleteProduct := Postgres.DeleteProduct;
  repoUpdateStock := Postgres.UpdateStock;
  repoGetLowStockProducts := Postgres.GetLowStockProducts
}.

#[export] Instance PostgresDepartments : DepartmentRepository Postgres.DB := {
  repoGetDepartment := Postgres.GetDepartment;
  repoListDepartments := Postgres.ListDepartments;
  repoUpdateDepartment := Postgres.UpdateDepartment;
  repoDeleteDepartment := Postgres.DeleteDepartment
}.

#[export] Instance PostgresCategories : CategoryRepository Postgres.DB := {
  repoGetCategory := Postgres.GetCategory;
  repoListCategories := Postgres.ListCategories;
  repoCreateCategory := Postgres.CreateCategory;
  repoUpdateCategory := Postgres.UpdateCategory;
  repoDeleteCategory := Postgres.DeleteCategory
}.

(** [dynamodb.go] implements the product methods only. *)
#[export] Instance DynamoDBProducts : ProductRepository DynamoDB.Table := {
  repoGetProduct := DynamoDB.GetProduct;
  repoListProducts := DynamoDB.ListProducts;
  repoUpdateProduct := DynamoDB.UpdateProduct;
  repoDeleteProduct := DynamoDB.DeleteProduct;
  repoUpdateStock := DynamoDB.UpdateStock;
  repoGetLowStockProducts := DynamoDB.GetLowStockProducts
}.

(* ================================================================== *)
(** * Services ([service/*.go])                                        *)
(* ================================================================== *)

Definition set_Limit (filter : ProductFilter) (v : Z) : ProductFilter :=
  {| fCategoryID := fCategoryID filter; fDepartmentID := fDepartmentID filter;
     fBrand := fBrand filter; fMinPrice := fMinPrice filter;
     fMaxPrice := fMaxPrice filter; fInStock := fInStock filter;
     fIsOnSale := fIsOnSale filter; fMinRating := fMinRating filter;
     fSearch := fSearch filter; fTags := fTags filter;
     fLimit := v; fOffset := fOffset filter |}.

Definition set_Offset (filter : ProductFilter) (v : Z) : ProductFilter :=
  {| fCategoryID := fCategoryID filter; fDepartmentID := fDepartmentID filter;
     fBrand := fBrand filter; fMinPrice := fMinPrice filter;
     fMaxPrice := fMaxPrice filter; fInStock := fInStock filter;
     fIsOnSale := fIsOnSale filter; fMinRating := fMinRating filter;
     fSearch := fSearch filter; fTags := fTags filter;
     fLimit := fLimit filter; fOffset := v |}.

Definition set_Search (filter : ProductFilter) (v : string) : ProductFilter :=
  {| fCategoryID := fCategoryID filter; fDepartmentID := fDepartmentID filter;
     fBrand := fBrand filter; fMinPrice := fMinPrice filter;
     fMaxPrice := fMaxPrice filter; fInStock := fInStock filter;
     fIsOnSale := fIsOnSale filter; fMinRating := fMinRating filter;
     fSearch := v; fTags := fTags filter;
     fLimit := fLimit filter; fOffset := fOffset filter |}.

Definition set_CategoryID (filter : ProductFilter) (v : string)
  : ProductFilter :=
  {| fCategoryID := v; fDepartmentID := fDepartmentID filter;
     fBrand := fBrand filter; fMinPrice := fMinPrice filter;
     fMaxPrice := fMaxPrice filter; fInStock := fInStock filter;
     fIsOnSale := fIsOnSale filter; fMinRating := fMinRating filter;
     fSearch := fSearch filter; fTags := fTags filter;
     fLimit := fLimit filter; fOffset := fOffset filter |}.

Definition set_DepartmentID (filter : ProductFilter) (v : string)
  : ProductFilter :=
  {| fCategoryID := fCategoryID filter; fDepartmentID := v;
     fBrand := fBrand filter; fMinPrice := fMinPrice filter;
     fMaxPrice := fMaxPrice filter; fInStock := fInStock filter;
     fIsOnSale := fIsOnSale filter; fMinRating := fMinRating filter;
     fSearch := fSearch filter; fTags := fTags filter;
     fLimit := fLimit filter; fOffset := fOffset filter |}.

Definition set_Brand (filter : ProductFilter) (v : string) : ProductFilter :=
  {| fCategoryID := fCategoryID filter; fDepartmentID := fDepartmentID filter;
     fBrand := v; fMinPrice := fMinPrice filter;
     fMaxPrice := fMaxPrice filter; fInStock := fInStock filter;
     fIsOnSale := fIsOnSale filter; fMinRating := fMinRating filter;
     fSearch := fSearch filter; fTags := fTags filter;
     fLimit := fLimit filter; fOffset := fOffset filter |}.

Definition set_MinPrice (filter : ProductFilter) (v : option decimal)
  : ProductFilter :=
  {| fCategoryID := fCategoryID filter; fDepartmentID := fDepartmentID filter;
     fBrand := fBrand filter; fMinPrice := v;
     fMaxPrice := fMaxPrice filter; fInStock := fInStock filter;
     fIsOnSale := fIsOnSale filter; fMinRating := fMinRating filter;
     fSearch := fSearch filter; fTags := fTags filter;
     fLimit := fLimit filter; fOffset := fOffset filter |}.

Definition set_MaxPrice (filter : ProductFilter) (v : option decimal)
  : ProductFilter :=
  {| fCategoryID := fCategoryID filter; fDepartmentID := fDepartmentID filter;
     fBrand := fBrand filter; fMinPrice := fMinPrice filter;
     fMaxPrice := v; fInStock := fInStock filter;
     fIsOnSale := fIsOnSale filter; fMinRating := fMinRating filter;
     fSearch := fSearch filter; fTags := fTags filter;
     fLimit := fLimit filter; fOffset := fOffset filter |}.

Definition set_InStock (filter : ProductFilter) (v : option bool)
  : ProductFilter :=
  {| fCategoryID := fCategoryID filter; fDepartmentID := fDepartmentID filter;
     fBrand := fBrand filter; fMinPrice := fMinPrice filter;
     fMaxPrice := fMaxPrice filter; fInStock := v;
     fIsOnSale := fIsOnSale filter; fMinRating := fMinRating filter;
     fSearch := fSearch filter; fTags := fTags filter;
     fLimit := fLimit filter; fOffset := fOffset filter |}.

Definition set_IsOnSale (filter : ProductFilter) (v : option bool)
  : ProductFilter :=
  {| fCategoryID := fCategoryID filter; fDepartmentID := fDepartmentID filter;
     fBrand := fBrand filter; fMinPrice := fMinPrice filter;
     fMaxPrice := fMaxPrice filter; fInStock := fInStock filter;
     fIsOnSale := v; fMinRating := fMinRating filter;
     fSearch := fSearch filter; fTags := fTags filter;
     fLimit := fLimit filter; fOffset := fOffset filter |}.

Definition set_MinRating (filter : ProductFilter) (v : option decimal)
  : ProductFilter :=
  {| fCategoryID := fCategoryID filter; fDepartmentID := fDepartmentID filter;
     fBrand := fBrand filter; fMinPrice := fMinPrice filter;
     fMaxPrice := fMaxPrice filter; fInStock := fInStock filter;
     fIsOnSale := fIsOnSale filter; fMinRating := v;
     fSearch := fSearch filter; fTags := fTags filter;
     fLimit := fLimit filter; fOffset := fOffset filter |}.

(** [&models.UpdateProductRequest{IsActive: &isActive}]. *)
Definition patchIsActive (isActive : bool) : UpdateProductRequest :=
  {| uName := None; uDescription := None; uSlug := None; uPrice := None;
     uOriginalPrice := None; uCategoryID := None; uDepartmentID := None;
     uBrand := None; uUnit := None; uImages := []; uStock := None;
     uMinStock := None; uWeight := None; uWeightUnit := None;
     uDimensions := None; uIsOnSale := None; uDiscount := None;
     uRating := None; uReviews := None; uIsActive := Some isActive;
     uTags := [] |}.

(** [&models.UpdateProductRequest{Stock: &stock}]. *)
Definition patchStock (stock : Z) : UpdateProductRequest :=
  {| uName := None; uDescription := None; uSlug := None; uPrice := None;
     uOriginalPrice := None; uCategoryID := None; uDepartmentID := None;
     uBrand := None; uUnit := None; uImages := []; uStock := Some stock;
     uMinStock := None; uWeight := None; uWeightUnit := None;
     uDimensions := None; uIsOnSale := None; uDiscount := None;
     uRating := None; uReviews := None; uIsActive := None; uTags := [] |}.

Module ProductService.
Section WithRepository.
Context {S : Type} `{ProductRepository S}.

Definition GetProduct (id : string) (s : S) : result Product :=
  if String.eqb id EmptyString then Err "product ID is required"
  else
    match repoGetProduct id s with
    | Err err => Err (wrapf "failed to get product" err)
    | Ok product => Ok product
    end.

(** The pagination defaults applied before the repository is called. *)
Definition paginate (filter : ProductFilter) : ProductFilter :=
  let filter :=
    if fLimit filter <=? 0 then set_Limit filter 20 else filter in
  let filter :=
    if 100 <? fLimit filter then set_Limit filter 100 else filter in
  let filter :=
    if fOffset filter <? 0 then set_Offset filter 0 else filter in
  filter.

Definition ListProducts (filter : ProductFilter) (s : S)
  : result ProductListResponse :=
  let filter := paginate filter in
  match repoListProducts filter s with
  | Err err => Err (wrapf "failed to list products" err)
  | Ok response => Ok response
  end.

Definition UpdateProduct (now : time) (id : string)
    (request : option UpdateProductRequest) (s : S) : result Product * S :=
  if String.eqb id EmptyString then (Err "product ID is required", s)
  else
    match request with
    | None => (Err "update product request is required", s)
    | Some request =>
        match repoGetProduct id s with
        | Err err => (Err (wrapf "product not found" err), s)
        | Ok _ =>
            match repoUpdateProduct now id request s with
            | (Err err, s') => (Err (wrapf "failed to update product" err), s')
            | (Ok updatedProduct, s') => (Ok updatedProduct, s')
            end
        end
    end.

Definition DeleteProduct (now : time) (id : string) (s : S)
  : result unit * S :=
  if String.eqb id EmptyString then (Err "product ID is required", s)
  else
    match repoGetProduct id s with
    | Err err => (Err (wrapf "product not found" err), s)
    | Ok _ =>
        let isActive := false in
        match repoUpdateProduct now id (patchIsActive isActive) s with
        | (Err err, s') => (Err (wrapf "failed to delete product" err), s')
        | (Ok _, s') => (Ok tt, s')
        end
    end.

Definition UpdateStock (now : time) (id : string) (quantity : Z) (s : S)
  : result unit * S :=
  if String.eqb id EmptyString then (Err "product ID is required", s)
  else
    match repoGetProduct id s with
    | Err err => (Err (wrapf "product not found" err), s)
    | Ok product =>
        let newStock := wrap64 (Stock product + quantity) in
        if newStock <? 0
        then (Err ("insufficient stock: current=" ++ fmt_d (Stock product)
                   ++ ", requested=" ++ fmt_d quantity), s)
        else
          match repoUpdateStock now id quantity s with
          | (Err err, s') => (Err (wrapf "failed to update stock" err), s')
          | (Ok _, s') => (Ok tt, s')
          end
    end.

Definition GetLowStockProducts (s : S) : result (list Product) :=
  match repoGetLowStockProducts s with
  | Err err => Err (wrapf "failed to get low stock products" err)
  | Ok products => Ok products
  end.

Definition SearchProducts (query : string) (filter : ProductFilter) (s : S)
  : result ProductListResponse :=
  if String.eqb query EmptyString then ListProducts filter s
  else ListProducts (set_Search filter query) s.

End WithRepository.
End ProductService.

Module DepartmentService.
Section WithRepository.
Context {S : Type} `{DepartmentRepository S}.

Definition DeleteDepartment (now : time) (id : string) (s : S)
  : result unit * S :=
  if String.eqb id EmptyString then (Err "department ID is required", s)
  else
    match repoGetDepartment id s with
    | Err err => (Err (wrapf "department not found" err), s)
    | Ok _ =>
        let isActive := false in
        match repoUpdateDepartment now id
                {| udName := None; udDescription := None; udIcon := None;
                   udImage := None; udSlug := None;
                   udIsActive := Some isActive |} s with
        | (Err err, s') => (Err (wrapf "failed to delete department" err), s')
        | (Ok _, s') => (Ok tt, s')
        end
    end.

End WithRepository.
End DepartmentService.

Module CategoryService.
Section WithRepository.
Context {S : Type} `{CategoryRepository S}.

Definition CreateCategory (now : time) (newid : string)
    (request : option CreateCategoryRequest) (s : S) : result Category * S :=
  match request with
  | None => (Err "create category request is required", s)
  | Some request =>
      let parent_check :=
        match ccParentID request with
        | Some parentID =>
            if nonempty parentID then
              match repoGetCategory parentID s with
              | Err err => Some (wrapf "parent category not found" err)
              | Ok _ => None
              end
            else None
        | None => None
        end in
      match parent_check with
      | Some err => (Err err, s)
      | None =>
          let category :=
            {| cID := EmptyString; cName := ccName request;
               cSlug := ccSlug request; cDescription := ccDescription request;
               cParentID := ccParentID request; cLevel := 0;
               cIsActive := false; cCreatedAt := 0; cUpdatedAt := 0 |} in
          match repoCreateCategory now newid category s with
          | (Err err, s') => (Err (wrapf "failed to create category" err), s')
          | (Ok category, s') => (Ok category, s')
          end
      end
  end.

Definition UpdateCategory (now : time) (id : string)
    (request : option UpdateCategoryRequest) (s : S) : result Category * S :=
  if String.eqb id EmptyString then (Err "category ID is required", s)
  else
    match request with
    | None => (Err "update category request is required", s)
    | Some request =>
        match repoGetCategory id s with
        | Err err => (Err (wrapf "category not found" err), s)
        | Ok _ =>
            let parent_check :=
              match ucParentID request with
              | Some parentID =>
                  if nonempty parentID then
                    if String.eqb parentID id
                    then Some "category cannot be its own parent"
                    else
                      match repoGetCategory parentID s with
                      | Err err => Some (wrapf "parent category not found" err)
                      | Ok _ => None
                      end
                  else None
              | None => None
              end in
            match parent_check with
            | Some err => (Err err, s)
            | None =>
                match repoUpdateCategory now id request s with
                | (Err err, s') =>
                    (Err (wrapf "failed to update category" err), s')
                | (Ok updatedCategory, s') => (Ok updatedCategory, s')
                end
            end
        end
    end.

Definition DeleteCategory (now : time) (id : string) (s : S)
  : result unit * S :=
  if String.eqb id EmptyString then (Err "category ID is required", s)
  else
    match repoGetCategory id s with
    | Err err => (Err (wrapf "category not found" err), s)
    | Ok _ =>
        let isActive := false in
        match repoUpdateCategory now id
                {| ucName := None; ucSlug := None; ucDescription := None;
                   ucParentID := None; ucIsActive := Some isActive |} s with
        | (Err err, s') => (Err (wrapf "failed to delete category" err), s')
        | (Ok _, s') => (Ok tt, s')
        end
    end.

End WithRepository.
End CategoryService.

(* ================================================================== *)
(** * The two backends behind one contract                             *)
(* ================================================================== *)

Inductive backend := Relational | KeyValue.

Definition store (b : backend) : Type :=
  match b with
  | Relational => Postgres.DB
  | KeyValue => DynamoDB.Table
  end.

#[export] Instance backend_repository (b : backend)
  : ProductRepository (store b) :=
  match b with
  | Relational => PostgresProducts
  | KeyValue => DynamoDBProducts
  end.

(** The stored product records of a backend, in storage order. *)
Definition records (b : backend) : store b -> list Product :=
  match b with
  | Relational => Postgres.products
  | KeyValue => fun table => table
  end.

(** A backend holding the given product records (and nothing else). *)
Definition load (b : backend) (rows : list Product) : store b :=
  match b with
  | Relational =>
      {| Postgres.products := rows; Postgres.departments := [];
         Postgres.categories := [] |}
  | KeyValue => rows
  end.

(* ================================================================== *)
(** * The filter contract, in the words of the specification            *)
(* ================================================================== *)

(** [sub] is a substring of [s]. *)
Definition substring_of (sub s : string) : Prop :=
  exists pre post, s = pre ++ sub ++ post.

(** The search rule of the specification: the lower-cased query is a
    substring of the lower-cased name, description, SKU, brand or slug. *)
Definition search_spec (search : string) (p : Product) : Prop :=
  exists col, In col (search_columns p) /\
              substring_of (Strings.ToLower search) col.

(** The specification's predicate of a filter, search apart: supplied fields
    are AND-combined, omitted fields impose nothing, and [is_active] is
    always required. *)
Definition satisfies (f : ProductFilter) (p : Product) : bool :=
  Bool.eqb (IsActive p) true
  && (negb (nonempty (fCategoryID f))
      || String.eqb (CategoryID p) (fCategoryID f))
  && (negb (nonempty (fDepartmentID f))
      || String.eqb (DepartmentID p) (fDepartmentID f))
  && (negb (nonempty (fBrand f)) || String.eqb (Brand p) (fBrand f))
  && match fMinPrice f with Some v => v <=? Price p | None => true end
  && match fMaxPrice f with Some v => Price p <=? v | None => true end
  && match fInStock f with Some true => 0 <? Stock p | _ => true end
  && match fIsOnSale f with
     | Some true => Bool.eqb (IsOnSale p) true
     | _ => true
     end
  && match fMinRating f with Some v => v <=? Rating p | None => true end.

(** The records selected by a filter, pagination ignored; the search is a
    plain substring test. *)
Definition matches (f : ProductFilter) (p : Product) : bool :=
  satisfies f p
  && (negb (nonempty (fSearch f))
      || existsb (fun col => Strings.Contains col (Strings.ToLower (fSearch f)))
           (search_columns p)).

(** The records a backend's [ListProducts] selects before it paginates. *)
Definition selected (b : backend) (f : ProductFilter) : store b -> list Product :=
  match b with
  | Relational =>
      fun db =>
        filter (Postgres.eval_query (Postgres.list_query f))
          (Postgres.products db)
  | KeyValue =>
      fun table =>
        let scanned :=
          DynamoDB.Scan (Some (DynamoDB.list_expression f))
            (if 0 <? fLimit f then Some (fLimit f) else None) table in
        if nonempty (fSearch f)
        then filter (DynamoDB.search_match (Strings.ToLower (fSearch f)))
               scanned
        else scanned
  end.

(** [f'] is [f] with one more constraint supplied. *)
Inductive adds_constraint : ProductFilter -> ProductFilter -> Prop :=
| add_category f v :
    fCategoryID f = EmptyString -> adds_constraint f (set_CategoryID f v)
| add_department f v :
    fDepartmentID f = EmptyString -> adds_constraint f (set_DepartmentID f v)
| add_brand f v :
    fBrand f = EmptyString -> adds_constraint f (set_Brand f v)
| add_min_price f v :
    fMinPrice f = None -> adds_constraint f (set_MinPrice f (Some v))
| add_max_price f v :
    fMaxPrice f = None -> adds_constraint f (set_MaxPrice f (Some v))
| add_in_stock f v :
    fInStock f = None -> adds_constraint f (set_InStock f (Some v))
| add_on_sale f v :
    fIsOnSale f = None -> adds_constraint f (set_IsOnSale f (Some v))
| add_min_rating f v :
    fMinRating f = None -> adds_constraint f (set_MinRating f (Some v))
| add_search f v :
    fSearch f = EmptyString -> adds_constraint f (set_Search f v).

(** [xs] is [ys] with some elements left out, order kept. *)
Inductive sublist {A} : list A -> list A -> Prop :=
| sublist_nil : sublist [] []
| sublist_skip x xs ys : sublist xs ys -> sublist xs (x :: ys)
| sublist_keep x xs ys : sublist xs ys -> sublist (x :: xs) (x :: ys).

(* ================================================================== *)
(** * Recording the repository's write calls                           *)
(* ================================================================== *)







(** The stored record after a soft delete at time [now]: [is_active] is
    false, [updated_at] is [now], every other field is as before. *)
Definition deactivated (now : time) (p : Product) : Product :=
  {| ID := ID p; SKU := SKU p; Slug := Slug p; Name := Name p;
     Description := Description p; Price := Price p;
     OriginalPrice := OriginalPrice p; Images := Images p;
     CategoryID := CategoryID p; DepartmentID := DepartmentID p;
     Brand := Brand p; Unit := Unit p; Stock := Stock p;
     MinStock := MinStock p; Weight := Weight p; WeightUnit := WeightUnit p;
     Dimensions := Dimensions p; IsOnSale := IsOnSale p;
     Discount := Discount p; Rating := Rating p; Reviews := Reviews p;
     IsActive := false; Tags := Tags p; CreatedAt := CreatedAt p;
     UpdatedAt := now |}.

Definition deactivated_department (now : time) (d : Department) : Department :=
  {| dID := dID d; dName := dName d; dDescription := dDescription d;
     dIcon := dIcon d; dImage := dImage d; dSlug := dSlug d;
     dIsActive := false; dCreatedAt := dCreatedAt d; dUpdatedAt := now |}.


(* ================================================================== *)
(** * Category histories                                               *)
(* ================================================================== *)

(** One call of the category service. *)
Inductive category_op :=
| OpCreate (now : time) (newid : string) (request : CreateCategoryRequest)
| OpUpdate (now : time) (id : string) (request : UpdateCategoryRequest)
| OpDelete (now : time) (id : string).

Definition run_op (db : Postgres.DB) (op : category_op) : Postgres.DB :=
  match op with
  | OpCreate now newid request =>
      snd (CategoryService.CreateCategory now newid (Some request) db)
  | OpUpdate now id request =>
      snd (CategoryService.UpdateCategory now id (Some request) db)
  | OpDelete now id => snd (CategoryService.DeleteCategory now id db)
  end.

Definition run_ops (ops : list category_op) (db : Postgres.DB) : Postgres.DB :=
  fold_left run_op ops db.

Definition emptyDB : Postgres.DB :=
  {| Postgres.products := []; Postgres.departments := [];
     Postgres.categories := [] |}.

(** The level rule at one category: 0 at a root, the parent's level plus
    one under a parent. *)
Definition level_ok (db : Postgres.DB) (c : Category) : bool :=
  match cParentID c with
  | None => cLevel c =? 0
  | Some parentID =>
      match Postgres.first_category parentID db with
      | Some parent => cLevel c =? cLevel parent + 1
      | None => false
      end
  end.


(* ================================================================== *)
(** * Sample data                                                      *)
(* ================================================================== *)

Definition sample (id name : string) (stock : Z) (active : bool) : Product :=
  {| ID := id; SKU := "sku-" ++ id; Slug := "item-" ++ id;
     Name := name; Description := EmptyString; Price := 250;
     OriginalPrice := None; Images := []; CategoryID := "c1";
     DepartmentID := "d1"; Brand := "acme"; Unit := "unit";
     Stock := stock; MinStock := 5; Weight := 0; WeightUnit := EmptyString;
     Dimensions := {| Length := 0; Width := 0; Height := 0 |};
     IsOnSale := false; Discount := None; Rating := 0; Reviews := 0;
     IsActive := active; Tags := []; CreatedAt := 0; UpdatedAt := 0 |}.

Definition milk : Product := sample "p1" "Milk" 10 true.
Definition bread : Product := sample "p2" "Bread" 3 true.
Definition shelf : list Product := [milk; bread].

Definition newCategory (name : string) (parent : option string)
  : CreateCategoryRequest :=
  {| ccName := name; ccSlug := name; ccDescription := EmptyString;
     ccParentID := parent |}.

Definition reparent (parent : string) : UpdateCategoryRequest :=
  {| ucName := None; ucSlug := None; ucDescription := None;
     ucParentID := Some parent; ucIsActive := None |}.

(** Three creations and one move: [food] and [fresh] are roots, [dairy] is
    under [food]; then [food] is moved under [fresh]. *)
Definition history : list category_op :=
  [OpCreate 1 "food" (newCategory "food" None);
   OpCreate 2 "dairy" (newCategory "dairy" (Some "food"));
   OpCreate 3 "fresh" (newCategory "fresh" None);
   OpUpdate 4 "food" (reparent "fresh")].

(* ================================================================== *)
(** * Further service methods                                          *)
(* ================================================================== *)

(** The value a sparse patch leaves in a column: the supplied one, or the
    old one when the patch field is absent. *)
Definition pick {A} (ptr : option A) (old : A) : A :=
  match ptr with Some v => v | None => old end.

(** The remaining list methods of [ProductService]. *)
Module ProductQueries.
Section WithRepository.
Context {S : Type} `{ProductRepository S}.

Definition GetProductsByCategory (categoryID : string)
    (filter : ProductFilter) (s : S) : result ProductListResponse :=
  if String.eqb categoryID EmptyString then Err "category ID is required"
  else ProductService.ListProducts (set_CategoryID filter categoryID) s.

Definition GetProductsByBrand (brand : string) (filter : ProductFilter)
    (s : S) : result ProductListResponse :=
  if String.eqb brand EmptyString then Err "brand is required"
  else ProductService.ListProducts (set_Brand filter brand) s.

Definition GetProductsByDepartment (departmentID : string)
    (filter : ProductFilter) (s : S) : result ProductListResponse :=
  if String.eqb departmentID EmptyString then Err "department ID is required"
  else ProductService.ListProducts (set_DepartmentID filter departmentID) s.

Definition GetProductsOnSale (filter : ProductFilter) (s : S)
  : result ProductListResponse :=
  let onSale := true in
  ProductService.ListProducts (set_IsOnSale filter (Some onSale)) s.

End WithRepository.
End ProductQueries.

(** The read methods of [DepartmentService]. *)
Module DepartmentQueries.
Section WithRepository.
Context {S : Type} `{DepartmentRepository S}.

Definition GetDepartment (id : string) (s : S) : result Department :=
  if String.eqb id EmptyString then Err "department ID is required"
  else
    match repoGetDepartment id s with
    | Err err => Err (wrapf "failed to get department" err)
    | Ok department => Ok department
    end.

Definition ListDepartments (s : S) : result (list Department) :=
  match repoListDepartments s with
  | Err err => Err (wrapf "failed to list departments" err)
  | Ok departments => Ok departments
  end.

End WithRepository.
End DepartmentQueries.

(** The read methods of [CategoryService]. *)
Module CategoryQueries.
Section WithRepository.
Context {S : Type} `{CategoryRepository S}.

Definition GetCategory (id : string) (s : S) : result Category :=
  if String.eqb id EmptyString then Err "category ID is required"
  else
    match repoGetCategory id s with
    | Err err => Err (wrapf "failed to get category" err)
    | Ok category => Ok category
    end.

Definition ListCategories (parentID : option string) (s : S)
  : result (list Category) :=
  match repoListCategories parentID s with
  | Err err => Err (wrapf "failed to list categories" err)
  | Ok categories => Ok categories
  end.

End WithRepository.
End CategoryQueries.

(** The stored record a sparse patch leads to at time [now]: a supplied
    field replaces the column, an absent one leaves it; [id], [sku],
    [images], [min_stock], the dimensions, [tags] and [created_at] are
    never written. *)
Definition patched (now : time) (u : UpdateProductRequest) (p : Product)
  : Product :=
  {| ID := ID p;
     SKU := SKU p;
     Slug := pick (uSlug u) (Slug p);
     Name := pick (uName u) (Name p);
     Description := pick (uDescription u) (Description p);
     Price := pick (uPrice u) (Price p);
     OriginalPrice :=
       match uOriginalPrice u with
       | Some v => Some v
       | None => OriginalPrice p
       end;
     Images := Images p;
     CategoryID := pick (uCategoryID u) (CategoryID p);
     DepartmentID := pick (uDepartmentID u) (DepartmentID p);
     Brand := pick (uBrand u) (Brand p);
     Unit := pick (uUnit u) (Unit p);
     Stock := pick (uStock u) (Stock p);
     MinStock := MinStock p;
     Weight := pick (uWeight u) (Weight p);
     WeightUnit := pick (uWeightUnit u) (WeightUnit p);
     Dimensions := Dimensions p;
     IsOnSale := pick (uIsOnSale u) (IsOnSale p);
     Discount :=
       match uDiscount u with Some v => Some v | None => Discount p end;
     Rating := pick (uRating u) (Rating p);
     Reviews := pick (uReviews u) (Reviews p);
     IsActive := pick (uIsActive u) (IsActive p);
     Tags := Tags p;
     CreatedAt := CreatedAt p;
     UpdatedAt := now |}.

(** A patch that supplies only fields the repositories do not read. *)
Definition unreadPatch (images : list string) (minStock : option Z)
    (dimensions : option ProductDimensions) (tags : list string)
  : UpdateProductRequest :=
  {| uName := None; uDescription := None; uSlug := None; uPrice := None;
     uOriginalPrice := None; uCategoryID := None; uDepartmentID := None;
     uBrand := None; uUnit := None; uImages := images; uStock := None;
     uMinStock := minStock; uWeight := None; uWeightUnit := None;
     uDimensions := dimensions; uIsOnSale := None; uDiscount := None;
     uRating := None; uReviews := None; uIsActive := None; uTags := tags |}.

(** [stored] is the patch [sent] as a store keeps it: the same fields are
    supplied, and text, integers and booleans are those of [sent].  What a
    store makes of a supplied decimal (the digits [%f] prints, the scale of
    a [DECIMAL] column) is left open. *)
Definition decimals_apart (sent stored : UpdateProductRequest) : Prop :=
  uName stored = uName sent /\
  uDescription stored = uDescription sent /\
  uSlug stored = uSlug sent /\
  uCategoryID stored = uCategoryID sent /\
  uDepartmentID stored = uDepartmentID sent /\
  uBrand stored = uBrand sent /\
  uUnit stored = uUnit sent /\
  uStock stored = uStock sent /\
  uWeightUnit stored = uWeightUnit sent /\
  uIsOnSale stored = uIsOnSale sent /\
  uReviews stored = uReviews sent /\
  uIsActive stored = uIsActive sent /\
  (uPrice stored = None <-> uPrice sent = None) /\
  (uOriginalPrice stored = None <-> uOriginalPrice sent = None) /\
  (uWeight stored = None <-> uWeight sent = None) /\
  (uDiscount stored = None <-> uDiscount sent = None) /\
  (uRating stored = None <-> uRating sent = None).

(** The stored category after a soft delete at time [now]. *)
Definition deactivated_category (now : time) (c : Category) : Category :=
  {| cID := cID c; cName := cName c; cSlug := cSlug c;
     cDescription := cDescription c; cParentID := cParentID c;
     cLevel := cLevel c; cIsActive := false; cCreatedAt := cCreatedAt c;
     cUpdatedAt := now |}.

(* ================================================================== *)
(** * Request routing ([handler] package)                              *)
(* ================================================================== *)

Module Paths.

(** [strings.HasPrefix] and [strings.HasSuffix]. *)
Definition HasPrefix (s prefix : string) : bool := String.prefix prefix s.

Fixpoint HasSuffix (s suffix : string) : bool :=
  (String.eqb s suffix
   || match s with
      | EmptyString => false
      | String _ t => HasSuffix t suffix
      end)%bool.

Definition in_cutset (c : ascii) (cutset : string) : bool :=
  existsb (Ascii.eqb c) (list_ascii_of_string cutset).

(** [strings.TrimLeft], [strings.TrimRight] and [strings.Trim]. *)
Fixpoint TrimLeft (s cutset : string) : string :=
  match s with
  | EmptyString => EmptyString
  | String c t => if in_cutset c cutset then TrimLeft t cutset else s
  end.

Fixpoint TrimRight (s cutset : string) : string :=
  match s with
  | EmptyString => EmptyString
  | String c t =>
      let t' := TrimRight t cutset in
      if (String.eqb t' EmptyString && in_cutset c cutset)%bool
      then EmptyString
      else String c t'
  end.

Definition Trim (s cutset : string) : string :=
  TrimRight (TrimLeft s cutset) cutset.

(** [strings.Split(s, sep)] for a separator of one character: the pieces
    between the separators, at least one piece. *)
Fixpoint Split (s : string) (sep : ascii) : list string :=
  match s with
  | EmptyString => [EmptyString]
  | String c t =>
      if Ascii.eqb c sep then EmptyString :: Split t sep
      else
        match Split t sep with
        | first :: rest => String c first :: rest
        | [] => [String c EmptyString]
        end
  end.

(** No character of [s] is [c]. *)
Fixpoint free_of (c : ascii) (s : string) : bool :=
  match s with
  | EmptyString => true
  | String x t => (negb (Ascii.eqb x c) && free_of c t)%bool
  end.

End Paths.

(** The handlers [HandleRequest] can dispatch to. *)
Inductive route :=
| Preflight
| listProducts | getProduct | createProduct | updateProduct | deleteProduct
| getLowStockProducts | updateStock | getProductsOnSale
| getProductsByDepartment
| listDepartments | getDepartment | createDepartment | updateDepartment
| deleteDepartment
| listCategories | getCategory | createCategory | updateCategory
| deleteCategory
| RouteNotFound.

(** The handler of [handler/handler.go]: product routes under [/products]. *)
Module HandlerV1.

(** The [switch] of [HandleRequest]: the first case that holds wins. *)
Definition HandleRequest (HTTPMethod Path : string) : route :=
  if String.eqb HTTPMethod "OPTIONS" then Preflight
  else if String.eqb HTTPMethod "GET" && String.eqb Path "/products"
  then listProducts
  else if String.eqb HTTPMethod "GET" && Paths.HasPrefix Path "/products/"
  then getProduct
  else if String.eqb HTTPMethod "POST" && String.eqb Path "/products"
  then createProduct
  else if String.eqb HTTPMethod "PUT" && Paths.HasPrefix Path "/products/"
  then updateProduct
  else if String.eqb HTTPMethod "DELETE" && Paths.HasPrefix Path "/products/"
  then deleteProduct
  else if String.eqb HTTPMethod "GET"
          && String.eqb Path "/products/low-stock"
  then getLowStockProducts
  else if String.eqb HTTPMethod "POST" && Paths.HasPrefix Path "/products/"
          && Paths.HasSuffix Path "/stock"
  then updateStock
  else if String.eqb HTTPMethod "GET" && String.eqb Path "/products/on-sale"
  then getProductsOnSale
  else if String.eqb HTTPMethod "GET"
          && Paths.HasPrefix Path "/products/department/"
  then getProductsByDepartment
  else RouteNotFound.

Definition extractIDFromPath (path : string) : string :=
  let parts := Paths.Split (Paths.Trim path "/") "/" in
  if 2 <=? len parts then nth 1 parts EmptyString else EmptyString.

Definition extractDepartmentIDFromPath (path : string) : string :=
  let parts := Paths.Split (Paths.Trim path "/") "/" in
  if (3 <=? len parts) && String.eqb (nth 1 parts EmptyString) "department"
  then nth 2 parts EmptyString
  else EmptyString.

End HandlerV1.

(** The handler with department and category routes, under
    [/product-service]. *)
Module Handler.

Definition HandleRequest (HTTPMethod Path : string) : route :=
  if String.eqb HTTPMethod "OPTIONS" then Preflight
  else if String.eqb HTTPMethod "GET"
          && String.eqb Path "/product-service/products"
  then listProducts
  else if String.eqb HTTPMethod "GET"
          && Paths.HasPrefix Path "/product-service/products/"
  then getProduct
  else if String.eqb HTTPMethod "POST"
          && String.eqb Path "/product-service/products"
  then createProduct
  else if String.eqb HTTPMethod "PUT"
          && Paths.HasPrefix Path "/product-service/products/"
  then updateProduct
  else if String.eqb HTTPMethod "DELETE"
          && Paths.HasPrefix Path "/product-service/products/"
  then deleteProduct
  else if String.eqb HTTPMethod "GET"
          && String.eqb Path "/product-service/products/low-stock"
  then getLowStockProducts
  else if String.eqb HTTPMethod "POST"
          && Paths.HasPrefix Path "/product-service/products/"
          && Paths.HasSuffix Path "/stock"
  then updateStock
  else if String.eqb HTTPMethod "GET"
          && String.eqb Path "/product-service/products/on-sale"
  then getProductsOnSale
  else if String.eqb HTTPMethod "GET"
          && Paths.HasPrefix Path "/product-service/products/department/"
  then getProductsByDepartment
  else if String.eqb HTTPMethod "GET"
          && String.eqb Path "/product-service/departments"
  then listDepartments
  else if String.eqb HTTPMethod "GET"
          && Paths.HasPrefix Path "/product-service/departments/"
  then getDepartment
  else if String.eqb HTTPMethod "POST"
          && String.eqb Path "/product-service/departments"
  then createDepartment
  else if String.eqb HTTPMethod "PUT"
          && Paths.HasPrefix Path "/product-service/departments/"
  then updateDepartment
  else if String.eqb HTTPMethod "DELETE"
          && Paths.HasPrefix Path "/product-service/departments/"
  then deleteDepartment
  else if String.eqb HTTPMethod "GET"
          && String.eqb Path "/product-service/categories"
  then listCategories
  else if String.eqb HTTPMethod "GET"
          && Paths.HasPrefix Path "/product-service/categories/"
  then getCategory
  else if String.eqb HTTPMethod "POST"
          && String.eqb Path "/product-service/categories"
  then createCategory
  else if String.eqb HTTPMethod "PUT"
          && Paths.HasPrefix Path "/product-service/categories/"
  then updateCategory
  else if String.eqb HTTPMethod "DELETE"
          && Paths.HasPrefix Path "/product-service/categories/"
  then deleteCategory
  else RouteNotFound.

(** [parts[len(parts)-1]] once there are three parts. *)
Definition extractIDFromPath (path : string) : string :=
  let parts := Paths.Split (Paths.Trim path "/") "/" in
  if 3 <=? len parts then last parts EmptyString else EmptyString.

Definition extractDepartmentIDFromPath (path : string) : string :=
  let parts := Paths.Split (Paths.Trim path "/") "/" in
  if (4 <=? len parts) && String.eqb (nth 2 parts EmptyString) "department"
  then nth 3 parts EmptyString
  else EmptyString.

End Handler.

(* ================================================================== *)
(** * Creating products                                                *)
(* ================================================================== *)

Record CreateProductRequest := {
  crName : string;
  crDescription : string;
  crSKU : string;
  crSlug : string;
  crPrice : decimal;
  crOriginalPrice : option decimal;
  crCategoryID : string;
  crDepartmentID : string;
  crBrand : string;
  crUnit : string;
  crImages : list string;
  crStock : Z;
  crMinStock : Z;
  crWeight : decimal;
  crWeightUnit : string;
  crDimensions : ProductDimensions;
  crIsOnSale : bool;
  crDiscount : option decimal;
  crTags : list string
}.

(** [product] with the columns the repositories fill in on creation. *)
Definition stamped (id : string) (created updated : time) (product : Product)
  : Product :=
  {| ID := id; SKU := SKU product; Slug := Slug product;
     Name := Name product; Description := Description product;
     Price := Price product; OriginalPrice := OriginalPrice product;
     Images := Images product; CategoryID := CategoryID product;
     DepartmentID := DepartmentID product; Brand := Brand product;
     Unit := Unit product; Stock := Stock product;
     MinStock := MinStock product; Weight := Weight product;
     WeightUnit := WeightUnit product; Dimensions := Dimensions product;
     IsOnSale := IsOnSale product; Discount := Discount product;
     Rating := Rating product; Reviews := Reviews product;
     IsActive := true; Tags := Tags product; CreatedAt := created;
     UpdatedAt := updated |}.

Module PostgresCreate.

(** [autoCreateTime] / [autoUpdateTime]: a zero time is set to [now]. *)
Definition auto_time (now t : time) : time := if t =? 0 then now else t.

(** [r.DB.Create(product)] after [ID] and [IsActive] are set; GORM stamps
    [created_at] and [updated_at].  The insert is refused when the primary
    key, the [sku] or the [slug] is taken (unique indexes) and when
    [category_id] references no category (foreign key). *)
Definition CreateProduct (now : time) (newid : string) (product : Product)
    (db : Postgres.DB) : result Product * Postgres.DB :=
  let row := stamped newid (auto_time now (CreatedAt product))
               (auto_time now (UpdatedAt product)) product in
  if existsb (fun p => String.eqb (ID p) (ID row)
                       || String.eqb (SKU p) (SKU row)
                       || String.eqb (Slug p) (Slug row))
       (Postgres.products db)
  then (Err (wrapf "failed to create product" "duplicate key value"), db)
  else
    match Postgres.first_category (CategoryID row) db with
    | None =>
        (Err (wrapf "failed to create product" "foreign key violation"), db)
    | Some _ =>
        (Ok row,
         Postgres.with_products db (Postgres.products db ++ [row]))
    end.

End PostgresCreate.

Module DynamoDBCreate.

(** [client.PutItem]: the item replaces the one stored under its key, or is
    added to the table; a key the store refuses is an error. *)
Definition PutItem (item : Product) (table : DynamoDB.Table)
  : result DynamoDB.Table :=
  if DynamoDB.valid_key (ID item) then
    match find (fun p => String.eqb (ID p) (ID item)) table with
    | Some _ =>
        Ok (update_where (fun p => String.eqb (ID p) (ID item))
              (fun _ => item) table)
    | None => Ok (table ++ [item])%list
    end
  else Err DynamoDB.ValidationException.

(** [time.Now()] is read twice, once for [CreatedAt] and once for
    [UpdatedAt]: [created] and [updated] are the two readings. *)
Definition CreateProduct (created updated : time) (newid : string)
    (product : Product) (table : DynamoDB.Table)
  : result Product * DynamoDB.Table :=
  let item := stamped newid created updated product in
  match PutItem item table with
  | Err err => (Err (wrapf "failed to create product" err), table)
  | Ok table' => (Ok item, table')
  end.

End DynamoDBCreate.

(** [CreateProduct] of the repository interface.  The two times are the
    next two readings of the clock; GORM reads it once per statement, so the
    relational repository takes the first for both timestamps. *)
Class ProductCreator (S : Type) := {
  repoCreateProduct :
    time -> time -> string -> Product -> S -> result Product * S
}.

#[export] Instance backend_creator (b : backend) : ProductCreator (store b) :=
  match b with
  | Relational =>
      {| repoCreateProduct := fun now _ => PostgresCreate.CreateProduct now |}
  | KeyValue => {| repoCreateProduct := DynamoDBCreate.CreateProduct |}
  end.

Module ProductCreation.
Section WithRepository.
Context {S : Type} `{ProductCreator S}.

(** [ProductService.CreateProduct]; [product] is filled in place by the
    repository and returned. *)
Definition CreateProduct (now now' : time) (newid : string)
    (request : option CreateProductRequest) (s : S) : result Product * S :=
  match request with
  | None => (Err "create product request is required", s)
  | Some request =>
      let product :=
        {| ID := EmptyString; SKU := crSKU request; Slug := crSlug request;
           Name := crName request; Description := crDescription request;
           Price := crPrice request;
           OriginalPrice := crOriginalPrice request;
           Images := crImages request; CategoryID := crCategoryID request;
           DepartmentID := crDepartmentID request; Brand := crBrand request;
           Unit := crUnit request; Stock := crStock request;
           MinStock := crMinStock request; Weight := crWeight request;
           WeightUnit := crWeightUnit request;
           Dimensions := crDimensions request;
           IsOnSale := crIsOnSale request; Discount := crDiscount request;
           Rating := 0; Reviews := 0; IsActive := false;
           Tags := crTags request; CreatedAt := 0; UpdatedAt := 0 |} in
      match repoCreateProduct now now' newid product s with
      | (Err err, s') => (Err (wrapf "failed to create product" err), s')
      | (Ok product, s') => (Ok product, s')
      end
  end.

End WithRepository.
End ProductCreation.

(* ================================================================== *)
(** * Product handlers of the [/product-service] handler               *)
(* ================================================================== *)

(** What a response carries besides the constant headers; the JSON
    encoding of the body is left out. *)
Inductive body :=
| NoBody
| ErrorBody (message : string)
| ProductBody (product : Product).

Record response := { StatusCode : Z; Body : body }.

Module ProductHandlers.

Definition StatusOK : Z := 200.
Definition StatusNoContent : Z := 204.
Definition StatusBadRequest : Z := 400.
Definition StatusNotFound : Z := 404.
Definition StatusInternalServerError : Z := 500.

Definition errorResponse (statusCode : Z) (message : string) : response :=
  {| StatusCode := statusCode; Body := ErrorBody message |}.

Definition successResponse (statusCode : Z) (data : body) : response :=
  {| StatusCode := statusCode; Body := data |}.

(** The handler is built on [NewPostgresRepository]. *)
Definition getProduct (Path : string) (db : Postgres.DB) : response :=
  let id := Handler.extractIDFromPath Path in
  if String.eqb id EmptyString
  then errorResponse StatusBadRequest "Product ID is required"
  else
    match ProductService.GetProduct id db with
    | Err err =>
        if Strings.Contains err "not found"
        then errorResponse StatusNotFound "Product not found"
        else errorResponse StatusInternalServerError err
    | Ok product => successResponse StatusOK (ProductBody product)
    end.

Definition deleteProduct (now : time) (Path : string) (db : Postgres.DB)
  : response * Postgres.DB :=
  let id := Handler.extractIDFromPath Path in
  if String.eqb id EmptyString
  then (errorResponse StatusBadRequest "Product ID is required", db)
  else
    match ProductService.DeleteProduct now id db with
    | (Err err, db') =>
        if Strings.Contains err "not found"
        then (errorResponse StatusNotFound "Product not found", db')
        else (errorResponse StatusInternalServerError err, db')
    | (Ok _, db') => (successResponse StatusNoContent NoBody, db')
    end.

End ProductHandlers.

(** [set_Limit] and [set_Offset] at once: the filter of one page. *)
Definition page_filter (f : ProductFilter) (limit offset : Z)
  : ProductFilter :=
  set_Offset (set_Limit f limit) offset.

(** The pages at offsets [0], [limit], [2 * limit], ... of the relational
    repository, [n] of them, one after the other. *)
Fixpoint sweep (f : ProductFilter) (limit : Z) (db : Postgres.DB)
    (start : Z) (n : nat) : list Product :=
  match n with
  | O => []
  | S n' =>
      match Postgres.ListProducts (page_filter f limit start) db with
      | Ok r => Products r ++ sweep f limit db (start + limit) n'
      | Err _ => []
      end
  end.

(* ================================================================== *)
(** * Facts about the string functions                                 *)
(* ================================================================== *)

Example ToLower_ex : Strings.ToLower "Whole MILK 2%" = "whole milk 2%".
Proof. reflexivity. Qed.

Example Contains_ex :
  Strings.Contains "whole milk" "milk" = true /\
  Strings.Contains "whole milk" "mild" = false /\
  Strings.Contains EmptyString EmptyString = true.
Proof. repeat split. Qed.

Example Like_ex :
  Strings.Like "%milk%" "whole milk 2%" = true /\
  Strings.Like "%m_lk%" "whole malk" = true /\
  Strings.Like "%50\%%" "50% off" = true /\
  Strings.Like "%50\%%" "500 off" = false.
Proof. repeat split. Qed.

Section StringFacts.

Lemma prefix_iff (s1 s2 : string) :
  String.prefix s1 s2 = true <-> exists t, s2 = s1 ++ t.
Proof.
  revert s2; induction s1 as [|a s1 IH]; intros [|b s2]; simpl.
  - split; [now exists EmptyString | reflexivity].
  - split; [now exists (String b s2) | reflexivity].
  - split; [discriminate | intros [t Ht]; discriminate].
  - destruct (ascii_dec a b) as [->|Hab].
    + rewrite IH. split; intros [t Ht]; exists t.
      * now rewrite Ht.
      * now injection Ht.
    + split; [discriminate |].
      intros [t Ht]. injection Ht as Hba _. congruence.
Qed.

Lemma Contains_iff (s sub : string) :
  Strings.Contains s sub = true <-> substring_of sub s.
Proof.
  unfold substring_of.
  induction s as [|c s IH]; cbn [Strings.Contains]; rewrite orb_true_iff, prefix_iff.
  - split.
    + intros [[t Ht]|Hf]; [|discriminate]. now exists EmptyString, t.
    + intros (pre & post & H). left. exists post.
      destruct pre; simpl in H; [exact H | discriminate].
  - rewrite IH. split.
    + intros [[t Ht]|(pre & post & H)].
      * now exists EmptyString, t.
      * exists (String c pre), post. simpl. now rewrite H.
    + intros (pre & post & H). destruct pre as [|x pre]; simpl in H.
      * left. now exists post.
      * right. exists pre, post. now injection H.
Qed.

Lemma Like_percent (pat s : string) :
  Strings.Like (String "%" pat) s = true <->
  exists pre post, s = pre ++ post /\ Strings.Like pat post = true.
Proof.
  cbn [Strings.Like Ascii.eqb Bool.eqb].
  induction s as [|c s IH]; rewrite orb_true_iff.
  - split.
    + intros [H|H]; [|discriminate]. now exists EmptyString, EmptyString.
    + intros (pre & post & E & H). left.
      destruct pre; [|discriminate]. simpl in E. now subst post.
  - rewrite IH. split.
    + intros [H|(pre & post & E & H)].
      * now exists EmptyString, (String c s).
      * exists (String c pre), post. simpl. now rewrite E.
    + intros (pre & post & E & H). destruct pre as [|x pre]; simpl in E.
      * left. now subst post.
      * right. exists pre, post. split; [now injection E | exact H].
Qed.

Lemma Like_literal (c : ascii) (pat s : string) :
  Strings.like_meta c = false ->
  Strings.Like (String c pat) s =
  match s with
  | EmptyString => false
  | String x s' => Ascii.eqb c x && Strings.Like pat s'
  end.
Proof.
  unfold Strings.like_meta. intros H.
  apply orb_false_iff in H as [H H3]. apply orb_false_iff in H as [H1 H2].
  cbn [Strings.Like]. rewrite H1, H2, H3. reflexivity.
Qed.

Lemma Like_plain_app (lit pat s : string) :
  Strings.like_plain lit = true ->
  Strings.Like (lit ++ pat) s = true <->
  exists post, s = lit ++ post /\ Strings.Like pat post = true.
Proof.
  revert s; induction lit as [|c lit IH]; intros s Hp.
  - simpl. split; [intros H; now exists s | now intros (post & -> & H)].
  - simpl in Hp. apply andb_true_iff in Hp as [Hc Hl].
    apply negb_true_iff in Hc.
    change (String c lit ++ pat) with (String c (lit ++ pat)).
    rewrite (Like_literal _ _ _ Hc). destruct s as [|x s].
    + split; [discriminate | intros (post & E & _); discriminate].
    + rewrite andb_true_iff, (IH s Hl), Ascii.eqb_eq. split.
      * intros (-> & post & -> & H). now exists post.
      * intros (post & E & H). injection E as -> ->. split; [reflexivity|].
        now exists post.
Qed.

Lemma append_empty_r (s : string) : s ++ EmptyString = s.
Proof. induction s as [|c s IH]; simpl; [reflexivity | now rewrite IH]. Qed.

Lemma Like_any (s : string) : Strings.Like "%" s = true.
Proof.
  apply Like_percent. exists s, EmptyString.
  now rewrite append_empty_r.
Qed.

Lemma Like_contains (lit s : string) :
  Strings.like_plain lit = true ->
  Strings.Like ("%" ++ lit ++ "%") s = Strings.Contains s lit.
Proof.
  intros Hp. apply eq_true_iff_eq.
  change ("%" ++ lit ++ "%") with (String "%" (lit ++ "%")).
  rewrite Like_percent, Contains_iff. unfold substring_of.
  split.
  - intros (pre & post & -> & H).
    apply (Like_plain_app _ _ _ Hp) in H as (rest & -> & _).
    now exists pre, rest.
  - intros (pre & post & ->). exists pre, (lit ++ post). split; [reflexivity|].
    apply (Like_plain_app _ _ _ Hp). exists post. split; [reflexivity|].
    apply Like_any.
Qed.

End StringFacts.

(* ================================================================== *)
(** * Facts about lists, pages and filters                             *)
(* ================================================================== *)

Section ListFacts.
Context {A : Type}.

Lemma len_nonneg (xs : list A) : 0 <= len xs.
Proof. unfold len. lia. Qed.

Lemma len_app (xs ys : list A) : len (xs ++ ys) = len xs + len ys.
Proof. unfold len. rewrite length_app. lia. Qed.

Lemma len_take (n : Z) (xs : list A) :
  len (take n xs) = Z.min (Z.max 0 n) (len xs).
Proof. unfold len, take. rewrite length_firstn. lia. Qed.

Lemma len_drop (n : Z) (xs : list A) :
  len (drop n xs) = Z.max 0 (len xs - Z.max 0 n).
Proof. unfold len, drop. rewrite length_skipn. lia. Qed.

Lemma sublist_refl (xs : list A) : sublist xs xs.
Proof. induction xs; constructor; assumption. Qed.

Lemma sublist_len (xs ys : list A) : sublist xs ys -> len xs <= len ys.
Proof.
  unfold len. induction 1; simpl; lia.
Qed.

Lemma sublist_In (xs ys : list A) :
  sublist xs ys -> forall x, In x xs -> In x ys.
Proof.
  induction 1; simpl; intros z Hz; auto.
  destruct Hz; auto.
Qed.

Lemma sublist_filter (P Q : A -> bool) (xs : list A) :
  (forall x, P x = true -> Q x = true) ->
  sublist (filter P xs) (filter Q xs).
Proof.
  intros HPQ. induction xs as [|x xs IH]; simpl; [constructor|].
  destruct (P x) eqn:HP.
  - rewrite (HPQ x HP). now constructor.
  - destruct (Q x); [now constructor | exact IH].
Qed.

Lemma sublist_filter_self (P : A -> bool) (xs : list A) :
  sublist (filter P xs) xs.
Proof.
  induction xs as [|x xs IH]; simpl; [constructor|].
  destruct (P x); now constructor.
Qed.

Lemma filter_filter (P Q : A -> bool) (xs : list A) :
  filter P (filter Q xs) = filter (fun x => Q x && P x) xs.
Proof.
  induction xs as [|x xs IH]; simpl; [reflexivity|].
  destruct (Q x); simpl; [destruct (P x)|]; now rewrite IH.
Qed.

End ListFacts.

Section FilterFacts.

Lemma pg_where_if (b : bool) c q p :
  Postgres.eval_query (Postgres.where_if b c q) p =
  Postgres.eval_query q p && (negb b || Postgres.eval_clause c p).
Proof.
  unfold Postgres.eval_query, Postgres.where_if. destruct b; simpl.
  - rewrite forallb_app. simpl. now rewrite andb_true_r.
  - now rewrite andb_true_r.
Qed.

Lemma pg_set_if {V} (o : option V) mk q p :
  Postgres.eval_query (set_if o mk q) p =
  Postgres.eval_query q p &&
  match o with Some v => Postgres.eval_clause (mk v) p | None => true end.
Proof.
  unfold Postgres.eval_query, set_if. destruct o; simpl.
  - rewrite forallb_app. simpl. now rewrite andb_true_r.
  - now rewrite andb_true_r.
Qed.

Lemma ddb_append_if (b : bool) c fe p :
  DynamoDB.eval_expression (DynamoDB.append_if b c fe) p =
  DynamoDB.eval_expression fe p && (negb b || DynamoDB.eval_cond c p).
Proof.
  unfold DynamoDB.eval_expression, DynamoDB.append_if. destruct b; simpl.
  - rewrite forallb_app. simpl. now rewrite andb_true_r.
  - now rewrite andb_true_r.
Qed.

Lemma ddb_set_if {V} (o : option V) mk fe p :
  DynamoDB.eval_expression (set_if o mk fe) p =
  DynamoDB.eval_expression fe p &&
  match o with Some v => DynamoDB.eval_cond (mk v) p | None => true end.
Proof.
  unfold DynamoDB.eval_expression, set_if. destruct o; simpl.
  - rewrite forallb_app. simpl. now rewrite andb_true_r.
  - now rewrite andb_true_r.
Qed.

(** The relational [WHERE] is the specification's predicate, with [LIKE]
    in the place of the substring test. *)
Lemma pg_query_satisfies (f : ProductFilter) (p : Product) :
  Postgres.eval_query (Postgres.list_query f) p =
  satisfies f p &&
  (negb (nonempty (fSearch f))
   || existsb (Strings.Like ("%" ++ Strings.ToLower (fSearch f) ++ "%"))
        (search_columns p)).
Proof.
  unfold Postgres.list_query, satisfies.
  rewrite !pg_where_if, !pg_set_if, !pg_where_if, !pg_set_if, !pg_where_if.
  cbn [Postgres.eval_query forallb Postgres.eval_clause].
  rewrite !andb_true_r.
  destruct (fInStock f) as [[]|], (fIsOnSale f) as [[]|],
    (fMinPrice f), (fMaxPrice f), (fMinRating f); reflexivity.
Qed.

Lemma ddb_snoc fe c p :
  DynamoDB.eval_expression (fe ++ [c]) p =
  DynamoDB.eval_expression fe p && DynamoDB.eval_cond c p.
Proof.
  unfold DynamoDB.eval_expression. rewrite forallb_app. simpl.
  now rewrite andb_true_r.
Qed.

(** The key-value filter expression is the specification's predicate. *)
Lemma ddb_expression_satisfies (f : ProductFilter) (p : Product) :
  DynamoDB.eval_expression (DynamoDB.list_expression f) p = satisfies f p.
Proof.
  unfold DynamoDB.list_expression, satisfies.
  rewrite ddb_snoc.
  rewrite !ddb_set_if, !ddb_append_if, !ddb_set_if, !ddb_append_if.
  cbn [DynamoDB.eval_expression forallb DynamoDB.eval_cond].
  destruct (Bool.eqb (IsActive p) true);
    rewrite ?andb_true_r, ?andb_false_r; [|reflexivity].
  cbn [andb].
  destruct (fInStock f) as [[]|], (fIsOnSale f) as [[]|],
    (fMinPrice f), (fMaxPrice f), (fMinRating f); reflexivity.
Qed.

Lemma ddb_search_match_existsb (q : string) (p : Product) :
  DynamoDB.search_match q p =
  existsb (fun col => Strings.Contains col q) (search_columns p).
Proof.
  unfold DynamoDB.search_match, search_columns. simpl.
  now rewrite orb_false_r, !orb_assoc.
Qed.

Lemma ddb_expression_nonempty (f : ProductFilter) :
  (0 <? len (DynamoDB.list_expression f)) = true.
Proof.
  unfold DynamoDB.list_expression, len. rewrite length_app.
  apply Z.ltb_lt. simpl List.length. lia.
Qed.

End FilterFacts.

(* ================================================================== *)
(** * Listing: selection, total count and pages                        *)
(* ================================================================== *)

Section Listing.

(** [ListProducts] of the relational repository, over [selected]. *)
Lemma pg_ListProducts_selected (f : ProductFilter) (db : Postgres.DB) :
  Postgres.ListProducts f db =
  Ok {| Products :=
          (let rows := selected Relational f db in
           let rows := match Postgres.positive (fOffset f) with
                       | Some o => drop o rows
                       | None => rows
                       end in
           match Postgres.positive (fLimit f) with
           | Some l => take l rows
           | None => rows
           end);
        TotalCount := len (selected Relational f db);
        rLimit := fLimit f; rOffset := fOffset f |}.
Proof. reflexivity. Qed.

(** [ListProducts] of the key-value repository, over [selected]: the total
    is taken after the offset has been cut off. *)
Lemma ddb_ListProducts_selected (f : ProductFilter) (table : DynamoDB.Table) :
  DynamoDB.ListProducts f table =
  let products := selected KeyValue f table in
  let products :=
    if (0 <? fOffset f) && (fOffset f <? len products)
    then drop (fOffset f) products
    else if len products <=? fOffset f then []
    else products in
  Ok {| Products :=
          (if (0 <? fLimit f) && (fLimit f <? len products)
           then take (fLimit f) products
           else products);
        TotalCount := len products;
        rLimit := fLimit f; rOffset := fOffset f |}.
Proof.
  unfold DynamoDB.ListProducts. rewrite ddb_expression_nonempty.
  reflexivity.
Qed.

(** Key-value selection is one filter over the evaluated items. *)
Lemma ddb_selected_filter (f : ProductFilter) (table : DynamoDB.Table) :
  selected KeyValue f table =
  filter (matches f)
    (if 0 <? fLimit f then take (fLimit f) table else table).
Proof.
  unfold selected, DynamoDB.Scan, matches.
  set (evaluated := match (if 0 <? fLimit f then Some (fLimit f) else None)
                    with Some n => take n table | None => table end).
  replace (if 0 <? fLimit f then take (fLimit f) table else table)
    with evaluated by (subst evaluated; now destruct (0 <? fLimit f)).
  destruct (nonempty (fSearch f)); cbn [negb orb].
  - rewrite filter_filter. apply filter_ext. intros p.
    now rewrite ddb_expression_satisfies, ddb_search_match_existsb.
  - apply filter_ext. intros p.
    now rewrite ddb_expression_satisfies, andb_true_r.
Qed.

(** Relational selection is the specification's predicate as long as the
    lower-cased query holds no [LIKE] metacharacter. *)
Lemma pg_selected_filter (f : ProductFilter) (db : Postgres.DB) :
  Strings.like_plain (Strings.ToLower (fSearch f)) = true ->
  selected Relational f db = filter (matches f) (Postgres.products db).
Proof.
  intros Hplain. unfold selected, matches. apply filter_ext. intros p.
  rewrite pg_query_satisfies. f_equal. f_equal.
  induction (search_columns p) as [|col cols IH]; cbn [existsb];
    [reflexivity|].
  now rewrite IH, (Like_contains _ _ Hplain).
Qed.

(** Without pagination, and with a query free of [LIKE] metacharacters, the
    two repositories answer alike on the same records. *)
Lemma unpaginated_backends_agree (f : ProductFilter) (rows : list Product) :
  fLimit f <= 0 -> fOffset f <= 0 ->
  Strings.like_plain (Strings.ToLower (fSearch f)) = true ->
  repoListProducts f (load Relational rows) =
  repoListProducts f (load KeyValue rows).
Proof.
  intros HL HO Hplain.
  change (Postgres.ListProducts f (load Relational rows) =
          DynamoDB.ListProducts f rows).
  rewrite pg_ListProducts_selected, ddb_ListProducts_selected.
  rewrite (pg_selected_filter _ _ Hplain), ddb_selected_filter.
  unfold Postgres.positive. cbn [load Postgres.products].
  assert (E1 : (0 <? fLimit f) = false) by (apply Z.ltb_ge; lia).
  assert (E2 : (0 <? fOffset f) = false) by (apply Z.ltb_ge; lia).
  rewrite E1, E2. cbn [andb].
  set (m := filter (matches f) rows).
  destruct (len m <=? fOffset f) eqn:E3; [|reflexivity].
  apply Z.leb_le in E3. pose proof (len_nonneg m) as Hm.
  assert (Hz : len m = 0) by lia.
  destruct m; [reflexivity | unfold len in Hz; simpl in Hz; lia].
Qed.

End Listing.

Section Pagination.

Lemma paginate_limit (f : ProductFilter) :
  1 <= fLimit (ProductService.paginate f) <= 100.
Proof.
  unfold ProductService.paginate.
  destruct (fLimit f <=? 0) eqn:E1;
    [cbn [fLimit set_Limit]; change (100 <? 20) with false; cbv iota
    | apply Z.leb_gt in E1;
      destruct (100 <? fLimit f) eqn:E2; [|apply Z.ltb_ge in E2]];
    match goal with |- context [if ?c then _ else _] => destruct c end;
    cbn [fLimit set_Limit set_Offset]; lia.
Qed.

End Pagination.

Section Pages.

(** Size of what the key-value repository keeps after its offset step. *)
Lemma ddb_offset_len {A} (o : Z) (m : list A) :
  len (if (0 <? o) && (o <? len m) then drop o m
       else if len m <=? o then [] else m) =
  if 0 <? o then Z.max 0 (len m - o) else len m.
Proof.
  pose proof (len_nonneg m) as Hm.
  destruct (0 <? o) eqn:E1; cbn [andb].
  - apply Z.ltb_lt in E1. destruct (o <? len m) eqn:E2.
    + apply Z.ltb_lt in E2. rewrite len_drop. lia.
    + apply Z.ltb_ge in E2. apply Z.leb_le in E2 as E3. rewrite E3.
      change (len (@nil A)) with 0. lia.
  - apply Z.ltb_ge in E1. destruct (len m <=? o) eqn:E3; [|reflexivity].
    apply Z.leb_le in E3. change (len (@nil A)) with 0. lia.
Qed.

(** Size of the page the key-value repository cuts. *)
Lemma ddb_limit_len {A} (l : Z) (m : list A) :
  len (if (0 <? l) && (l <? len m) then take l m else m) =
  if 0 <? l then Z.min l (len m) else len m.
Proof.
  destruct (0 <? l) eqn:E1; cbn [andb]; [|reflexivity].
  apply Z.ltb_lt in E1. destruct (l <? len m) eqn:E2.
  - apply Z.ltb_lt in E2. rewrite len_take. lia.
  - apply Z.ltb_ge in E2. lia.
Qed.

Lemma pg_page_len {A} (o l : Z) (m : list A) :
  len (let rows := m in
       let rows := match Postgres.positive o with
                   | Some o => drop o rows
                   | None => rows
                   end in
       match Postgres.positive l with
       | Some l => take l rows
       | None => rows
       end) =
  let kept := if 0 <? o then Z.max 0 (len m - o) else len m in
  if 0 <? l then Z.min l kept else kept.
Proof.
  unfold Postgres.positive. cbv zeta.
  destruct (0 <? o) eqn:E1, (0 <? l) eqn:E2;
    rewrite ?len_take, ?len_drop;
    try apply Z.ltb_lt in E1; try apply Z.ltb_lt in E2; try reflexivity;
    pose proof (len_nonneg m); lia.
Qed.

End Pages.

(** C7: the service replaces a limit <= 0 by 20, clamps a limit above 100 to
    100 and a negative offset to 0 before it calls the repository, and on
    either backend the page it returns holds at most that many products. *)
Theorem ListProducts_pagination (b : backend) (filter : ProductFilter)
    (s : store b) :
  let paged := ProductService.paginate filter in
  (fLimit filter <= 0 -> fLimit paged = 20) /\
  (100 < fLimit filter -> fLimit paged = 100) /\
  (0 < fLimit filter <= 100 -> fLimit paged = fLimit filter) /\
  (fOffset filter < 0 -> fOffset paged = 0) /\
  (0 <= fOffset filter -> fOffset paged = fOffset filter) /\
  exists response,
    ProductService.ListProducts filter s = Ok response /\
    repoListProducts paged s = Ok response /\
    rLimit response = fLimit paged /\
    rOffset response = fOffset paged /\
    len (Products response) <= fLimit paged.
Proof.
  intros paged.
  assert (Hfields :
    (fLimit filter <= 0 -> fLimit paged = 20) /\
    (100 < fLimit filter -> fLimit paged = 100) /\
    (0 < fLimit filter <= 100 -> fLimit paged = fLimit filter) /\
    (fOffset filter < 0 -> fOffset paged = 0) /\
    (0 <= fOffset filter -> fOffset paged = fOffset filter)).
  { subst paged. unfold ProductService.paginate.
    destruct (fLimit filter <=? 0) eqn:E1;
      [apply Z.leb_le in E1; cbn [fLimit set_Limit];
       change (100 <? 20) with false; cbv iota
      | apply Z.leb_gt in E1;
        destruct (100 <? fLimit filter) eqn:E2;
        [apply Z.ltb_lt in E2 | apply Z.ltb_ge in E2]];
      match goal with
      | |- context [if ?c then _ else _] => destruct c eqn:E3
      end;
      try apply Z.ltb_lt in E3; try apply Z.ltb_ge in E3;
      cbn [fLimit fOffset set_Limit set_Offset] in *;
      repeat split; intros; lia. }
  destruct Hfields as (H1 & H2 & H3 & H4 & H5).
  repeat (split; [assumption|]).
  pose proof (paginate_limit filter) as Hlim. fold paged in Hlim.
  unfold ProductService.ListProducts. fold paged.
  destruct b; cbn [repoListProducts backend_repository PostgresProducts
                   DynamoDBProducts store] in *.
  - rewrite pg_ListProducts_selected. eexists. repeat split.
    cbn [Products]. rewrite pg_page_len. cbv zeta.
    assert (E : (0 <? fLimit paged) = true) by (apply Z.ltb_lt; lia).
    rewrite E. lia.
  - rewrite ddb_ListProducts_selected. cbv zeta. eexists. repeat split.
    cbn [Products]. rewrite ddb_limit_len.
    assert (E : (0 <? fLimit paged) = true) by (apply Z.ltb_lt; lia).
    rewrite E. lia.
Qed.

(* ================================================================== *)
(** * Filter monotonicity                                              *)
(* ================================================================== *)

Section Monotonicity.

Lemma adds_constraint_page (f f' : ProductFilter) :
  adds_constraint f f' ->
  fLimit f' = fLimit f /\ fOffset f' = fOffset f.
Proof. destruct 1; split; reflexivity. Qed.

Ltac drop_conjunct :=
  rewrite ?andb_true_iff, ?orb_true_iff in *; intuition auto.

(** One more supplied constraint only narrows the relational [WHERE]. *)
Lemma adds_constraint_pg (f f' : ProductFilter) (p : Product) :
  adds_constraint f f' ->
  Postgres.eval_query (Postgres.list_query f') p = true ->
  Postgres.eval_query (Postgres.list_query f) p = true.
Proof.
  rewrite !pg_query_satisfies. unfold satisfies.
  destruct 1 as [f v H|f v H|f v H|f v H|f v H|f v H|f v H|f v H|f v H];
    cbn [fCategoryID fDepartmentID fBrand
      fMinPrice fMaxPrice fInStock fIsOnSale fMinRating fSearch
      set_CategoryID set_DepartmentID set_Brand set_MinPrice set_MaxPrice
      set_InStock set_IsOnSale set_MinRating set_Search];
    rewrite H; change (nonempty EmptyString) with false; cbn [negb orb];
    intros Hq; drop_conjunct.
Qed.

(** ... and the key-value filter expression with its in-memory search. *)
Lemma adds_constraint_ddb (f f' : ProductFilter) (p : Product) :
  adds_constraint f f' -> matches f' p = true -> matches f p = true.
Proof.
  unfold matches, satisfies.
  destruct 1 as [f v H|f v H|f v H|f v H|f v H|f v H|f v H|f v H|f v H];
    cbn [fCategoryID fDepartmentID fBrand
      fMinPrice fMaxPrice fInStock fIsOnSale fMinRating fSearch
      set_CategoryID set_DepartmentID set_Brand set_MinPrice set_MaxPrice
      set_InStock set_IsOnSale set_MinRating set_Search];
    rewrite H; change (nonempty EmptyString) with false; cbn [negb orb];
    intros Hq; drop_conjunct.
Qed.

Lemma adds_constraint_selected (b : backend) (s : store b)
    (f f' : ProductFilter) :
  adds_constraint f f' -> sublist (selected b f' s) (selected b f s).
Proof.
  intros Hadd. destruct b.
  - cbn [selected]. apply sublist_filter. intros p.
    now apply adds_constraint_pg.
  - rewrite !ddb_selected_filter.
    destruct (adds_constraint_page _ _ Hadd) as [-> _].
    apply sublist_filter. intros p. now apply adds_constraint_ddb.
Qed.

End Monotonicity.

(** C9: on a fixed dataset, when [f'] is [f] with one more constraint
    supplied (category, department, brand, min or max price, in-stock,
    on-sale, min rating or search), the records selected for [f'] are among
    those selected for [f], on either backend; the reported total and the
    size of the returned page do not grow. *)
Theorem filter_monotone (b : backend) (s : store b) (f f' : ProductFilter) :
  adds_constraint f f' ->
  sublist (selected b f' s) (selected b f s) /\
  (forall p, In p (selected b f' s) -> In p (selected b f s)) /\
  exists r r',
    repoListProducts f s = Ok r /\
    repoListProducts f' s = Ok r' /\
    TotalCount r' <= TotalCount r /\
    len (Products r') <= len (Products r).
Proof.
  intros Hadd.
  pose proof (adds_constraint_selected b s f f' Hadd) as Hsub.
  split; [exact Hsub|]. split; [exact (sublist_In _ _ Hsub)|].
  apply sublist_len in Hsub.
  destruct (adds_constraint_page _ _ Hadd) as [HL HO].
  destruct b; cbn [repoListProducts backend_repository PostgresProducts
                   DynamoDBProducts store] in *.
  - rewrite !pg_ListProducts_selected. do 2 eexists.
    split; [reflexivity|]. split; [reflexivity|].
    cbn [TotalCount Products]. split; [exact Hsub|].
    rewrite !pg_page_len, HL, HO. cbv zeta.
    destruct (0 <? fOffset f), (0 <? fLimit f); lia.
  - rewrite !ddb_ListProducts_selected. cbv zeta. do 2 eexists.
    split; [reflexivity|]. split; [reflexivity|].
    cbn [TotalCount Products].
    rewrite !ddb_limit_len, !ddb_offset_len, HL, HO.
    destruct (0 <? fOffset f), (0 <? fLimit f); lia.
Qed.

Lemma filter_monotone_witness :
  adds_constraint emptyFilter (set_Search emptyFilter "milk") /\
  sublist
    (selected KeyValue (set_Search emptyFilter "milk") shelf)
    (selected KeyValue emptyFilter shelf).
Proof.
  assert (H : adds_constraint emptyFilter (set_Search emptyFilter "milk"))
    by (apply add_search; reflexivity).
  split; [exact H|].
  exact (proj1 (filter_monotone KeyValue shelf _ _ H)).
Defined.

(* ================================================================== *)
(** * Stock adjustment                                                 *)
(* ================================================================== *)

Section Storage.
Context {A : Type}.

Lemma find_map_preserving (P : A -> bool) (h : A -> A) (rows : list A) :
  (forall r, P (h r) = P r) ->
  find P (map h rows) = option_map h (find P rows).
Proof.
  intros HP. induction rows as [|r rows IH]; simpl; [reflexivity|].
  rewrite HP. destruct (P r); [reflexivity | exact IH].
Qed.

Lemma find_update_where (P C : A -> bool) (g : A -> A) (rows : list A) :
  (forall r, P (g r) = P r) ->
  find P (update_where C g rows) =
  option_map (fun r => if C r then g r else r) (find P rows).
Proof.
  intros HP. unfold update_where. apply find_map_preserving.
  intros r. destruct (C r); [apply HP | reflexivity].
Qed.

Lemma find_weaken (P C : A -> bool) (rows : list A) (r : A) :
  (forall x, P x = true -> C x = true) ->
  find P rows = Some r -> exists r', find C rows = Some r'.
Proof.
  intros HPC H. apply find_some in H as [Hin HP].
  destruct (find C rows) eqn:E; [eauto|].
  apply (find_none _ _ E) in Hin. rewrite (HPC _ HP) in Hin. discriminate.
Qed.

End Storage.

Section Int64.

Lemma wrap64_exact (z : Z) : in_int64 z -> wrap64 z = z.
Proof.
  unfold in_int64, wrap64, MinInt64, MaxInt64. intros H.
  rewrite Z.mod_small; lia.
Qed.

(** A sum that does not fall below the least [int] is negative exactly when
    its 64-bit value is; above the greatest [int] it wraps to a negative
    value. *)
Lemma wrap64_sum_nonneg (a b : Z) :
  MinInt64 <= a + b -> in_int64 a -> in_int64 b ->
  0 <= wrap64 (a + b) -> 0 <= a + b.
Proof.
  unfold in_int64, wrap64, MinInt64, MaxInt64. intros Ha Hra Hrb H.
  destruct (Z_le_gt_dec (a + b) (2 ^ 63 - 1)) as [Hle|Hgt].
  - rewrite Z.mod_small in H; lia.
  - replace (a + b + 2 ^ 63) with (a + b - 2 ^ 63 + 1 * 2 ^ 64) in H by lia.
    rewrite Z.mod_add in H by lia. rewrite Z.mod_small in H; lia.
Qed.

End Int64.

Section Stock.

Lemma insufficient_stock_message (current requested : string) :
  is_insufficient_stock
    ("insufficient stock: current=" ++ current ++ ", requested=" ++ requested)
  = true.
Proof. reflexivity. Qed.

(** What the relational [UpdateStock] leaves behind when it succeeds. *)
Lemma pg_UpdateStock_ok now id quantity db db' :
  Postgres.UpdateStock now id quantity db = (Ok tt, db') ->
  Postgres.products db' =
  update_where (fun p => String.eqb (ID p) id)
    (fun p => apply_assign (apply_assign p (SetStock (Stock p + quantity)))
                (SetUpdatedAt now))
    (Postgres.products db).
Proof.
  unfold Postgres.UpdateStock.
  destruct (forallb _ _); [|discriminate].
  destruct (rows_affected _ _ =? 0); [discriminate|].
  intros H. injection H as <-. reflexivity.
Qed.

Lemma ddb_UpdateStock_ok now id quantity table table' :
  DynamoDB.UpdateStock now id quantity table = (Ok tt, table') ->
  table' =
  update_where (fun p => String.eqb (ID p) id)
    (fun p => apply_assign (apply_assign p (SetStock (Stock p + quantity)))
                (SetUpdatedAt now))
    table.
Proof.
  unfold DynamoDB.UpdateStock.
  destruct (DynamoDB.valid_key id); [|discriminate].
  destruct (find _ _); [|discriminate].
  intros H. now injection H as <-.
Qed.

(** What a successful [GetProduct] of the key-value repository tells: the
    store accepted the key, and the item is the first one under it. *)
Lemma ddb_GetProduct_ok id (table : DynamoDB.Table) product :
  DynamoDB.GetProduct id table = Ok product ->
  DynamoDB.valid_key id = true /\
  find (fun p => String.eqb (ID p) id) table = Some product.
Proof.
  unfold DynamoDB.GetProduct.
  destruct (DynamoDB.valid_key id); [|discriminate].
  destruct (find _ table); [|discriminate].
  intros H. injection H as ->. split; reflexivity.
Qed.

Lemma ddb_GetProduct_found id (table : DynamoDB.Table) product :
  DynamoDB.valid_key id = true ->
  find (fun p => String.eqb (ID p) id) table = Some product ->
  DynamoDB.GetProduct id table = Ok product.
Proof. intros Hk Hf. unfold DynamoDB.GetProduct. now rewrite Hk, Hf. Qed.

End Stock.

(** What the check of the service does establish, on either backend: for a
    product the repository returns under a non-empty id, as long as current
    stock + delta does not fall below the least 64-bit integer, UpdateStock
    fails with an insufficient-stock error, leaving the store as it was,
    whenever current stock + delta < 0; and whenever it succeeds the stored
    stock is current stock + delta, which is not negative. *)
Lemma UpdateStock_in_range (b : backend) (now : time) (id : string)
    (quantity : Z) (s : store b) (product : Product) :
  id <> EmptyString ->
  repoGetProduct id s = Ok product ->
  in_int64 (Stock product) -> in_int64 quantity ->
  MinInt64 <= Stock product + quantity ->
  (Stock product + quantity < 0 ->
   exists err,
     ProductService.UpdateStock now id quantity s = (Err err, s) /\
     is_insufficient_stock err = true) /\
  (forall s',
     ProductService.UpdateStock now id quantity s = (Ok tt, s') ->
     exists product',
       repoGetProduct id s' = Ok product' /\
       Stock product' = Stock product + quantity /\
       0 <= Stock product').
Proof.
  intros Hid Hget Hstock Hq Hmin.
  apply String.eqb_neq in Hid.
  unfold ProductService.UpdateStock. rewrite Hid, Hget. split.
  - intros Hneg.
    assert (Hw : wrap64 (Stock product + quantity) = Stock product + quantity).
    { apply wrap64_exact. unfold in_int64, MinInt64, MaxInt64 in *. lia. }
    rewrite Hw. apply Z.ltb_lt in Hneg. rewrite Hneg.
    eexists. split; [reflexivity | apply insufficient_stock_message].
  - intros s'.
    destruct (wrap64 (Stock product + quantity) <? 0) eqn:Hw; [discriminate|].
    apply Z.ltb_ge in Hw.
    apply (wrap64_sum_nonneg _ _ Hmin Hstock Hq) in Hw.
    destruct (repoUpdateStock now id quantity s) as [[[]|err] s1] eqn:Hupd;
      [|discriminate].
    intros H. injection H as <-.
    destruct b; cbn [repoGetProduct repoUpdateStock backend_repository
                     PostgresProducts DynamoDBProducts store] in *.
    + apply pg_UpdateStock_ok in Hupd.
      unfold Postgres.GetProduct in *. rewrite Hupd.
      rewrite find_update_where by reflexivity.
      destruct (find _ (Postgres.products s)) as [p|] eqn:Hf; [|discriminate].
      injection Hget as ->. cbn [option_map].
      apply find_some in Hf as [_ Hp]. apply andb_true_iff in Hp as [Hp _].
      rewrite Hp. eexists. split; [reflexivity|]. cbn [Stock apply_assign].
      split; [reflexivity | exact Hw].
    + apply ddb_UpdateStock_ok in Hupd. subst s1.
      apply ddb_GetProduct_ok in Hget as [Hkey Hf].
      unfold DynamoDB.GetProduct. rewrite Hkey.
      rewrite find_update_where by reflexivity. rewrite Hf.
      cbn [option_map].
      apply find_some in Hf as [_ Hp]. rewrite Hp.
      eexists. split; [reflexivity|]. cbn [Stock apply_assign].
      split; [reflexivity | exact Hw].
Qed.

Example UpdateStock_in_range_ex :
  exists err,
    ProductService.UpdateStock 7 "p1" (-12) (load KeyValue shelf)
    = (Err err, load KeyValue shelf) /\
    is_insufficient_stock err = true.
Proof.
  refine (proj1 (UpdateStock_in_range KeyValue 7 "p1" (-12)
                   (load KeyValue shelf) milk _ _ _ _ _) _).
  - discriminate.
  - reflexivity.
  - unfold in_int64, MinInt64, MaxInt64. simpl. lia.
  - unfold in_int64, MinInt64, MaxInt64. lia.
  - unfold MinInt64. simpl. lia.
  - simpl. lia.
Qed.

(** The specification's scenario: stock 10, reorder threshold 5. Taking 12
    is refused, taking 10 leaves 0, and the product is then low on stock. *)
Example stock_scenario (b : backend) :
  let s := load b [milk] in
  fst (ProductService.UpdateStock 7 "p1" (-12) s)
  = Err "insufficient stock: current=10, requested=-12" /\
  fst (ProductService.UpdateStock 7 "p1" (-10) s) = Ok tt /\
  map Stock (records b (snd (ProductService.UpdateStock 7 "p1" (-10) s)))
  = [0] /\
  match ProductService.GetLowStockProducts
          (snd (ProductService.UpdateStock 7 "p1" (-10) s)) with
  | Ok low => map ID low = ["p1"]
  | Err _ => False
  end.
Proof. destruct b; repeat split. Qed.

(** The repository's own UpdateStock adds the delta without any condition on
    the result: the only guard is the separate read of the service. *)
Example repository_stock_write_is_unguarded (b : backend) :
  let s := load b [milk] in
  fst (repoUpdateStock 7 "p1" (-20) s) = Ok tt /\
  map Stock (records b (snd (repoUpdateStock 7 "p1" (-20) s))) = [-10].
Proof. destruct b; split; reflexivity. Qed.

(** C3: the check of the service is taken on the 64-bit sum.  The service's
    UpdateProduct stores the stock -1 without a check, on either backend.
    For the delta -2^63 the sum -1 + delta is negative, but its 64-bit value
    is 2^63 - 1, so the check passes: the key-value backend reports success
    and leaves the stock at -1 - 2^63, and the relational backend fails in
    the database with an error that is not an insufficient-stock error. *)
Theorem stock_check_wraps_around :
  let request := Some (patchStock (-1)) in
  let kv :=
    snd (ProductService.UpdateProduct 6 "p1" request (load KeyValue [milk])) in
  let pg :=
    snd (ProductService.UpdateProduct 6 "p1" request
           (load Relational [milk])) in
  is_ok (fst (ProductService.UpdateProduct 6 "p1" request
                (load KeyValue [milk]))) = true /\
  is_ok (fst (ProductService.UpdateProduct 6 "p1" request
                (load Relational [milk]))) = true /\
  map Stock (records KeyValue kv) = [-1] /\
  map Stock (records Relational pg) = [-1] /\
  -1 + MinInt64 < 0 /\
  fst (ProductService.UpdateStock 7 "p1" MinInt64 kv) = Ok tt /\
  map Stock
    (records KeyValue (snd (ProductService.UpdateStock 7 "p1" MinInt64 kv)))
  = [-1 - 2 ^ 63] /\
  exists err,
    ProductService.UpdateStock 7 "p1" MinInt64 pg = (Err err, pg) /\
    is_insufficient_stock err = false.
Proof.
  cbv zeta. repeat (split; [reflexivity|]).
  eexists. split; reflexivity.
Qed.

(* ================================================================== *)
(** * Soft delete                                                      *)
(* ================================================================== *)

Section SoftDelete.

Lemma find_id_update_where {A} (key : A -> string) (id : string)
    (g : A -> A) (rows : list A) :
  (forall r, key (g r) = key r) ->
  find (fun r => String.eqb (key r) id)
    (update_where (fun r => String.eqb (key r) id) g rows) =
  option_map g (find (fun r => String.eqb (key r) id) rows).
Proof.
  intros Hkey. induction rows as [|r rows IH]; simpl; [reflexivity|].
  destruct (String.eqb (key r) id) eqn:E.
  - now rewrite Hkey, E.
  - rewrite E. exact IH.
Qed.

(** The relational repository under the soft-delete patch. *)
Lemma pg_UpdateProduct_deactivate now id db product :
  find (fun p => String.eqb (ID p) id) (Postgres.products db) = Some product ->
  Postgres.UpdateProduct now id (patchIsActive false) db =
  (Ok (deactivated now product),
   Postgres.with_products db
     (update_where (fun p => String.eqb (ID p) id) (deactivated now)
        (Postgres.products db))).
Proof.
  intros Hf. unfold Postgres.UpdateProduct. rewrite Hf.
  pose proof (find_some _ _ Hf) as [_ Hid]. apply String.eqb_eq in Hid.
  cbn [patch_assigns patchIsActive set_if uName uDescription uPrice
       uCategoryID uSlug uOriginalPrice uDepartmentID uBrand uUnit uStock
       uWeight uWeightUnit uIsOnSale uDiscount uRating uReviews uIsActive
       app].
  change (len [SetIsActive false] =? 0) with false. cbv iota.
  rewrite Hid. unfold Postgres.Updates.
  cbn [Postgres.products Postgres.with_products].
  change (fun p => apply_assign (apply_assigns [SetIsActive false] p)
                     (SetUpdatedAt now)) with (deactivated now).
  rewrite (find_id_update_where ID) by reflexivity.
  rewrite Hf. reflexivity.
Qed.

(** The key-value repository under the soft-delete patch. *)
Lemma ddb_UpdateProduct_deactivate now id table product :
  DynamoDB.valid_key id = true ->
  find (fun p => String.eqb (ID p) id) table = Some product ->
  DynamoDB.UpdateProduct now id (patchIsActive false) table =
  (Ok (deactivated now product),
   update_where (fun p => String.eqb (ID p) id) (deactivated now) table).
Proof.
  intros Hkey Hf. unfold DynamoDB.UpdateProduct.
  cbn [patch_assigns patchIsActive set_if uName uDescription uPrice
       uCategoryID uSlug uOriginalPrice uDepartmentID uBrand uUnit uStock
       uWeight uWeightUnit uIsOnSale uDiscount uRating uReviews uIsActive
       app].
  change (len [SetIsActive false; SetUpdatedAt now] =? 0) with false.
  cbv iota. unfold DynamoDB.UpdateItem. rewrite Hkey, Hf. reflexivity.
Qed.

(** A successful service-level delete, on either backend: the record was
    there, and what is stored afterwards is the same rows with the ones
    under [id] deactivated. *)
Lemma DeleteProduct_records (b : backend) now id (s s' : store b) :
  ProductService.DeleteProduct now id s = (Ok tt, s') ->
  (exists p, In p (records b s) /\ ID p = id) /\
  records b s' =
  update_where (fun p => String.eqb (ID p) id) (deactivated now)
    (records b s).
Proof.
  unfold ProductService.DeleteProduct.
  destruct (String.eqb id EmptyString); [discriminate|].
  destruct (repoGetProduct id s) as [p0|err] eqn:Hget; [|discriminate].
  destruct b; cbn [repoGetProduct repoUpdateProduct backend_repository
                   PostgresProducts DynamoDBProducts store records] in *.
  - unfold Postgres.GetProduct in Hget.
    destruct (find _ (Postgres.products s)) as [p1|] eqn:Hf; [|discriminate].
    destruct (find_weaken _ (fun p => String.eqb (ID p) id) _ _
                (fun x Hx => proj1 (proj1 (andb_true_iff _ _) Hx)) Hf)
      as [product Hprod].
    rewrite (pg_UpdateProduct_deactivate _ _ _ _ Hprod).
    intros H. injection H as <-. split; [|reflexivity].
    apply find_some in Hprod as [Hin Hid]. apply String.eqb_eq in Hid. eauto.
  - apply ddb_GetProduct_ok in Hget as [Hkey Hprod].
    rewrite (ddb_UpdateProduct_deactivate _ _ _ _ Hkey Hprod).
    intros H. injection H as <-. split; [|reflexivity].
    apply find_some in Hprod as [Hin Hid]. apply String.eqb_eq in Hid. eauto.
Qed.

(** On the key-value backend a service-level delete only succeeds on a key
    the store accepts. *)
Lemma ddb_DeleteProduct_key now id (table table' : DynamoDB.Table) :
  ProductService.DeleteProduct now id table = (Ok tt, table') ->
  DynamoDB.valid_key id = true.
Proof.
  unfold ProductService.DeleteProduct.
  destruct (String.eqb id EmptyString); [discriminate|].
  cbn [repoGetProduct DynamoDBProducts].
  destruct (DynamoDB.GetProduct id table) as [p0|err] eqn:Hget;
    [|discriminate].
  intros _. now apply ddb_GetProduct_ok in Hget as [Hkey _].
Qed.



(** A successful department delete on the relational backend. *)
Lemma DeleteDepartment_records now id (db db' : Postgres.DB) :
  DepartmentService.DeleteDepartment now id db = (Ok tt, db') ->
  (exists d, In d (Postgres.departments db) /\ dID d = id) /\
  Postgres.departments db' =
  update_where (fun d => String.eqb (dID d) id) (deactivated_department now)
    (Postgres.departments db).
Proof.
  unfold DepartmentService.DeleteDepartment.
  destruct (String.eqb id EmptyString); [discriminate|].
  cbn [repoGetDepartment repoUpdateDepartment PostgresDepartments].
  unfold Postgres.GetDepartment.
  destruct (find _ (Postgres.departments db)) as [d1|] eqn:Hf; [|discriminate].
  destruct (find_weaken _ (fun d => String.eqb (dID d) id) _ _
              (fun x Hx => proj1 (proj1 (andb_true_iff _ _) Hx)) Hf)
    as [department Hdep].
  unfold Postgres.UpdateDepartment. rewrite Hdep.
  pose proof (find_some _ _ Hdep) as [Hin Hid]. apply String.eqb_eq in Hid.
  cbn [set_if udName udDescription udIcon udImage udSlug udIsActive app].
  change (len [Postgres.SetDIsActive false] =? 0) with false. cbv iota.
  rewrite Hid. cbn [Postgres.departments Postgres.with_departments].
  change (fun d => Postgres.apply_dassign
                     (fold_left Postgres.apply_dassign
                        [Postgres.SetDIsActive false] d)
                     (Postgres.SetDUpdatedAt now))
    with (deactivated_department now).
  rewrite (find_id_update_where dID) by reflexivity.
  rewrite Hdep. cbn [option_map].
  intros H. injection H as <-. split; [eauto | reflexivity].
Qed.



End SoftDelete.




(* ================================================================== *)
(** * Reading after a soft delete                                      *)
(* ================================================================== *)

Section AfterDelete.

Lemma In_take {A} (n : Z) (xs : list A) x : In x (take n xs) -> In x xs.
Proof.
  unfold take. generalize (Z.to_nat n) as k.
  induction xs as [|y ys IH]; intros [|k]; simpl; try tauto.
  intros [H|H]; [now left | right; eauto].
Qed.

Lemma In_drop {A} (n : Z) (xs : list A) x : In x (drop n xs) -> In x xs.
Proof.
  unfold drop. generalize (Z.to_nat n) as k.
  induction xs as [|y ys IH]; intros [|k]; simpl; try tauto.
  intros H. right. eauto.
Qed.

Lemma find_all_false {A} (P : A -> bool) (xs : list A) :
  (forall x, In x xs -> P x = false) -> find P xs = None.
Proof.
  induction xs as [|x xs IH]; simpl; intros H; [reflexivity|].
  rewrite (H x (or_introl eq_refl)). apply IH. intros y Hy. apply H. now right.
Qed.

Lemma selected_active (b : backend) (f : ProductFilter) (s : store b) p :
  In p (selected b f s) -> In p (records b s) /\ IsActive p = true.
Proof.
  destruct b.
  - cbn [selected records]. intros H. apply filter_In in H as [Hin Hq].
    split; [exact Hin|]. rewrite pg_query_satisfies in Hq.
    unfold satisfies in Hq. rewrite !andb_true_iff in Hq.
    apply Bool.eqb_prop. tauto.
  - rewrite ddb_selected_filter. cbn [records].
    intros H. apply filter_In in H as [Hin Hq]. split.
    + destruct (0 <? fLimit f); [now apply In_take in Hin | exact Hin].
    + unfold matches, satisfies in Hq. rewrite !andb_true_iff in Hq.
      apply Bool.eqb_prop. tauto.
Qed.

(** Every listed product is a stored, active record. *)
Lemma listed_active (b : backend) (f : ProductFilter) (s : store b) r p :
  repoListProducts f s = Ok r -> In p (Products r) ->
  In p (records b s) /\ IsActive p = true.
Proof.
  intros Hr Hin. apply (selected_active b f s).
  destruct b; cbn [repoListProducts backend_repository PostgresProducts
                   DynamoDBProducts store] in Hr.
  - rewrite pg_ListProducts_selected in Hr. injection Hr as <-.
    cbn [Products] in Hin. cbv zeta in Hin.
    destruct (Postgres.positive (fLimit f));
      [apply In_take in Hin|];
      (destruct (Postgres.positive (fOffset f));
       [now apply In_drop in Hin | exact Hin]).
  - rewrite ddb_ListProducts_selected in Hr. cbv zeta in Hr.
    injection Hr as <-. cbn [Products] in Hin.
    destruct ((0 <? fLimit f) && _); [apply In_take in Hin|];
      (destruct ((0 <? fOffset f) && _);
       [now apply In_drop in Hin
       | destruct (_ <=? fOffset f); [contradiction | exact Hin]]).
Qed.

Lemma deleted_rows_inactive (b : backend) now id (s s' : store b) p :
  ProductService.DeleteProduct now id s = (Ok tt, s') ->
  In p (records b s') -> ID p = id -> IsActive p = false.
Proof.
  intros Hdel Hin Hid.
  destruct (DeleteProduct_records b now id s s' Hdel) as [_ Hrec].
  rewrite Hrec in Hin. unfold update_where in Hin.
  apply in_map_iff in Hin as (r & Hr & _).
  destruct (String.eqb (ID r) id) eqn:E.
  - now subst p.
  - subst p. apply String.eqb_neq in E. contradiction.
Qed.

(** After a successful service-level delete the product is in no list
    result, on either backend. *)
Lemma deleted_not_listed (b : backend) now id (s s' : store b) f r p :
  ProductService.DeleteProduct now id s = (Ok tt, s') ->
  repoListProducts f s' = Ok r -> In p (Products r) -> ID p <> id.
Proof.
  intros Hdel Hr Hin Hid.
  destruct (listed_active b f s' r p Hr Hin) as [Hrow Hact].
  rewrite (deleted_rows_inactive b now id s s' p Hdel Hrow Hid) in Hact.
  discriminate.
Qed.

(** ... and on the relational backend [get] then fails with not-found. *)
Lemma pg_deleted_not_found now id (db db' : Postgres.DB) :
  ProductService.DeleteProduct now id db = (Ok tt, db') ->
  exists err,
    ProductService.GetProduct id db' = Err err /\ is_not_found err = true.
Proof.
  intros Hdel.
  assert (Hid : String.eqb id EmptyString = false).
  { unfold ProductService.DeleteProduct in Hdel.
    destruct (String.eqb id EmptyString); [discriminate | reflexivity]. }
  unfold ProductService.GetProduct. rewrite Hid.
  cbn [repoGetProduct PostgresProducts]. unfold Postgres.GetProduct.
  rewrite find_all_false.
  - eexists. split; reflexivity.
  - intros p Hin. destruct (String.eqb (ID p) id) eqn:E; [|reflexivity].
    apply String.eqb_eq in E.
    now rewrite (deleted_rows_inactive Relational now id db db' p Hdel Hin E).
Qed.

(** The key-value [GetProduct] reads by key alone: after a successful
    service-level delete it still returns the record. *)
Lemma ddb_deleted_still_got now id (table table' : DynamoDB.Table) :
  ProductService.DeleteProduct now id table = (Ok tt, table') ->
  exists p,
    ProductService.GetProduct id table' = Ok p /\
    ID p = id /\ IsActive p = false.
Proof.
  intros Hdel.
  assert (Hid : String.eqb id EmptyString = false).
  { unfold ProductService.DeleteProduct in Hdel.
    destruct (String.eqb id EmptyString); [discriminate | reflexivity]. }
  destruct (DeleteProduct_records KeyValue now id table table' Hdel)
    as [(p0 & Hin & Hp0) Hrec].
  cbn [records] in *.
  unfold ProductService.GetProduct. rewrite Hid.
  cbn [repoGetProduct DynamoDBProducts]. unfold DynamoDB.GetProduct.
  rewrite (ddb_DeleteProduct_key now id table table' Hdel).
  rewrite Hrec, (find_id_update_where ID) by reflexivity.
  destruct (find _ table) as [q|] eqn:Hf.
  - cbn [option_map]. exists (deactivated now q). split; [reflexivity|].
    apply find_some in Hf as [_ Hq]. apply String.eqb_eq in Hq.
    split; [exact Hq | reflexivity].
  - apply (find_none _ _ Hf) in Hin. apply String.eqb_neq in Hin.
    contradiction.
Qed.

End AfterDelete.

(** C4, evaluated on the key-value backend: the service-level delete of the
    product p1 succeeds and p1 is no longer listed, yet get(p1) succeeds and
    returns the stored record with is_active = false; the relational
    backend answers not-found on the same data. *)
Theorem soft_deleted_product_is_still_got :
  exists table',
    ProductService.DeleteProduct 7 "p1" (load KeyValue shelf)
    = (Ok tt, table') /\
    ProductService.GetProduct "p1" table' = Ok (deactivated 7 milk) /\
    IsActive (deactivated 7 milk) = false /\
    (exists r, ProductService.ListProducts emptyFilter table' = Ok r /\
               map ID (Products r) = ["p2"]) /\
    exists db',
      ProductService.DeleteProduct 7 "p1" (load Relational shelf)
      = (Ok tt, db') /\
      ProductService.GetProduct "p1" db'
      = Err "failed to get product: product not found".
Proof.
  eexists. split; [reflexivity|]. split; [reflexivity|].
  split; [reflexivity|]. split.
  - eexists. split; reflexivity.
  - eexists. split; reflexivity.
Qed.

(* ================================================================== *)
(** * Empty patches                                                    *)
(* ================================================================== *)

Section EmptyPatch.

(** The key-value [UpdateProduct] never refuses a patch: the timestamp
    assignment is added before the emptiness test, so the answer is never
    "no fields to update", and under a key the store accepts the call goes
    through whatever the patch. *)
Lemma ddb_UpdateProduct_never_refuses now id updates
    (table : DynamoDB.Table) :
  fst (DynamoDB.UpdateProduct now id updates table)
  <> Err "no fields to update" /\
  (DynamoDB.valid_key id = true ->
   exists p table',
     DynamoDB.UpdateProduct now id updates table = (Ok p, table')).
Proof.
  unfold DynamoDB.UpdateProduct.
  assert (E : (len (patch_assigns updates ++ [SetUpdatedAt now]) =? 0)
              = false).
  { apply Z.eqb_neq. rewrite len_app. pose proof (len_nonneg
      (patch_assigns updates)). change (len [SetUpdatedAt now]) with 1. lia. }
  rewrite E. unfold DynamoDB.UpdateItem. split.
  - destruct (DynamoDB.valid_key id); [|discriminate].
    destruct (find _ table); discriminate.
  - intros ->. destruct (find _ table); eauto.
Qed.

(** The relational [UpdateProduct] refuses the empty patch of an existing
    product and leaves the database as it was. *)
Lemma pg_empty_patch_refused now id (db : Postgres.DB) product :
  find (fun p => String.eqb (ID p) id) (Postgres.products db) = Some product ->
  Postgres.UpdateProduct now id emptyPatch db
  = (Err "no fields to update", db).
Proof.
  intros Hf. unfold Postgres.UpdateProduct. rewrite Hf. reflexivity.
Qed.

(** ... and answers not-found when there is no such product. *)
Lemma pg_empty_patch_unknown now id (db : Postgres.DB) :
  find (fun p => String.eqb (ID p) id) (Postgres.products db) = None ->
  Postgres.UpdateProduct now id emptyPatch db
  = (Err "product not found", db).
Proof.
  intros Hf. unfold Postgres.UpdateProduct. now rewrite Hf.
Qed.

End EmptyPatch.

(** C5, evaluated on the key-value backend: the update of p1 with the patch
    whose fields are all absent returns no error and rewrites the stored
    record (updated_at becomes the time of the call); the relational
    backend refuses the same call with "no fields to update". *)
Theorem empty_patch_is_applied_by_key_value :
  DynamoDB.UpdateProduct 7 "p1" emptyPatch shelf
  = (Ok (apply_assign milk (SetUpdatedAt 7)),
     [apply_assign milk (SetUpdatedAt 7); bread]) /\
  ProductService.UpdateProduct 7 "p1" (Some emptyPatch) (load KeyValue shelf)
  = (Ok (apply_assign milk (SetUpdatedAt 7)),
     [apply_assign milk (SetUpdatedAt 7); bread]) /\
  [apply_assign milk (SetUpdatedAt 7); bread] <> shelf /\
  ProductService.UpdateProduct 7 "p1" (Some emptyPatch)
    (load Relational shelf)
  = (Err "failed to update product: no fields to update",
     load Relational shelf).
Proof.
  repeat split; try reflexivity. discriminate.
Qed.

(* ================================================================== *)
(** * Search                                                           *)
(* ================================================================== *)

Section Search.

(** The in-memory search of the key-value repository is the search rule of
    the specification. *)
Lemma ddb_search_spec (search : string) (p : Product) :
  DynamoDB.search_match (Strings.ToLower search) p = true <->
  search_spec search p.
Proof.
  rewrite ddb_search_match_existsb, existsb_exists. unfold search_spec.
  split; intros (col & Hin & H); exists col; (split; [exact Hin|]);
    now apply Contains_iff.
Qed.

(** So is the [LIKE] clause of the relational repository, for a query whose
    lower-cased form has no [%], [_] or backslash. *)
Lemma pg_search_spec (search : string) (p : Product) :
  Strings.like_plain (Strings.ToLower search) = true ->
  Postgres.eval_clause
    (Postgres.SearchLike ("%" ++ Strings.ToLower search ++ "%")) p = true <->
  search_spec search p.
Proof.
  intros Hplain. cbn [Postgres.eval_clause].
  rewrite existsb_exists. unfold search_spec.
  split; intros (col & Hin & H); exists col; (split; [exact Hin|]).
  - apply Contains_iff. now rewrite <- (Like_contains _ _ Hplain).
  - rewrite (Like_contains _ _ Hplain). now apply Contains_iff.
Qed.

End Search.

(** C8, evaluated on the relational backend: for the search string "_" no
    product of the sample has the string in its name, description, SKU,
    brand or slug, and the key-value backend selects none, yet the
    relational backend selects both products ([_] is a LIKE wildcard). *)
Theorem like_wildcard_selects_non_matching :
  (forall p, In p shelf -> ~ search_spec "_" p) /\
  (exists r,
     ProductService.ListProducts (set_Search emptyFilter "_")
       (load KeyValue shelf) = Ok r /\
     map ID (Products r) = []) /\
  (exists r,
     ProductService.ListProducts (set_Search emptyFilter "_")
       (load Relational shelf) = Ok r /\
     map ID (Products r) = ["p1"; "p2"] /\ TotalCount r = 2).
Proof.
  split; [|split].
  - intros p Hin Hspec.
    apply (ddb_search_spec "_" p) in Hspec.
    destruct Hin as [<-|[<-|[]]]; discriminate Hspec.
  - eexists. split; reflexivity.
  - eexists. split; [reflexivity|]. split; reflexivity.
Qed.

(* ================================================================== *)
(** * Total count and backend equivalence                              *)
(* ================================================================== *)

Section TotalCount.

(** The relational total is the number of selected records, whatever the
    limit and the offset. *)
Lemma pg_total_count (f : ProductFilter) (db : Postgres.DB) :
  exists r,
    Postgres.ListProducts f db = Ok r /\
    TotalCount r = len (selected Relational f db).
Proof. eexists. split; reflexivity. Qed.

Lemma pg_total_count_matches (f : ProductFilter) (db : Postgres.DB) :
  Strings.like_plain (Strings.ToLower (fSearch f)) = true ->
  exists r,
    Postgres.ListProducts f db = Ok r /\
    TotalCount r = len (filter (matches f) (Postgres.products db)).
Proof.
  intros Hplain. eexists. split; [reflexivity|].
  cbn [TotalCount]. unfold Postgres.Count.
  now rewrite <- (pg_selected_filter f db Hplain).
Qed.

(** The key-value total is what is left of the selected records once the
    offset has been cut off. *)
Lemma ddb_total_count (f : ProductFilter) (table : DynamoDB.Table) :
  exists r,
    DynamoDB.ListProducts f table = Ok r /\
    TotalCount r =
    if 0 <? fOffset f
    then Z.max 0 (len (selected KeyValue f table) - fOffset f)
    else len (selected KeyValue f table).
Proof.
  rewrite ddb_ListProducts_selected. cbv zeta. eexists.
  split; [reflexivity|]. cbn [TotalCount]. apply ddb_offset_len.
Qed.

End TotalCount.

(** The scan limit is applied to the items read, before the filter: with an
    inactive record stored first and limit 1, the active product behind it
    is not found. *)
Example scan_limit_precedes_filter :
  let table := [sample "p0" "Cocoa" 4 false; milk] in
  let f := set_Limit emptyFilter 1 in
  map ID (filter (matches f) table) = ["p1"] /\
  (exists r, DynamoDB.ListProducts f table = Ok r /\
             Products r = [] /\ TotalCount r = 0) /\
  (exists r, Postgres.ListProducts f (load Relational table) = Ok r /\
             map ID (Products r) = ["p1"] /\ TotalCount r = 1).
Proof.
  cbv zeta. split; [reflexivity|]. split; eexists; repeat split.
Qed.

(** C2, evaluated on the key-value backend: two stored products match the
    empty filter; with offset 1 (and the service's default limit 20) the
    response reports total_count 1, the relational backend 2. *)
Theorem key_value_total_is_counted_after_offset :
  let f := set_Offset emptyFilter 1 in
  len (filter (matches f) shelf) = 2 /\
  (exists r,
     ProductService.ListProducts f (load KeyValue shelf) = Ok r /\
     map ID (Products r) = ["p2"] /\ TotalCount r = 1) /\
  (exists r,
     ProductService.ListProducts f (load Relational shelf) = Ok r /\
     map ID (Products r) = ["p2"] /\ TotalCount r = 2).
Proof.
  cbv zeta. split; [reflexivity|]. split; eexists; repeat split.
Qed.

(** C1, evaluated: on the same two stored products and the same filter
    (offset 1) the two repositories return the same page but different
    totals. *)
Theorem backends_disagree_on_total_count :
  let f := set_Offset emptyFilter 1 in
  exists r r',
    repoListProducts f (load Relational shelf) = Ok r /\
    repoListProducts f (load KeyValue shelf) = Ok r' /\
    map ID (Products r) = map ID (Products r') /\
    TotalCount r = 2 /\ TotalCount r' = 1.
Proof.
  cbv zeta. do 2 eexists. repeat split.
Qed.

(* ================================================================== *)
(** * Category levels                                                  *)
(* ================================================================== *)

Section Categories.



Lemma first_category_None id db c :
  Postgres.first_category id db = None ->
  In c (Postgres.categories db) -> cID c <> id.
Proof.
  unfold Postgres.first_category. intros H Hin.
  apply (find_none _ _ H) in Hin. now apply String.eqb_neq.
Qed.





End Categories.

(** C6, evaluated on the relational backend through the category service:
    after creating the roots food and fresh and the category dairy under
    food, moving food under fresh succeeds and gives food level 1; dairy
    keeps level 1 although its parent food now has level 1, so its level is
    not its parent's level plus one. *)
Theorem moved_parent_leaves_stale_child_level :
  let db3 :=
    run_ops [OpCreate 1 "food" (newCategory "food" None);
             OpCreate 2 "dairy" (newCategory "dairy" (Some "food"));
             OpCreate 3 "fresh" (newCategory "fresh" None)] emptyDB in
  forallb (level_ok db3) (Postgres.categories db3) = true /\
  exists food db4,
    CategoryService.UpdateCategory 4 "food" (Some (reparent "fresh")) db3
    = (Ok food, db4) /\
    db4 = run_ops history emptyDB /\
    map (fun c => (cID c, cParentID c, cLevel c)) (Postgres.categories db4)
    = [("food", Some "fresh", 1); ("dairy", Some "food", 1);
       ("fresh", None, 0)] /\
    map (level_ok db4) (Postgres.categories db4) = [true; false; true].
Proof.
  cbv zeta. split; [reflexivity|].
  do 2 eexists. split; [reflexivity|]. repeat split.
Qed.

(* ================================================================== *)
(** * Further properties of the product listing                        *)
(* ================================================================== *)

Section ListingSoundness.

Lemma selected_satisfies (b : backend) (f : ProductFilter) (s : store b) p :
  In p (selected b f s) -> In p (records b s) /\ satisfies f p = true.
Proof.
  destruct b.
  - cbn [selected records]. intros H. apply filter_In in H as [Hin Hq].
    split; [exact Hin|]. rewrite pg_query_satisfies in Hq.
    now apply andb_true_iff in Hq as [Hq _].
  - rewrite ddb_selected_filter. cbn [records].
    intros H. apply filter_In in H as [Hin Hq]. split.
    + destruct (0 <? fLimit f); [now apply In_take in Hin | exact Hin].
    + unfold matches in Hq. now apply andb_true_iff in Hq as [Hq _].
Qed.

Lemma listed_selected (b : backend) (f : ProductFilter) (s : store b) r p :
  repoListProducts f s = Ok r -> In p (Products r) -> In p (selected b f s).
Proof.
  intros Hr Hin.
  destruct b; cbn [repoListProducts backend_repository PostgresProducts
                   DynamoDBProducts store] in Hr.
  - rewrite pg_ListProducts_selected in Hr. injection Hr as <-.
    cbn [Products] in Hin. cbv zeta in Hin.
    destruct (Postgres.positive (fLimit f));
      [apply In_take in Hin|];
      (destruct (Postgres.positive (fOffset f));
       [now apply In_drop in Hin | exact Hin]).
  - rewrite ddb_ListProducts_selected in Hr. cbv zeta in Hr.
    injection Hr as <-. cbn [Products] in Hin.
    destruct ((0 <? fLimit f) && _); [apply In_take in Hin|];
      (destruct ((0 <? fOffset f) && _);
       [now apply In_drop in Hin
       | destruct (_ <=? fOffset f); [contradiction | exact Hin]]).
Qed.

Lemma nonempty_true (s : string) : nonempty s = true <-> s <> EmptyString.
Proof.
  unfold nonempty. rewrite negb_true_iff. apply String.eqb_neq.
Qed.

Lemma satisfies_sound (f : ProductFilter) (p : Product) :
  satisfies f p = true ->
  IsActive p = true /\
  (fCategoryID f <> EmptyString -> CategoryID p = fCategoryID f) /\
  (fDepartmentID f <> EmptyString -> DepartmentID p = fDepartmentID f) /\
  (fBrand f <> EmptyString -> Brand p = fBrand f) /\
  (forall v, fMinPrice f = Some v -> v <= Price p) /\
  (forall v, fMaxPrice f = Some v -> Price p <= v) /\
  (fInStock f = Some true -> 0 < Stock p) /\
  (fIsOnSale f = Some true -> IsOnSale p = true) /\
  (forall v, fMinRating f = Some v -> v <= Rating p).
Proof.
  unfold satisfies. rewrite !andb_true_iff.
  intros ((((((((Ha & Hc) & Hd) & Hb) & Hmin) & Hmax) & Hs) & Ho) & Hr).
  split; [now apply Bool.eqb_prop|].
  split; [intros Hne; apply nonempty_true in Hne; rewrite Hne in Hc;
          now apply String.eqb_eq|].
  split; [intros Hne; apply nonempty_true in Hne; rewrite Hne in Hd;
          now apply String.eqb_eq|].
  split; [intros Hne; apply nonempty_true in Hne; rewrite Hne in Hb;
          now apply String.eqb_eq|].
  split; [intros v Hv; rewrite Hv in Hmin; now apply Z.leb_le|].
  split; [intros v Hv; rewrite Hv in Hmax; now apply Z.leb_le|].
  split; [intros Hv; rewrite Hv in Hs; now apply Z.ltb_lt|].
  split; [intros Hv; rewrite Hv in Ho; now apply Bool.eqb_prop|].
  intros v Hv; rewrite Hv in Hr; now apply Z.leb_le.
Qed.

Lemma paginate_satisfies (f : ProductFilter) (p : Product) :
  satisfies (ProductService.paginate f) p = satisfies f p.
Proof.
  unfold ProductService.paginate.
  destruct (fLimit f <=? 0);
    [cbn [fLimit set_Limit]; change (100 <? 20) with false; cbv iota
    | destruct (100 <? fLimit f)];
    match goal with |- context [if ?c then _ else _] => destruct c end;
    reflexivity.
Qed.

Lemma paginate_search (f : ProductFilter) :
  fSearch (ProductService.paginate f) = fSearch f.
Proof.
  unfold ProductService.paginate.
  destruct (fLimit f <=? 0);
    [cbn [fLimit set_Limit]; change (100 <? 20) with false; cbv iota
    | destruct (100 <? fLimit f)];
    match goal with |- context [if ?c then _ else _] => destruct c end;
    reflexivity.
Qed.

Lemma service_listed (b : backend) (f : ProductFilter) (s : store b) r p :
  ProductService.ListProducts f s = Ok r -> In p (Products r) ->
  In p (selected b (ProductService.paginate f) s).
Proof.
  unfold ProductService.ListProducts. intros Hr Hin.
  destruct (repoListProducts (ProductService.paginate f) s) as [r0|e] eqn:E;
    [|discriminate].
  injection Hr as ->. exact (listed_selected b _ s r p E Hin).
Qed.

Lemma service_listed_sound (b : backend) (filter : ProductFilter)
    (s : store b) (r : ProductListResponse) (p : Product) :
  ProductService.ListProducts filter s = Ok r ->
  In p (Products r) ->
  In p (records b s) /\
  IsActive p = true /\
  (fCategoryID filter <> EmptyString -> CategoryID p = fCategoryID filter) /\
  (fDepartmentID filter <> EmptyString ->
   DepartmentID p = fDepartmentID filter) /\
  (fBrand filter <> EmptyString -> Brand p = fBrand filter) /\
  (forall v, fMinPrice filter = Some v -> v <= Price p) /\
  (forall v, fMaxPrice filter = Some v -> Price p <= v) /\
  (fInStock filter = Some true -> 0 < Stock p) /\
  (fIsOnSale filter = Some true -> IsOnSale p = true) /\
  (forall v, fMinRating filter = Some v -> v <= Rating p).
Proof.
  intros Hr Hin.
  destruct (selected_satisfies b _ s p (service_listed b filter s r p Hr Hin))
    as [Hrow Hsat].
  split; [exact Hrow|].
  rewrite paginate_satisfies in Hsat. now apply satisfies_sound.
Qed.

End ListingSoundness.

(** X1: on either backend, every product the service's ListProducts returns
    is a stored, active record that meets the supplied constraints of the
    filter: category, department and brand are equal to the requested ones,
    the stock is positive when in-stock is asked for and the product is on
    sale when on-sale is asked for.  On the relational backend, where the
    decimal bounds reach the query as they are, the price also lies within
    the requested bounds and the rating reaches the requested minimum. *)
Theorem listed_products_satisfy_filter (b : backend) (filter : ProductFilter)
    (s : store b) (r : ProductListResponse) (p : Product) :
  ProductService.ListProducts filter s = Ok r ->
  In p (Products r) ->
  In p (records b s) /\
  IsActive p = true /\
  (fCategoryID filter <> EmptyString -> CategoryID p = fCategoryID filter) /\
  (fDepartmentID filter <> EmptyString ->
   DepartmentID p = fDepartmentID filter) /\
  (fBrand filter <> EmptyString -> Brand p = fBrand filter) /\
  (fInStock filter = Some true -> 0 < Stock p) /\
  (fIsOnSale filter = Some true -> IsOnSale p = true) /\
  (b = Relational ->
   (forall v, fMinPrice filter = Some v -> v <= Price p) /\
   (forall v, fMaxPrice filter = Some v -> Price p <= v) /\
   (forall v, fMinRating filter = Some v -> v <= Rating p)).
Proof.
  intros Hr Hin.
  destruct (service_listed_sound b filter s r p Hr Hin)
    as (H1 & H2 & H3 & H4 & H5 & H6 & H7 & H8 & H9 & H10).
  do 7 (split; [assumption|]). intros Hb. clear Hb.
  split; [exact H6|]. split; [exact H7 | exact H10].
Qed.

Lemma listed_products_satisfy_filter_witness :
  In milk (records KeyValue (load KeyValue shelf)) /\ IsActive milk = true /\
  Brand milk = "acme".
Proof.
  pose proof (listed_products_satisfy_filter KeyValue
                (set_Brand emptyFilter "acme") (load KeyValue shelf)
                {| Products := shelf; TotalCount := 2; rLimit := 20;
                   rOffset := 0 |} milk eq_refl (or_introl eq_refl))
    as (H1 & H2 & _ & _ & H3 & _).
  split; [exact H1|]. split; [exact H2|]. apply H3. discriminate.
Defined.

(** X2: the list methods of the product service that fix one filter field
    return, on either backend, only active products of the requested
    category, brand or department, or only active products on sale; the
    first three refuse an empty argument. *)
Theorem product_queries_are_sound (b : backend) (filter : ProductFilter)
    (s : store b) (key : string) :
  (forall r p,
     ProductQueries.GetProductsByCategory key filter s = Ok r ->
     In p (Products r) -> CategoryID p = key /\ IsActive p = true) /\
  (forall r p,
     ProductQueries.GetProductsByBrand key filter s = Ok r ->
     In p (Products r) -> Brand p = key /\ IsActive p = true) /\
  (forall r p,
     ProductQueries.GetProductsByDepartment key filter s = Ok r ->
     In p (Products r) -> DepartmentID p = key /\ IsActive p = true) /\
  (forall r p,
     ProductQueries.GetProductsOnSale filter s = Ok r ->
     In p (Products r) -> IsOnSale p = true /\ IsActive p = true) /\
  (key = EmptyString ->
   ProductQueries.GetProductsByCategory key filter s
   = Err "category ID is required" /\
   ProductQueries.GetProductsByBrand key filter s = Err "brand is required" /\
   ProductQueries.GetProductsByDepartment key filter s
   = Err "department ID is required").
Proof.
  unfold ProductQueries.GetProductsByCategory,
    ProductQueries.GetProductsByBrand,
    ProductQueries.GetProductsByDepartment, ProductQueries.GetProductsOnSale.
  split; [|split; [|split; [|split]]].
  - intros r p Hr Hin.
    destruct (String.eqb key EmptyString) eqn:E; [discriminate|].
    apply String.eqb_neq in E.
    pose proof (service_listed_sound b _ s r p Hr Hin)
      as (_ & Ha & Hc & _). cbn in Hc. auto.
  - intros r p Hr Hin.
    destruct (String.eqb key EmptyString) eqn:E; [discriminate|].
    apply String.eqb_neq in E.
    pose proof (service_listed_sound b _ s r p Hr Hin)
      as (_ & Ha & _ & _ & Hb & _). cbn in Hb. auto.
  - intros r p Hr Hin.
    destruct (String.eqb key EmptyString) eqn:E; [discriminate|].
    apply String.eqb_neq in E.
    pose proof (service_listed_sound b _ s r p Hr Hin)
      as (_ & Ha & _ & Hd & _). cbn in Hd. auto.
  - intros r p Hr Hin.
    pose proof (service_listed_sound b _ s r p Hr Hin)
      as (_ & Ha & _ & _ & _ & _ & _ & _ & Ho & _). cbn in Ho. auto.
  - intros ->. repeat split.
Qed.

Lemma product_queries_are_sound_witness :
  CategoryID milk = "c1" /\ IsActive milk = true.
Proof.
  exact (proj1 (product_queries_are_sound KeyValue emptyFilter
                  (load KeyValue shelf) "c1")
           {| Products := shelf; TotalCount := 2; rLimit := 20;
              rOffset := 0 |} milk eq_refl (or_introl eq_refl)).
Defined.

Section ListingMore.

Lemma take_app_drop {A} (a b : Z) (xs : list A) :
  0 <= a -> 0 <= b ->
  (take a xs ++ take b (drop a xs))%list = take (a + b) xs.
Proof.
  intros Ha Hb. unfold take, drop.
  rewrite Z2Nat.inj_add by assumption.
  generalize (Z.to_nat a) as n, (Z.to_nat b) as m. clear.
  intros n. revert xs. induction n as [|n IH]; intros xs m.
  - reflexivity.
  - destruct xs as [|x xs]; cbn [Nat.add firstn skipn app].
    + now rewrite firstn_nil.
    + now rewrite IH.
Qed.

Lemma drop_drop {A} (a b : Z) (xs : list A) :
  0 <= a -> 0 <= b -> drop b (drop a xs) = drop (a + b) xs.
Proof.
  intros Ha Hb. unfold drop. rewrite Z2Nat.inj_add by assumption.
  generalize (Z.to_nat a) as n, (Z.to_nat b) as m. clear.
  intros n. revert xs. induction n as [|n IH]; intros xs m.
  - reflexivity.
  - destruct xs as [|x xs]; cbn [Nat.add skipn].
    + now rewrite skipn_nil.
    + apply IH.
Qed.

Lemma take_all {A} (n : Z) (xs : list A) : len xs <= n -> take n xs = xs.
Proof.
  unfold take, len. intros H. apply firstn_all2. lia.
Qed.

(** A relational page with a positive limit and a non-negative offset. *)
Lemma pg_page (f : ProductFilter) (limit offset : Z) (db : Postgres.DB) :
  0 < limit -> 0 <= offset ->
  Postgres.ListProducts (page_filter f limit offset) db =
  Ok {| Products := take limit (drop offset (selected Relational f db));
        TotalCount := len (selected Relational f db);
        rLimit := limit; rOffset := offset |}.
Proof.
  intros Hl Ho. rewrite pg_ListProducts_selected.
  change (selected Relational (page_filter f limit offset) db)
    with (selected Relational f db).
  cbn [page_filter fLimit fOffset set_Limit set_Offset].
  unfold Postgres.positive. cbv zeta.
  apply Z.ltb_lt in Hl. rewrite Hl.
  destruct (0 <? offset) eqn:E; [reflexivity|].
  apply Z.ltb_ge in E. now replace offset with 0 by lia.
Qed.

Lemma sweep_from (f : ProductFilter) (limit : Z) (db : Postgres.DB)
    (start : Z) (n : nat) :
  0 < limit -> 0 <= start ->
  sweep f limit db start n =
  take (Z.of_nat n * limit) (drop start (selected Relational f db)).
Proof.
  intros Hl. revert start. induction n as [|n IH]; intros start Hs.
  - reflexivity.
  - cbn [sweep]. rewrite (pg_page f limit start db Hl Hs). cbn [Products].
    rewrite IH by lia.
    rewrite <- (drop_drop start limit) by lia.
    rewrite take_app_drop by lia. f_equal. lia.
Qed.

End ListingMore.

(** X3: at the repository level, for a filter without limit and offset whose
    lower-cased search string has no LIKE metacharacter, whenever the
    relational ListProducts succeeds it returns exactly the stored records
    that match the filter (every supplied constraint, and the search as a
    substring test), in storage order, with their number as total count. *)
Theorem relational_list_is_exact (f : ProductFilter) (db : Postgres.DB)
    (r : ProductListResponse) :
  fLimit f <= 0 -> fOffset f <= 0 ->
  Strings.like_plain (Strings.ToLower (fSearch f)) = true ->
  Postgres.ListProducts f db = Ok r ->
  Products r = filter (matches f) (Postgres.products db) /\
  TotalCount r = len (Products r) /\
  (forall p, In p (Products r) <->
             In p (Postgres.products db) /\ matches f p = true).
Proof.
  intros HL HO Hplain.
  rewrite pg_ListProducts_selected, (pg_selected_filter _ _ Hplain).
  unfold Postgres.positive.
  assert (E1 : (0 <? fLimit f) = false) by (apply Z.ltb_ge; lia).
  assert (E2 : (0 <? fOffset f) = false) by (apply Z.ltb_ge; lia).
  rewrite E1, E2. cbv zeta. intros H. injection H as H. subst r.
  cbn [Products TotalCount]. split; [reflexivity|]. split; [reflexivity|].
  intros p. apply filter_In.
Qed.

Lemma relational_list_is_exact_witness :
  Products {| Products := [milk]; TotalCount := 1; rLimit := 0;
              rOffset := 0 |}
  = filter (matches (set_Search emptyFilter "MILK"))
      (Postgres.products (load Relational shelf)).
Proof.
  refine (proj1 (relational_list_is_exact (set_Search emptyFilter "MILK")
                   (load Relational shelf)
                   {| Products := [milk]; TotalCount := 1; rLimit := 0;
                      rOffset := 0 |} _ _ eq_refl eq_refl));
    simpl; lia.
Defined.

(** X4: the in-memory search of the key-value repository selects a product
    exactly when the lower-cased search string is a substring of its
    lower-cased name, description, SKU, brand or slug; hence every product
    it lists for a non-empty search has that property. *)
Theorem key_value_search_is_substring_rule :
  (forall search p,
     DynamoDB.search_match (Strings.ToLower search) p = true <->
     search_spec search p) /\
  (forall f table r p,
     fSearch f <> EmptyString ->
     DynamoDB.ListProducts f table = Ok r ->
     In p (Products r) -> search_spec (fSearch f) p).
Proof.
  split; [exact ddb_search_spec|].
  intros f table r p Hne Hr Hin.
  pose proof (listed_selected KeyValue f table r p Hr Hin) as Hsel.
  rewrite ddb_selected_filter in Hsel.
  apply filter_In in Hsel as [_ Hm]. unfold matches in Hm.
  apply andb_true_iff in Hm as [_ Hm]. apply nonempty_true in Hne.
  rewrite Hne in Hm. cbn [negb orb] in Hm.
  apply ddb_search_spec. now rewrite ddb_search_match_existsb.
Qed.

Lemma key_value_search_is_substring_rule_witness :
  search_spec "MILK" milk.
Proof.
  refine (proj2 key_value_search_is_substring_rule
            (set_Search emptyFilter "MILK") shelf
            {| Products := [milk]; TotalCount := 1; rLimit := 0;
               rOffset := 0 |} milk _ eq_refl (or_introl eq_refl)).
  discriminate.
Defined.

(** X5: when the lower-cased search string contains none of the characters
    percent, underscore and backslash, the LIKE clause of the relational
    repository selects a product exactly when that string is a substring of
    its lower-cased name, description, SKU, brand or slug. *)
Theorem relational_search_is_substring_rule (search : string) (p : Product) :
  Strings.like_plain (Strings.ToLower search) = true ->
  (Postgres.eval_query
     (Postgres.list_query (set_Search emptyFilter search)) p = true <->
   IsActive p = true /\
   (search = EmptyString \/ search_spec search p)).
Proof.
  intros Hplain. rewrite pg_query_satisfies.
  cbn [fSearch set_Search]. unfold satisfies.
  cbn [fCategoryID fDepartmentID fBrand fMinPrice fMaxPrice fInStock
       fIsOnSale fMinRating set_Search emptyFilter].
  change (nonempty EmptyString) with false. cbn [negb orb].
  rewrite !andb_true_r, andb_true_iff, orb_true_iff, negb_true_iff.
  rewrite <- (pg_search_spec search p Hplain). cbn [Postgres.eval_clause].
  unfold nonempty. rewrite negb_false_iff, String.eqb_eq.
  split; intros [Ha Hs]; (split; [|exact Hs]).
  - now apply Bool.eqb_prop.
  - now rewrite Ha.
Qed.

Lemma relational_search_is_substring_rule_witness :
  Postgres.eval_query
    (Postgres.list_query (set_Search emptyFilter "MILK")) milk = true.
Proof.
  apply (relational_search_is_substring_rule "MILK" milk eq_refl).
  split; [reflexivity|]. right.
  apply (ddb_search_spec "MILK" milk). reflexivity.
Defined.

(** X6: the total count of the relational ListProducts does not depend on
    limit and offset, and the returned page is never longer than it. *)
Theorem relational_total_ignores_pagination (f : ProductFilter)
    (limit offset : Z) (db : Postgres.DB) :
  exists r r',
    Postgres.ListProducts f db = Ok r /\
    Postgres.ListProducts (page_filter f limit offset) db = Ok r' /\
    TotalCount r' = TotalCount r /\
    len (Products r') <= TotalCount r'.
Proof.
  rewrite !pg_ListProducts_selected. do 2 eexists.
  split; [reflexivity|]. split; [reflexivity|].
  cbn [TotalCount Products]. split; [reflexivity|].
  rewrite pg_page_len. cbv zeta.
  pose proof (len_nonneg (selected Relational (page_filter f limit offset) db)).
  destruct (0 <? fOffset _) eqn:E1, (0 <? fLimit _) eqn:E2;
    try apply Z.ltb_lt in E1; lia.
Qed.

(** X7: on a static relational dataset, the pages fetched with a positive
    limit at the offsets 0, limit, 2 * limit, ... follow one another without
    gap or duplicate: the first n pages, one after the other, are the first
    n * limit selected records, and all of them once n * limit reaches
    their number. *)
Theorem relational_pages_partition (f : ProductFilter) (limit : Z)
    (db : Postgres.DB) (n : nat) :
  0 < limit ->
  sweep f limit db 0 n =
  take (Z.of_nat n * limit) (selected Relational f db) /\
  (len (selected Relational f db) <= Z.of_nat n * limit ->
   sweep f limit db 0 n = selected Relational f db).
Proof.
  intros Hl.
  assert (E : sweep f limit db 0 n =
              take (Z.of_nat n * limit) (selected Relational f db)).
  { rewrite sweep_from by lia. reflexivity. }
  split; [exact E|]. intros Hn. rewrite E. now apply take_all.
Qed.

Lemma relational_pages_partition_witness :
  sweep emptyFilter 1 (load Relational shelf) 0 2 = shelf.
Proof.
  refine (proj2 (relational_pages_partition emptyFilter 1
                   (load Relational shelf) 2 _) _).
  - lia.
  - vm_compute. discriminate.
Defined.

(** X8: with a positive limit, the key-value ListProducts passes the limit
    to the scan, so every product it returns is among the first limit
    stored items; records stored behind them are never returned. *)
Theorem key_value_lists_only_scanned_items (f : ProductFilter)
    (table : DynamoDB.Table) (r : ProductListResponse) (p : Product) :
  0 < fLimit f ->
  DynamoDB.ListProducts f table = Ok r ->
  In p (Products r) ->
  In p (take (fLimit f) table).
Proof.
  intros Hl Hr Hin.
  pose proof (listed_selected KeyValue f table r p Hr Hin) as Hsel.
  rewrite ddb_selected_filter in Hsel. apply Z.ltb_lt in Hl.
  rewrite Hl in Hsel. now apply filter_In in Hsel as [Hsel _].
Qed.

Lemma key_value_lists_only_scanned_items_witness :
  In milk (take 1 shelf).
Proof.
  refine (key_value_lists_only_scanned_items (set_Limit emptyFilter 1) shelf
            {| Products := [milk]; TotalCount := 1; rLimit := 1;
               rOffset := 0 |} milk _ eq_refl (or_introl eq_refl)).
  simpl. lia.
Defined.

(* ================================================================== *)
(** * Sparse patches                                                   *)
(* ================================================================== *)

Section Patches.

Lemma apply_assigns_snoc (l : list assign) (a : assign) (p : Product) :
  apply_assigns (l ++ [a]) p = apply_assign (apply_assigns l p) a.
Proof. unfold apply_assigns. now rewrite fold_left_app. Qed.

Lemma apply_assigns_set_if {V} (o : option V) (mk : V -> assign)
    (l : list assign) (p : Product) :
  apply_assigns (set_if o mk l) p =
  match o with
  | Some v => apply_assign (apply_assigns l p) (mk v)
  | None => apply_assigns l p
  end.
Proof. destruct o; [apply apply_assigns_snoc | reflexivity]. Qed.

(** A column an assignment kind does not write passes through it. *)
Lemma proj_set_if_other {T V} (F : Product -> T) (o : option V)
    (mk : V -> assign) (l : list assign) (p : Product) :
  (forall v q, F (apply_assign q (mk v)) = F q) ->
  F (apply_assigns (set_if o mk l) p) = F (apply_assigns l p).
Proof.
  intros H. rewrite apply_assigns_set_if. destruct o; [apply H | reflexivity].
Qed.

(** The column an assignment kind writes takes the supplied value. *)
Lemma proj_set_if_self {T V} (F : Product -> T) (G : V -> T) (o : option V)
    (mk : V -> assign) (l : list assign) (p : Product) :
  (forall v q, F (apply_assign q (mk v)) = G v) ->
  F (apply_assigns (set_if o mk l) p) =
  match o with Some v => G v | None => F (apply_assigns l p) end.
Proof.
  intros H. rewrite apply_assigns_set_if. destruct o; [apply H | reflexivity].
Qed.

Lemma product_ext (p q : Product) :
  ID p = ID q -> SKU p = SKU q -> Slug p = Slug q -> Name p = Name q ->
  Description p = Description q -> Price p = Price q ->
  OriginalPrice p = OriginalPrice q -> Images p = Images q ->
  CategoryID p = CategoryID q -> DepartmentID p = DepartmentID q ->
  Brand p = Brand q -> Unit p = Unit q -> Stock p = Stock q ->
  MinStock p = MinStock q -> Weight p = Weight q ->
  WeightUnit p = WeightUnit q -> Dimensions p = Dimensions q ->
  IsOnSale p = IsOnSale q -> Discount p = Discount q ->
  Rating p = Rating q -> Reviews p = Reviews q -> IsActive p = IsActive q ->
  Tags p = Tags q -> CreatedAt p = CreatedAt q -> UpdatedAt p = UpdatedAt q ->
  p = q.
Proof.
  destruct p, q. cbn. intros. subst. reflexivity.
Qed.

Ltac through_patch :=
  repeat first
    [ rewrite proj_set_if_other by (intros; reflexivity)
    | rewrite (proj_set_if_self _ (fun v => v)) by (intros; reflexivity)
    | rewrite (proj_set_if_self _ (fun v => Some v))
        by (intros; reflexivity) ].

(** Applying the assignments of a patch, then the timestamp, is [patched]. *)
Lemma apply_patch (now : time) (u : UpdateProductRequest) (p : Product) :
  apply_assign (apply_assigns (patch_assigns u) p) (SetUpdatedAt now)
  = patched now u p.
Proof.
  apply product_ext;
    cbn [ID SKU Slug Name Description Price OriginalPrice Images CategoryID
         DepartmentID Brand Unit Stock MinStock Weight WeightUnit Dimensions
         IsOnSale Discount Rating Reviews IsActive Tags CreatedAt UpdatedAt
         apply_assign patched];
    try reflexivity;
    unfold patch_assigns; cbv zeta; through_patch;
    unfold pick; reflexivity.
Qed.

Lemma patched_ID now u p : ID (patched now u p) = ID p.
Proof. reflexivity. Qed.

Lemma find_app_last {A} (P : A -> bool) (xs : list A) (x : A) :
  find P xs = None -> P x = true -> find P (xs ++ [x]) = Some x.
Proof.
  intros Hn Hx. induction xs as [|y ys IH]; simpl in *.
  - now rewrite Hx.
  - destruct (P y); [discriminate | now apply IH].
Qed.

End Patches.

Section UpdateFacts.

Lemma patch_assigns_snoc_nonempty (u : UpdateProductRequest) (now : time) :
  (len (patch_assigns u ++ [SetUpdatedAt now]) =? 0) = false.
Proof.
  apply Z.eqb_neq. rewrite len_app.
  pose proof (len_nonneg (patch_assigns u)).
  change (len [SetUpdatedAt now]) with 1. lia.
Qed.

Lemma ddb_UpdateProduct_stored now id updates (table : DynamoDB.Table) p :
  DynamoDB.valid_key id = true ->
  find (fun q => String.eqb (ID q) id) table = Some p ->
  DynamoDB.UpdateProduct now id updates table =
  (Ok (patched now updates p),
   update_where (fun q => String.eqb (ID q) id) (patched now updates) table).
Proof.
  intros Hkey Hf. unfold DynamoDB.UpdateProduct.
  rewrite patch_assigns_snoc_nonempty. unfold DynamoDB.UpdateItem.
  rewrite Hkey, Hf. rewrite apply_assigns_snoc, apply_patch. f_equal.
  unfold update_where. apply map_ext. intros q.
  destruct (String.eqb (ID q) id); [|reflexivity].
  now rewrite apply_assigns_snoc, apply_patch.
Qed.

Lemma ddb_UpdateProduct_absent now id updates (table : DynamoDB.Table) :
  DynamoDB.valid_key id = true ->
  find (fun q => String.eqb (ID q) id) table = None ->
  DynamoDB.UpdateProduct now id updates table =
  (Ok (patched now updates (DynamoDB.keyOnly id)),
   (table ++ [patched now updates (DynamoDB.keyOnly id)])%list).
Proof.
  intros Hkey Hf. unfold DynamoDB.UpdateProduct.
  rewrite patch_assigns_snoc_nonempty. unfold DynamoDB.UpdateItem.
  rewrite Hkey, Hf. now rewrite apply_assigns_snoc, apply_patch.
Qed.

(** A key-value [UpdateProduct] that succeeds was called on a key the store
    accepts. *)
Lemma ddb_UpdateProduct_key now id updates (table table' : DynamoDB.Table) p :
  DynamoDB.UpdateProduct now id updates table = (Ok p, table') ->
  DynamoDB.valid_key id = true.
Proof.
  unfold DynamoDB.UpdateProduct.
  rewrite patch_assigns_snoc_nonempty. unfold DynamoDB.UpdateItem.
  destruct (DynamoDB.valid_key id); [reflexivity | discriminate].
Qed.

Lemma decimals_apart_refl (u : UpdateProductRequest) : decimals_apart u u.
Proof. unfold decimals_apart. repeat split; auto. Qed.

Lemma pg_UpdateProduct_stored now id updates (db : Postgres.DB) p p' db' :
  find (fun q => String.eqb (ID q) id) (Postgres.products db) = Some p ->
  Postgres.UpdateProduct now id updates db = (Ok p', db') ->
  p' = patched now updates p /\
  Postgres.products db' =
  update_where (fun q => String.eqb (ID q) id) (patched now updates)
    (Postgres.products db).
Proof.
  intros Hf. unfold Postgres.UpdateProduct. rewrite Hf.
  pose proof (find_some _ _ Hf) as [_ Hid]. apply String.eqb_eq in Hid.
  destruct (len (patch_assigns updates) =? 0); [discriminate|].
  rewrite Hid. unfold Postgres.Updates.
  cbn [Postgres.products Postgres.with_products].
  assert (E : update_where (fun q => String.eqb (ID q) id)
                (fun q => apply_assign
                            (apply_assigns (patch_assigns updates) q)
                            (SetUpdatedAt now)) (Postgres.products db)
              = update_where (fun q => String.eqb (ID q) id)
                  (patched now updates) (Postgres.products db)).
  { unfold update_where. apply map_ext. intros q.
    destruct (String.eqb (ID q) id); [apply apply_patch | reflexivity]. }
  rewrite E. rewrite (find_id_update_where ID) by reflexivity.
  rewrite Hf. cbn [option_map]. intros H. injection H as <- <-.
  split; reflexivity.
Qed.

End UpdateFacts.

(** X9: on either backend the repository's UpdateProduct applies a sparse
    patch: when a record is stored under the id and the call succeeds, the
    returned product and every stored record under the id carry the supplied
    value in each supplied text, integer and boolean field, some value of
    the store's making in each supplied decimal field, the old value in
    each absent field and the time of the call in updated_at; id, sku,
    images, min_stock, dimensions, tags and created_at are never written,
    and the other records are left as they were. *)
Theorem update_applies_sparse_patch (b : backend) (now : time) (id : string)
    (updates : UpdateProductRequest) (s s' : store b) (p p' : Product) :
  find (fun q => String.eqb (ID q) id) (records b s) = Some p ->
  repoUpdateProduct now id updates s = (Ok p', s') ->
  exists stored,
    decimals_apart updates stored /\
    p' = patched now stored p /\
    records b s' =
    update_where (fun q => String.eqb (ID q) id) (patched now stored)
      (records b s).
Proof.
  intros Hf Hupd. exists updates. split; [apply decimals_apart_refl|].
  destruct b; cbn [records repoUpdateProduct backend_repository
                   PostgresProducts DynamoDBProducts store] in *.
  - exact (pg_UpdateProduct_stored _ _ _ _ _ _ _ Hf Hupd).
  - pose proof (ddb_UpdateProduct_key _ _ _ _ _ _ Hupd) as Hkey.
    rewrite (ddb_UpdateProduct_stored _ _ _ _ _ Hkey Hf) in Hupd.
    injection Hupd as <- <-. split; reflexivity.
Qed.

Lemma update_applies_sparse_patch_witness :
  exists stored,
    decimals_apart (patchStock 8) stored /\
    patched 7 (patchStock 8) milk = patched 7 stored milk /\
    records Relational
      (load Relational [patched 7 (patchStock 8) milk; bread]) =
    update_where (fun q => String.eqb (ID q) "p1") (patched 7 stored)
      (records Relational (load Relational shelf)).
Proof.
  exact (update_applies_sparse_patch Relational 7 "p1" (patchStock 8)
           (load Relational shelf)
           (load Relational [patched 7 (patchStock 8) milk; bread])
           milk (patched 7 (patchStock 8) milk) eq_refl eq_refl).
Defined.

(** X10: the key-value UpdateProduct is an upsert.  When it succeeds on an
    id under which no item is stored, it has created one at the end of the
    table from the key and the patch alone (supplied text, integers and
    booleans as given, updated_at the time of the call, every other column
    at its zero value), and GetProduct returns that item under the id.  The
    service never gets there: its UpdateProduct refuses an id that is not
    stored and leaves the table as it was. *)
Theorem key_value_update_upserts (now : time) (id : string)
    (updates : UpdateProductRequest) (table table' : DynamoDB.Table)
    (p : Product) :
  find (fun q => String.eqb (ID q) id) table = None ->
  DynamoDB.UpdateProduct now id updates table = (Ok p, table') ->
  (exists stored,
     decimals_apart updates stored /\
     p = patched now stored (DynamoDB.keyOnly id)) /\
  ID p = id /\ UpdatedAt p = now /\
  table' = (table ++ [p])%list /\
  DynamoDB.GetProduct id table' = Ok p /\
  forall request,
    is_ok (fst (ProductService.UpdateProduct now id request table)) = false /\
    snd (ProductService.UpdateProduct now id request table) = table.
Proof.
  intros Hf Hupd.
  pose proof (ddb_UpdateProduct_key _ _ _ _ _ _ Hupd) as Hkey.
  rewrite (ddb_UpdateProduct_absent _ _ _ _ Hkey Hf) in Hupd.
  injection Hupd as <- <-.
  split; [exists updates; split; [apply decimals_apart_refl | reflexivity]|].
  split; [reflexivity|]. split; [reflexivity|]. split; [reflexivity|].
  split.
  - apply ddb_GetProduct_found; [exact Hkey|].
    apply (find_app_last _ _ _ Hf). apply String.eqb_refl.
  - intros request. unfold ProductService.UpdateProduct.
    destruct (String.eqb id EmptyString); [split; reflexivity|].
    destruct request as [request|]; [|split; reflexivity].
    cbn [repoGetProduct DynamoDBProducts]. unfold DynamoDB.GetProduct.
    rewrite Hkey, Hf. split; reflexivity.
Qed.

Lemma key_value_update_upserts_witness :
  DynamoDB.GetProduct "p9"
    (shelf ++ [patched 7 (patchStock 8) (DynamoDB.keyOnly "p9")])%list
  = Ok (patched 7 (patchStock 8) (DynamoDB.keyOnly "p9")).
Proof.
  exact (proj1 (proj2 (proj2 (proj2 (proj2
           (key_value_update_upserts 7 "p9" (patchStock 8) shelf
              (shelf ++ [patched 7 (patchStock 8) (DynamoDB.keyOnly "p9")])%list
              (patched 7 (patchStock 8) (DynamoDB.keyOnly "p9"))
              eq_refl eq_refl)))))).
Defined.

(** X11: images, min_stock, dimensions and tags of a patch are read by
    neither repository.  Through the service, for a product the repository
    returns, a patch that supplies only these is refused by the relational
    backend with "no fields to update", the database staying as it was,
    while the key-value backend accepts it and rewrites nothing but
    updated_at. *)
Theorem unread_patch_fields (now : time) (id : string)
    (images : list string) (minStock : option Z)
    (dimensions : option ProductDimensions) (tags : list string) :
  (forall (db : Postgres.DB) p,
     id <> EmptyString ->
     repoGetProduct id db = Ok p ->
     ProductService.UpdateProduct now id
       (Some (unreadPatch images minStock dimensions tags)) db
     = (Err "failed to update product: no fields to update", db)) /\
  (forall (table : DynamoDB.Table) p,
     id <> EmptyString ->
     repoGetProduct id table = Ok p ->
     ProductService.UpdateProduct now id
       (Some (unreadPatch images minStock dimensions tags)) table
     = (Ok (apply_assign p (SetUpdatedAt now)),
        update_where (fun q => String.eqb (ID q) id)
          (fun q => apply_assign q (SetUpdatedAt now)) table)).
Proof.
  split.
  - intros db p Hid Hget. apply String.eqb_neq in Hid.
    unfold ProductService.UpdateProduct. rewrite Hid, Hget.
    cbn [repoGetProduct repoUpdateProduct PostgresProducts] in *.
    unfold Postgres.GetProduct in Hget.
    destruct (find _ (Postgres.products db)) as [p1|] eqn:Hf; [|discriminate].
    destruct (find_weaken _ (fun q => String.eqb (ID q) id) _ _
                (fun x Hx => proj1 (proj1 (andb_true_iff _ _) Hx)) Hf)
      as [q Hq].
    unfold Postgres.UpdateProduct. rewrite Hq. reflexivity.
  - intros table p Hid Hget. apply String.eqb_neq in Hid.
    unfold ProductService.UpdateProduct. rewrite Hid, Hget.
    cbn [repoGetProduct repoUpdateProduct DynamoDBProducts] in *.
    apply ddb_GetProduct_ok in Hget as [Hkey Hf].
    unfold DynamoDB.UpdateProduct, DynamoDB.UpdateItem.
    cbn [patch_assigns unreadPatch set_if uName uDescription uPrice
         uCategoryID uSlug uOriginalPrice uDepartmentID uBrand uUnit uStock
         uWeight uWeightUnit uIsOnSale uDiscount uRating uReviews uIsActive
         app].
    change (len [SetUpdatedAt now] =? 0) with false. cbv iota.
    rewrite Hkey, Hf. reflexivity.
Qed.

Lemma unread_patch_fields_witness :
  ProductService.UpdateProduct 7 "p1"
    (Some (unreadPatch [] (Some 9) None [])) (load Relational shelf)
  = (Err "failed to update product: no fields to update",
     load Relational shelf).
Proof.
  refine (proj1 (unread_patch_fields 7 "p1" [] (Some 9) None [])
            (load Relational shelf) milk _ eq_refl).
  discriminate.
Defined.

(* ================================================================== *)
(** * Deleting products                                                *)
(* ================================================================== *)

(** X12: on either backend, after a successful service-level delete of a
    product no service-level list result contains a product with that id,
    whatever the filter. *)
Theorem deleted_product_is_not_listed (b : backend) (now : time)
    (id : string) (s s' : store b) (filter : ProductFilter)
    (r : ProductListResponse) (p : Product) :
  ProductService.DeleteProduct now id s = (Ok tt, s') ->
  ProductService.ListProducts filter s' = Ok r ->
  In p (Products r) -> ID p <> id.
Proof.
  intros Hdel Hr Hin. unfold ProductService.ListProducts in Hr.
  destruct (repoListProducts (ProductService.paginate filter) s')
    as [r0|e] eqn:E; [|discriminate].
  injection Hr as ->.
  exact (deleted_not_listed b now id s s' _ r p Hdel E Hin).
Qed.

Lemma deleted_product_is_not_listed_witness : ID bread <> "p1".
Proof.
  exact (deleted_product_is_not_listed KeyValue 7 "p1" (load KeyValue shelf)
           [deactivated 7 milk; bread] emptyFilter
           {| Products := [bread]; TotalCount := 1; rLimit := 20;
              rOffset := 0 |} bread eq_refl eq_refl (or_introl eq_refl)).
Defined.

(** X13: on the relational backend a product deleted through the service is
    out of the service's reach: GetProduct, UpdateProduct, UpdateStock and a
    second DeleteProduct on its id all fail with a not-found error and leave
    the database as it is. *)
Theorem relational_deleted_product_is_out_of_reach (now : time) (id : string)
    (db db' : Postgres.DB) :
  ProductService.DeleteProduct now id db = (Ok tt, db') ->
  ProductService.GetProduct id db'
  = Err "failed to get product: product not found" /\
  (forall t request,
     ProductService.UpdateProduct t id (Some request) db'
     = (Err "product not found: product not found", db')) /\
  (forall t quantity,
     ProductService.UpdateStock t id quantity db'
     = (Err "product not found: product not found", db')) /\
  (forall t,
     ProductService.DeleteProduct t id db'
     = (Err "product not found: product not found", db')) /\
  is_not_found "failed to get product: product not found" = true /\
  is_not_found "product not found: product not found" = true.
Proof.
  intros Hdel.
  assert (Hid : String.eqb id EmptyString = false).
  { unfold ProductService.DeleteProduct in Hdel.
    destruct (String.eqb id EmptyString); [discriminate | reflexivity]. }
  assert (Hget : repoGetProduct id db' = Err "product not found").
  { cbn [repoGetProduct PostgresProducts]. unfold Postgres.GetProduct.
    rewrite find_all_false; [reflexivity|].
    intros p Hin. destruct (String.eqb (ID p) id) eqn:E; [|reflexivity].
    apply String.eqb_eq in E.
    now rewrite (deleted_rows_inactive Relational now id db db' p Hdel Hin E). }
  unfold ProductService.GetProduct, ProductService.UpdateProduct,
    ProductService.UpdateStock, ProductService.DeleteProduct.
  rewrite Hid, Hget. repeat split.
Qed.

Lemma relational_deleted_product_is_out_of_reach_witness :
  ProductService.GetProduct "p1"
    (load Relational [deactivated 7 milk; bread])
  = Err "failed to get product: product not found".
Proof.
  exact (proj1 (relational_deleted_product_is_out_of_reach 7 "p1"
                  (load Relational shelf)
                  (load Relational [deactivated 7 milk; bread]) eq_refl)).
Defined.

(** X14: the repository-level DeleteProduct is a hard delete on both
    backends: when it succeeds, exactly the records under the id are gone,
    active or not, the others are kept in order, and GetProduct on the id
    fails with "product not found".  The relational repository succeeds
    only when a record was stored under the id, and a second delete of the
    id fails with "product not found"; the key-value repository asks for no
    stored item, and a second delete of the id succeeds again.  Either way
    the second delete changes nothing. *)
Theorem repository_delete_is_hard (b : backend) (id : string)
    (s s' : store b) :
  repoDeleteProduct id s = (Ok tt, s') ->
  records b s' =
  filter (fun p => negb (String.eqb (ID p) id)) (records b s) /\
  repoGetProduct id s' = Err "product not found" /\
  (b = Relational -> exists p, In p (records b s) /\ ID p = id) /\
  repoDeleteProduct id s' =
  (match b with
   | Relational => Err "product not found"
   | KeyValue => Ok tt
   end, s').
Proof.
  assert (Hgone : forall rows,
            find (fun p => String.eqb (ID p) id)
              (filter (fun p => negb (String.eqb (ID p) id)) rows) = None).
  { intros rows. apply find_all_false. intros p Hin.
    apply filter_In in Hin as [_ Hp]. now apply negb_true_iff in Hp. }
  assert (Hnone : forall rows,
            filter (fun p => String.eqb (ID p) id)
              (filter (fun p => negb (String.eqb (ID p) id)) rows) = []).
  { intros rows. induction rows as [|x xs IH]; [reflexivity|].
    simpl. destruct (String.eqb (ID x) id) eqn:E; cbn [negb]; [exact IH|].
    simpl. now rewrite E. }
  assert (Hkeep : forall rows,
            filter (fun p => negb (String.eqb (ID p) id))
              (filter (fun p => negb (String.eqb (ID p) id)) rows) =
            filter (fun p => negb (String.eqb (ID p) id)) rows).
  { intros rows. rewrite filter_filter. apply filter_ext. intros p.
    now destruct (negb _). }
  destruct b; cbn [repoDeleteProduct repoGetProduct records
    backend_repository PostgresProducts DynamoDBProducts store] in *.
  - unfold Postgres.DeleteProduct.
    destruct (rows_affected _ _ =? 0) eqn:Hrows; [discriminate|].
    intros H. injection H as <-.
    cbn [Postgres.products Postgres.with_products]. unfold delete_where.
    split; [reflexivity|]. split; [|split].
    + unfold Postgres.GetProduct. cbn [Postgres.products].
      rewrite find_all_false; [reflexivity|].
      intros p Hin. apply filter_In in Hin as [_ Hp].
      apply negb_true_iff in Hp. now rewrite Hp.
    + intros _. unfold rows_affected in Hrows.
      destruct (filter _ (Postgres.products s)) as [|p ps] eqn:Hfl;
        [discriminate|].
      assert (Hin : In p (filter (fun p => String.eqb (ID p) id)
                            (Postgres.products s)))
        by (rewrite Hfl; now left).
      apply filter_In in Hin as [Hin Hp]. apply String.eqb_eq in Hp. eauto.
    + unfold rows_affected. cbn [Postgres.products]. now rewrite Hnone.
  - unfold DynamoDB.DeleteProduct, delete_where.
    destruct (DynamoDB.valid_key id) eqn:Hkey; [|discriminate].
    intros H. injection H as <-. split; [reflexivity|]. split; [|split].
    + unfold DynamoDB.GetProduct. now rewrite Hkey, Hgone.
    + discriminate.
    + now rewrite Hkeep.
Qed.

Lemma repository_delete_is_hard_witness :
  records Relational (load Relational [bread]) =
  filter (fun p => negb (String.eqb (ID p) "p1"))
    (records Relational (load Relational shelf)) /\
  repoGetProduct "p1" (load Relational [bread]) = Err "product not found".
Proof.
  pose proof (repository_delete_is_hard Relational "p1"
                (load Relational shelf) (load Relational [bread]) eq_refl)
    as (H1 & H2 & _).
  split; [exact H1 | exact H2].
Defined.

(* ================================================================== *)
(** * Low stock                                                        *)
(* ================================================================== *)

(** X15: whenever GetLowStockProducts succeeds, on either backend, what it
    returns is a part of the stored records, in storage order, and each
    returned product is active with a stock of at most its min_stock.  On
    the relational backend nothing is left out: every stored record that is
    active with a stock of at most its min_stock is returned. *)
Theorem low_stock_products (b : backend) (s : store b)
    (low : list Product) :
  ProductService.GetLowStockProducts s = Ok low ->
  sublist low (records b s) /\
  (forall p, In p low ->
     In p (records b s) /\ IsActive p = true /\ Stock p <= MinStock p) /\
  (b = Relational ->
   forall p, In p (records b s) -> IsActive p = true ->
             Stock p <= MinStock p -> In p low).
Proof.
  assert (E : ProductService.GetLowStockProducts s =
              Ok (filter (fun p => Bool.eqb (IsActive p) true &&
                                   (Stock p <=? MinStock p))
                    (records b s))).
  { unfold ProductService.GetLowStockProducts.
    destruct b; cbn [repoGetLowStockProducts backend_repository
                     PostgresProducts DynamoDBProducts store records].
    - unfold Postgres.GetLowStockProducts.
      f_equal. apply filter_ext. intros p. apply andb_comm.
    - unfold DynamoDB.GetLowStockProducts, DynamoDB.Scan. f_equal.
      apply filter_ext. intros p.
      cbn [DynamoDB.eval_expression forallb DynamoDB.eval_cond].
      rewrite andb_true_r. apply andb_comm. }
  rewrite E. intros H. injection H as <-.
  split; [apply sublist_filter_self|]. split.
  - intros p Hin. apply filter_In in Hin as [Hin Hp].
    apply andb_true_iff in Hp as [Ha Hs].
    split; [exact Hin|]. split; [now apply Bool.eqb_prop | now apply Z.leb_le].
  - intros _ p Hin Ha Hs. apply filter_In. split; [exact Hin|].
    rewrite Ha. now apply Z.leb_le.
Qed.

Lemma low_stock_products_witness :
  In bread shelf /\ IsActive bread = true /\ Stock bread <= MinStock bread.
Proof.
  exact (proj1 (proj2 (low_stock_products KeyValue (load KeyValue shelf)
                         [bread] eq_refl)) bread (or_introl eq_refl)).
Defined.

(* ================================================================== *)
(** * Departments and categories                                       *)
(* ================================================================== *)

Section Categories2.

Lemma update_where_In {A} (C : A -> bool) (g : A -> A) (rows : list A) x :
  In x (update_where C g rows) ->
  exists r, In r rows /\ x = (if C r then g r else r).
Proof.
  unfold update_where. intros H. apply in_map_iff in H as (r & <- & Hr).
  eauto.
Qed.

Lemma update_where_keeps {A} (C : A -> bool) (g : A -> A) (rows : list A) x :
  In x rows -> C x = false -> In x (update_where C g rows).
Proof.
  unfold update_where. intros Hin HC. apply in_map_iff. exists x.
  now rewrite HC.
Qed.

(** A successful category delete through the service. *)
Lemma DeleteCategory_records now id (db db' : Postgres.DB) :
  CategoryService.DeleteCategory now id db = (Ok tt, db') ->
  id <> EmptyString /\
  (exists c, In c (Postgres.categories db) /\ cID c = id) /\
  Postgres.categories db' =
  update_where (fun c => String.eqb (cID c) id) (deactivated_category now)
    (Postgres.categories db).
Proof.
  unfold CategoryService.DeleteCategory.
  destruct (String.eqb id EmptyString) eqn:Hid; [discriminate|].
  apply String.eqb_neq in Hid.
  cbn [repoGetCategory repoUpdateCategory PostgresCategories].
  unfold Postgres.GetCategory.
  destruct (find _ (Postgres.categories db)) as [c1|] eqn:Hf; [|discriminate].
  destruct (find_weaken _ (fun c => String.eqb (cID c) id) _ _
              (fun x Hx => proj1 (proj1 (andb_true_iff _ _) Hx)) Hf)
    as [category Hcat].
  unfold Postgres.UpdateCategory, Postgres.first_category. rewrite Hcat.
  pose proof (find_some _ _ Hcat) as [Hin Hcid]. apply String.eqb_eq in Hcid.
  cbn [set_if ucName ucSlug ucDescription ucParentID ucIsActive app
       Postgres.parent_fields].
  change (len [Postgres.SetCIsActive false] =? 0) with false. cbv iota.
  rewrite Hcid. cbn [Postgres.categories Postgres.with_categories].
  change (fun c => Postgres.apply_cassign
                     (fold_left Postgres.apply_cassign
                        [Postgres.SetCIsActive false] c)
                     (Postgres.SetCUpdatedAt now))
    with (deactivated_category now).
  rewrite (find_id_update_where cID) by reflexivity.
  rewrite Hcat. cbn [option_map].
  intros H. injection H as <-. split; [exact Hid|]. split; [eauto|reflexivity].
Qed.

(** A successful department delete through the service, as a whole. *)
Lemma DeleteDepartment_db now id (db db' : Postgres.DB) :
  DepartmentService.DeleteDepartment now id db = (Ok tt, db') ->
  db' =
  Postgres.with_departments db
    (update_where (fun d => String.eqb (dID d) id)
       (deactivated_department now) (Postgres.departments db)).
Proof.
  unfold DepartmentService.DeleteDepartment.
  destruct (String.eqb id EmptyString); [discriminate|].
  cbn [repoGetDepartment repoUpdateDepartment PostgresDepartments].
  unfold Postgres.GetDepartment.
  destruct (find _ (Postgres.departments db)) as [d1|] eqn:Hf; [|discriminate].
  destruct (find_weaken _ (fun d => String.eqb (dID d) id) _ _
              (fun x Hx => proj1 (proj1 (andb_true_iff _ _) Hx)) Hf)
    as [department Hdep].
  unfold Postgres.UpdateDepartment. rewrite Hdep.
  pose proof (find_some _ _ Hdep) as [Hin Hid]. apply String.eqb_eq in Hid.
  cbn [set_if udName udDescription udIcon udImage udSlug udIsActive app].
  change (len [Postgres.SetDIsActive false] =? 0) with false. cbv iota.
  rewrite Hid. cbn [Postgres.departments Postgres.with_departments].
  change (fun d => Postgres.apply_dassign
                     (fold_left Postgres.apply_dassign
                        [Postgres.SetDIsActive false] d)
                     (Postgres.SetDUpdatedAt now))
    with (deactivated_department now).
  rewrite (find_id_update_where dID) by reflexivity.
  rewrite Hdep. cbn [option_map].
  intros H. now injection H as <-.
Qed.

End Categories2.

(** X16: on the relational backend, after a successful
    DepartmentService.DeleteDepartment the department is read no more:
    GetDepartment on its id fails with a not-found error and ListDepartments
    does not contain it; the stored rows are those the repository's own
    soft delete, DeleteDepartment, leaves. *)
Theorem deleted_department_is_hidden (now : time) (id : string)
    (db db' : Postgres.DB) :
  DepartmentService.DeleteDepartment now id db = (Ok tt, db') ->
  DepartmentQueries.GetDepartment id db'
  = Err "failed to get department: department not found" /\
  (forall ds d, DepartmentQueries.ListDepartments db' = Ok ds ->
                In d ds -> dID d <> id) /\
  Postgres.DeleteDepartment now id db = (Ok tt, db').
Proof.
  intros Hdel.
  assert (Hid : String.eqb id EmptyString = false).
  { unfold DepartmentService.DeleteDepartment in Hdel.
    destruct (String.eqb id EmptyString); [discriminate | reflexivity]. }
  destruct (DeleteDepartment_records now id db db' Hdel)
    as [(d0 & Hin0 & Hd0) Hrec].
  assert (Hinactive : forall d, In d (Postgres.departments db') ->
                                dID d = id -> dIsActive d = false).
  { intros d Hin Hd. rewrite Hrec in Hin.
    apply update_where_In in Hin as (r & _ & ->).
    destruct (String.eqb (dID r) id) eqn:E; [reflexivity|].
    apply String.eqb_neq in E. contradiction. }
  split; [|split].
  - unfold DepartmentQueries.GetDepartment. rewrite Hid.
    cbn [repoGetDepartment PostgresDepartments]. unfold Postgres.GetDepartment.
    rewrite find_all_false; [reflexivity|].
    intros d Hin. destruct (String.eqb (dID d) id) eqn:E; [|reflexivity].
    apply String.eqb_eq in E. now rewrite (Hinactive d Hin E).
  - intros ds d Hds Hin Hd. unfold DepartmentQueries.ListDepartments in Hds.
    cbn [repoListDepartments PostgresDepartments] in Hds.
    unfold Postgres.ListDepartments in Hds. injection Hds as <-.
    apply filter_In in Hin as [Hin Ha]. rewrite (Hinactive d Hin Hd) in Ha.
    discriminate.
  - unfold Postgres.DeleteDepartment.
    assert (E : (rows_affected (fun d => String.eqb (dID d) id)
                   (Postgres.departments db) =? 0) = false).
    { apply Z.eqb_neq. unfold rows_affected, len.
      assert (In d0 (filter (fun d => String.eqb (dID d) id)
                       (Postgres.departments db))) as Hf
        by (apply filter_In; split; [exact Hin0 | now apply String.eqb_eq]).
      destruct (filter _ _); [contradiction | simpl; lia]. }
    rewrite E. now rewrite (DeleteDepartment_db now id db db' Hdel).
Qed.

Lemma deleted_department_is_hidden_witness :
  let d := {| dID := "d1"; dName := "Dairy"; dDescription := EmptyString;
              dIcon := EmptyString; dImage := EmptyString; dSlug := "dairy";
              dIsActive := true; dCreatedAt := 0; dUpdatedAt := 0 |} in
  let db := {| Postgres.products := []; Postgres.departments := [d];
               Postgres.categories := [] |} in
  DepartmentQueries.GetDepartment "d1"
    (snd (DepartmentService.DeleteDepartment 7 "d1" db))
  = Err "failed to get department: department not found".
Proof.
  intros d db.
  exact (proj1 (deleted_department_is_hidden 7 "d1" db
                  (snd (DepartmentService.DeleteDepartment 7 "d1" db))
                  eq_refl)).
Defined.

(** X17: on the relational backend, a successful
    CategoryService.DeleteCategory rewrites only the rows under the id, to
    inactive: GetCategory on the id then fails with a not-found error and
    no ListCategories result contains it, while every other category, its
    children included, is stored as before. *)
Theorem deleted_category_is_hidden (now : time) (id : string)
    (db db' : Postgres.DB) :
  CategoryService.DeleteCategory now id db = (Ok tt, db') ->
  CategoryQueries.GetCategory id db'
  = Err "failed to get category: category not found" /\
  (forall parentID cs c,
     CategoryQueries.ListCategories parentID db' = Ok cs ->
     In c cs -> cID c <> id) /\
  (forall c, In c (Postgres.categories db) -> cID c <> id ->
             In c (Postgres.categories db')).
Proof.
  intros Hdel.
  destruct (DeleteCategory_records now id db db' Hdel) as (Hid & _ & Hrec).
  apply String.eqb_neq in Hid.
  assert (Hinactive : forall c, In c (Postgres.categories db') ->
                                cID c = id -> cIsActive c = false).
  { intros c Hin Hc. rewrite Hrec in Hin.
    apply update_where_In in Hin as (r & _ & ->).
    destruct (String.eqb (cID r) id) eqn:E; [reflexivity|].
    apply String.eqb_neq in E. contradiction. }
  split; [|split].
  - unfold CategoryQueries.GetCategory. rewrite Hid.
    cbn [repoGetCategory PostgresCategories]. unfold Postgres.GetCategory.
    rewrite find_all_false; [reflexivity|].
    intros c Hin. destruct (String.eqb (cID c) id) eqn:E; [|reflexivity].
    apply String.eqb_eq in E. now rewrite (Hinactive c Hin E).
  - intros parentID cs c Hcs Hin Hc.
    unfold CategoryQueries.ListCategories in Hcs.
    cbn [repoListCategories PostgresCategories] in Hcs.
    unfold Postgres.ListCategories in Hcs. injection Hcs as <-.
    apply filter_In in Hin as [Hin Ha]. apply andb_true_iff in Ha as [Ha _].
    rewrite (Hinactive c Hin Hc) in Ha. discriminate.
  - intros c Hin Hc. rewrite Hrec. apply update_where_keeps; [exact Hin|].
    now apply String.eqb_neq.
Qed.

Lemma deleted_category_is_hidden_witness :
  CategoryQueries.GetCategory "food"
    (snd (CategoryService.DeleteCategory 9 "food" (run_ops history emptyDB)))
  = Err "failed to get category: category not found".
Proof.
  exact (proj1 (deleted_category_is_hidden 9 "food"
                  (run_ops history emptyDB)
                  (snd (CategoryService.DeleteCategory 9 "food"
                          (run_ops history emptyDB)))
                  eq_refl)).
Defined.



Section CategoryWrites.

Lemma pg_CreateCategory_ok now newid category db c db' :
  Postgres.CreateCategory now newid category db = (Ok c, db') ->
  Postgres.first_category newid db = None /\
  db' = Postgres.with_categories db (Postgres.categories db ++ [c]) /\
  cID c = newid /\ cName c = cName category /\ cSlug c = cSlug category /\
  cDescription c = cDescription category /\
  cParentID c = cParentID category /\
  cIsActive c = true /\ cCreatedAt c = now /\ cUpdatedAt c = now /\
  match cParentID category with
  | None => cLevel c = 0
  | Some parentID =>
      exists parent,
        Postgres.first_category parentID db = Some parent /\
        cLevel c = wrap64 (cLevel parent + 1)
  end.
Proof.
  unfold Postgres.CreateCategory.
  destruct (cParentID category) as [parentID|] eqn:Hpar.
  - destruct (Postgres.first_category parentID db) as [parent|] eqn:Hp;
      [|discriminate].
    destruct (Postgres.first_category newid db) eqn:Hnew; [discriminate|].
    intros H. injection H as <- <-. repeat split. now exists parent.
  - destruct (Postgres.first_category newid db) eqn:Hnew; [discriminate|].
    intros H. injection H as <- <-. repeat split.
Qed.


End CategoryWrites.

(** X19: when CategoryService.CreateCategory succeeds on the relational
    backend, the new category is stored after the existing rows, which are
    unchanged; it carries the generated id, which no stored row had, the
    name, slug, description and parent of the request, is active, and the
    repository's GetCategory returns it under its id.  Its level is 0
    without a parent, and the stored parent's level plus one otherwise. *)
Theorem created_category_is_stored (now : time) (newid : string)
    (request : CreateCategoryRequest) (db db' : Postgres.DB) (c : Category) :
  CategoryService.CreateCategory now newid (Some request) db = (Ok c, db') ->
  Postgres.categories db' = (Postgres.categories db ++ [c])%list /\
  (forall c0, In c0 (Postgres.categories db) -> cID c0 <> newid) /\
  cID c = newid /\ cName c = ccName request /\ cSlug c = ccSlug request /\
  cDescription c = ccDescription request /\
  cParentID c = ccParentID request /\
  cIsActive c = true /\ cCreatedAt c = now /\ cUpdatedAt c = now /\
  Postgres.GetCategory newid db' = Ok c /\
  match ccParentID request with
  | None => cLevel c = 0
  | Some parentID =>
      exists parent,
        Postgres.first_category parentID db = Some parent /\
        (in_int64 (cLevel parent + 1) -> cLevel c = cLevel parent + 1)
  end.
Proof.
  unfold CategoryService.CreateCategory.
  set (category := {| cID := EmptyString; cName := ccName request;
                      cSlug := ccSlug request;
                      cDescription := ccDescription request;
                      cParentID := ccParentID request; cLevel := 0;
                      cIsActive := false; cCreatedAt := 0;
                      cUpdatedAt := 0 |}).
  intros H.
  assert (Hrepo : Postgres.CreateCategory now newid category db = (Ok c, db')).
  { destruct (ccParentID request) as [parentID|];
      [destruct (nonempty parentID);
       [destruct (repoGetCategory parentID db); [|discriminate]|]|];
      cbn [repoCreateCategory PostgresCategories] in H;
      destruct (Postgres.CreateCategory now newid category db) as [[?|?] ?];
      try discriminate; now injection H as -> ->. }
  clear H.
  apply pg_CreateCategory_ok in Hrepo
    as (Hnew & -> & Hid & Hn & Hs & Hd & Hp & Ha & Hc & Hu & Hl).
  cbn [Postgres.categories Postgres.with_categories cName cSlug cDescription
       cParentID category] in *.
  split; [reflexivity|].
  split; [intros c0 Hin; exact (first_category_None _ _ _ Hnew Hin)|].
  repeat (split; [assumption|]).
  split.
  - unfold Postgres.GetCategory.
    cbn [Postgres.categories Postgres.with_categories].
    assert (Hn' : find (fun c0 => String.eqb (cID c0) newid &&
                                  Bool.eqb (cIsActive c0) true)
                    (Postgres.categories db) = None).
    { apply find_all_false. intros c0 Hin.
      pose proof (first_category_None _ _ _ Hnew Hin) as Hne.
      apply String.eqb_neq in Hne. now rewrite Hne. }
    rewrite (find_app_last _ _ c Hn'); [reflexivity|].
    now rewrite Hid, Ha, String.eqb_refl.
  - destruct (ccParentID request) as [parentID|]; [|exact Hl].
    destruct Hl as (parent & Hparent & Hlevel). exists parent.
    split; [exact Hparent|]. intros Hrange.
    now rewrite Hlevel, wrap64_exact.
Qed.

Lemma created_category_is_stored_witness :
  let c := {| cID := "dairy"; cName := "dairy"; cSlug := "dairy";
              cDescription := EmptyString; cParentID := Some "food";
              cLevel := 1; cIsActive := true; cCreatedAt := 2;
              cUpdatedAt := 2 |} in
  Postgres.GetCategory "dairy"
    (run_ops [OpCreate 1 "food" (newCategory "food" None);
              OpCreate 2 "dairy" (newCategory "dairy" (Some "food"))]
       emptyDB) = Ok c.
Proof.
  intros c.
  pose proof (created_category_is_stored 2 "dairy"
                (newCategory "dairy" (Some "food"))
                (run_ops [OpCreate 1 "food" (newCategory "food" None)]
                   emptyDB)
                (run_ops [OpCreate 1 "food" (newCategory "food" None);
                          OpCreate 2 "dairy"
                            (newCategory "dairy" (Some "food"))] emptyDB)
                c eq_refl) as H.
  exact (proj1 (proj2 (proj2 (proj2 (proj2 (proj2 (proj2 (proj2 (proj2
           (proj2 (proj2 H))))))))))).
Defined.



(* ================================================================== *)
(** * Routing and path segments                                        *)
(* ================================================================== *)

Section PathFacts.

Lemma append_assoc' (a b c : string) : (a ++ b) ++ c = a ++ (b ++ c).
Proof. induction a as [|x a IH]; simpl; [reflexivity | now rewrite IH]. Qed.

Lemma HasPrefix_weaken (s a b : string) :
  Paths.HasPrefix s (a ++ b) = true -> Paths.HasPrefix s a = true.
Proof.
  unfold Paths.HasPrefix. rewrite !prefix_iff. intros [t ->].
  exists (b ++ t). apply append_assoc'.
Qed.

Lemma prefix_empty (t : string) : String.prefix EmptyString t = true.
Proof. now destruct t. Qed.

Lemma Split_nonempty (s : string) (sep : ascii) : Paths.Split s sep <> [].
Proof.
  destruct s as [|c t]; cbn [Paths.Split]; [discriminate|].
  destruct (Ascii.eqb c sep); [discriminate|].
  destruct (Paths.Split t sep); discriminate.
Qed.

Lemma Split_free (s : string) (sep : ascii) :
  Paths.free_of sep s = true -> Paths.Split s sep = [s].
Proof.
  induction s as [|c t IH]; cbn [Paths.Split Paths.free_of];
    [reflexivity|].
  intros H. apply andb_true_iff in H as [Hc Ht].
  apply negb_true_iff in Hc. rewrite Hc, (IH Ht). reflexivity.
Qed.

Lemma Split_segment (a b : string) (sep : ascii) :
  Paths.free_of sep a = true ->
  Paths.Split (a ++ String sep b) sep = a :: Paths.Split b sep.
Proof.
  induction a as [|c t IH]; cbn [Paths.Split Paths.free_of append].
  - intros _. now rewrite Ascii.eqb_refl.
  - intros H. apply andb_true_iff in H as [Hc Ht].
    apply negb_true_iff in Hc. rewrite Hc, (IH Ht). reflexivity.
Qed.

Lemma Split_parts_free (s : string) (sep : ascii) :
  Forall (fun part => Paths.free_of sep part = true) (Paths.Split s sep).
Proof.
  induction s as [|c t IH]; cbn [Paths.Split].
  - constructor; [reflexivity | constructor].
  - destruct (Ascii.eqb c sep) eqn:E.
    + constructor; [reflexivity | exact IH].
    + destruct (Paths.Split t sep) as [|first rest].
      * constructor; [|constructor]. cbn. now rewrite E.
      * inversion IH; subst. constructor; [|assumption].
        cbn. now rewrite E.
Qed.

Lemma TrimRight_free (s : string) :
  Paths.free_of "/" s = true -> Paths.TrimRight s "/" = s.
Proof.
  induction s as [|c t IH]; cbn [Paths.TrimRight Paths.free_of];
    [reflexivity|].
  intros H. apply andb_true_iff in H as [Hc Ht].
  apply negb_true_iff in Hc. rewrite (IH Ht).
  unfold Paths.in_cutset. cbn [list_ascii_of_string existsb].
  now rewrite Hc, orb_false_r, andb_false_r.
Qed.

Lemma TrimRight_before (a s : string) :
  s <> EmptyString -> Paths.free_of "/" s = true ->
  Paths.TrimRight (a ++ s) "/" = a ++ s.
Proof.
  intros Hne Hfree. induction a as [|c t IH].
  - now apply TrimRight_free.
  - cbn [append Paths.TrimRight]. rewrite IH.
    assert (E : String.eqb (t ++ s) EmptyString = false).
    { apply String.eqb_neq. destruct t; [exact Hne | discriminate]. }
    now rewrite E.
Qed.

Lemma Trim_path (c : ascii) (a s : string) :
  Ascii.eqb c "/" = false ->
  s <> EmptyString -> Paths.free_of "/" s = true ->
  Paths.Trim (String "/" (String c a ++ s)) "/" = String c a ++ s.
Proof.
  intros Hc Hne Hfree. unfold Paths.Trim. cbn [Paths.TrimLeft append].
  change (Paths.in_cutset "/" "/") with true. cbv iota.
  unfold Paths.in_cutset at 1. cbn [list_ascii_of_string existsb].
  rewrite Hc. cbn [orb].
  exact (TrimRight_before (String c a) s Hne Hfree).
Qed.

(** A path whose segment before the id is not [department]. *)
Lemma other_segment_has_no_department (seg id : string) :
  seg <> "department" -> Paths.free_of "/" seg = true ->
  id <> EmptyString -> Paths.free_of "/" id = true ->
  HandlerV1.extractDepartmentIDFromPath ("/products/" ++ seg ++ "/" ++ id)
  = EmptyString /\
  Handler.extractDepartmentIDFromPath
    ("/product-service/products/" ++ seg ++ "/" ++ id) = EmptyString.
Proof.
  intros Hseg Hfs Hne Hfree. apply String.eqb_neq in Hseg.
  unfold HandlerV1.extractDepartmentIDFromPath,
    Handler.extractDepartmentIDFromPath.
  split.
  - replace ("/products/" ++ seg ++ "/" ++ id)
      with (String "/" (String "p" ("roducts/" ++ seg ++ "/") ++ id)).
    2:{ cbn [append]. rewrite !append_assoc'. reflexivity. }
    rewrite Trim_path by (reflexivity || assumption).
    replace (String "p" ("roducts/" ++ seg ++ "/") ++ id)
      with ("products" ++ String "/" (seg ++ String "/" id)).
    2:{ cbn [append]. rewrite !append_assoc'. reflexivity. }
    rewrite !Split_segment by (reflexivity || assumption).
    rewrite (Split_free id) by assumption.
    cbn [nth]. rewrite Hseg. now rewrite andb_false_r.
  - replace ("/product-service/products/" ++ seg ++ "/" ++ id)
      with (String "/" (String "p" ("roduct-service/products/" ++ seg ++ "/")
                          ++ id)).
    2:{ cbn [append]. rewrite !append_assoc'. reflexivity. }
    rewrite Trim_path by (reflexivity || assumption).
    replace (String "p" ("roduct-service/products/" ++ seg ++ "/") ++ id)
      with ("product-service" ++ String "/"
              ("products" ++ String "/" (seg ++ String "/" id))).
    2:{ cbn [append]. rewrite !append_assoc'. reflexivity. }
    rewrite !Split_segment by (reflexivity || assumption).
    rewrite (Split_free id) by assumption.
    cbn [nth]. rewrite Hseg. now rewrite andb_false_r.
Qed.

Lemma free_of_nth (parts : list string) (n : nat) :
  Forall (fun part => Paths.free_of "/" part = true) parts ->
  Paths.free_of "/" (nth n parts EmptyString) = true.
Proof.
  intros H. revert n. induction H as [|x xs Hx _ IH]; intros [|n];
    cbn [nth]; auto.
Qed.

Lemma free_of_last (parts : list string) :
  Forall (fun part => Paths.free_of "/" part = true) parts ->
  Paths.free_of "/" (last parts EmptyString) = true.
Proof.
  induction 1 as [|x xs Hx Hxs IH]; [reflexivity|].
  cbn [last]. destruct xs; [exact Hx | exact IH].
Qed.

End PathFacts.

Ltac route_cases :=
  repeat match goal with
         | |- context [if ?c then _ else _] => destruct c eqn:?
         end.

Ltac shadowed :=
  repeat match goal with
         | H : (_ && _)%bool = true |- _ =>
             apply andb_true_iff in H; destruct H
         | H : String.eqb _ _ = true |- _ =>
             apply String.eqb_eq in H; subst
         end;
  repeat match goal with
         | H : Paths.HasPrefix ?p (String _ _) = true,
           H' : context [Paths.HasPrefix ?p _] |- _ =>
             first
               [ rewrite (HasPrefix_weaken p "/products/" "department/" H)
                   in H'
               | rewrite (HasPrefix_weaken p "/product-service/products/"
                            "department/" H) in H' ]
         end;
  cbn in *; try discriminate; try congruence.

(** X21: in the handler of handler/handler.go the cases of HandleRequest
    are tried in order, so every GET request whose path starts with
    /products/ is dispatched to getProduct, and the handlers registered
    for GET /products/low-stock, /products/on-sale and
    /products/department/ are never dispatched to, whatever the request. *)
Theorem handler_v1_get_routes_are_shadowed (HTTPMethod Path : string) :
  (Paths.HasPrefix Path "/products/" = true ->
   HandlerV1.HandleRequest "GET" Path = getProduct) /\
  HandlerV1.HandleRequest HTTPMethod Path <> getLowStockProducts /\
  HandlerV1.HandleRequest HTTPMethod Path <> getProductsOnSale /\
  HandlerV1.HandleRequest HTTPMethod Path <> getProductsByDepartment.
Proof.
  split; [|split; [|split]].
  - intros Hp. unfold HandlerV1.HandleRequest.
    cbn [String.eqb Ascii.eqb Bool.eqb andb]. rewrite Hp.
    destruct (String.eqb Path "/products") eqn:E; [|reflexivity].
    apply String.eqb_eq in E. subst Path. discriminate Hp.
  - unfold HandlerV1.HandleRequest. route_cases; try discriminate. shadowed.
  - unfold HandlerV1.HandleRequest. route_cases; try discriminate. shadowed.
  - unfold HandlerV1.HandleRequest. route_cases; try discriminate. shadowed.
Qed.

Lemma handler_v1_get_routes_are_shadowed_witness :
  HandlerV1.HandleRequest "GET" "/products/low-stock" = getProduct.
Proof.
  exact (proj1 (handler_v1_get_routes_are_shadowed "GET"
                  "/products/low-stock") eq_refl).
Defined.

(** X22: the same holds of the handler with the /product-service routes:
    every GET request whose path starts with /product-service/products/ is
    dispatched to getProduct, and getLowStockProducts, getProductsOnSale
    and getProductsByDepartment are never dispatched to; the department and
    category routes are reached as written. *)
Theorem handler_get_routes_are_shadowed (HTTPMethod Path : string) :
  (Paths.HasPrefix Path "/product-service/products/" = true ->
   Handler.HandleRequest "GET" Path = getProduct) /\
  Handler.HandleRequest HTTPMethod Path <> getLowStockProducts /\
  Handler.HandleRequest HTTPMethod Path <> getProductsOnSale /\
  Handler.HandleRequest HTTPMethod Path <> getProductsByDepartment /\
  (Paths.HasPrefix Path "/product-service/departments/" = true ->
   Handler.HandleRequest "GET" Path = getDepartment /\
   Handler.HandleRequest "PUT" Path = updateDepartment /\
   Handler.HandleRequest "DELETE" Path = deleteDepartment) /\
  (Paths.HasPrefix Path "/product-service/categories/" = true ->
   Handler.HandleRequest "GET" Path = getCategory /\
   Handler.HandleRequest "PUT" Path = updateCategory /\
   Handler.HandleRequest "DELETE" Path = deleteCategory).
Proof.
  split; [|split; [|split; [|split; [|split]]]].
  - intros Hp. unfold Handler.HandleRequest.
    cbn [String.eqb Ascii.eqb Bool.eqb andb]. rewrite Hp.
    destruct (String.eqb Path "/product-service/products") eqn:E;
      [|reflexivity].
    apply String.eqb_eq in E. subst Path. discriminate Hp.
  - unfold Handler.HandleRequest. route_cases; try discriminate. shadowed.
  - unfold Handler.HandleRequest. route_cases; try discriminate. shadowed.
  - unfold Handler.HandleRequest. route_cases; try discriminate. shadowed.
  - intros Hp. apply prefix_iff in Hp as [t ->].
    unfold Handler.HandleRequest, Paths.HasPrefix.
    repeat split; cbn; now rewrite prefix_empty.
  - intros Hp. apply prefix_iff in Hp as [t ->].
    unfold Handler.HandleRequest, Paths.HasPrefix.
    repeat split; cbn; now rewrite prefix_empty.
Qed.

Lemma handler_get_routes_are_shadowed_witness :
  Handler.HandleRequest "GET" "/product-service/products/on-sale"
  = getProduct.
Proof.
  exact (proj1 (handler_get_routes_are_shadowed "GET"
                  "/product-service/products/on-sale") eq_refl).
Defined.

(** X23: extractIDFromPath returns a path segment, never a string with a
    slash.  For a non-empty id without slash, the handler of
    handler/handler.go reads it from /products/<id>, the /product-service
    handler reads it from /product-service/products/<id>,
    /product-service/departments/<id> and /product-service/categories/<id>,
    and answers the empty string for a path of fewer than three
    segments. *)
Theorem extractIDFromPath_segment (path id : string) :
  Paths.free_of "/" (HandlerV1.extractIDFromPath path) = true /\
  Paths.free_of "/" (Handler.extractIDFromPath path) = true /\
  (id <> EmptyString -> Paths.free_of "/" id = true ->
   HandlerV1.extractIDFromPath ("/products/" ++ id) = id /\
   Handler.extractIDFromPath ("/product-service/products/" ++ id) = id /\
   Handler.extractIDFromPath ("/product-service/departments/" ++ id) = id /\
   Handler.extractIDFromPath ("/product-service/categories/" ++ id) = id /\
   Handler.extractIDFromPath ("/products/" ++ id) = EmptyString).
Proof.
  split; [|split].
  - unfold HandlerV1.extractIDFromPath. cbv zeta.
    destruct (2 <=? _); [|reflexivity].
    apply free_of_nth, Split_parts_free.
  - unfold Handler.extractIDFromPath. cbv zeta.
    destruct (3 <=? _); [|reflexivity].
    apply free_of_last, Split_parts_free.
  - intros Hne Hfree.
    assert (Htrim : forall a : string,
              Paths.Trim (String "/" (String "p" a ++ id)) "/"
              = String "p" a ++ id).
    { intros a. unfold Paths.Trim. cbn [Paths.TrimLeft append].
      change (Paths.in_cutset "/" "/") with true.
      change (Paths.in_cutset "p" "/") with false. cbv iota.
      exact (TrimRight_before (String "p" a) id Hne Hfree). }
    unfold HandlerV1.extractIDFromPath, Handler.extractIDFromPath.
    repeat split.
    + change ("/products/" ++ id) with (String "/" (String "p" "roducts/" ++ id)).
      rewrite Htrim.
      change (String "p" "roducts/" ++ id) with ("products" ++ String "/" id).
      rewrite Split_segment by reflexivity. rewrite (Split_free id) by assumption.
      reflexivity.
    + change ("/product-service/products/" ++ id)
        with (String "/" (String "p" "roduct-service/products/" ++ id)).
      rewrite Htrim.
      change (String "p" "roduct-service/products/" ++ id)
        with ("product-service" ++ String "/" ("products" ++ String "/" id)).
      rewrite !Split_segment by reflexivity.
      rewrite (Split_free id) by assumption. reflexivity.
    + change ("/product-service/departments/" ++ id)
        with (String "/" (String "p" "roduct-service/departments/" ++ id)).
      rewrite Htrim.
      change (String "p" "roduct-service/departments/" ++ id)
        with ("product-service" ++ String "/"
                ("departments" ++ String "/" id)).
      rewrite !Split_segment by reflexivity.
      rewrite (Split_free id) by assumption. reflexivity.
    + change ("/product-service/categories/" ++ id)
        with (String "/" (String "p" "roduct-service/categories/" ++ id)).
      rewrite Htrim.
      change (String "p" "roduct-service/categories/" ++ id)
        with ("product-service" ++ String "/"
                ("categories" ++ String "/" id)).
      rewrite !Split_segment by reflexivity.
      rewrite (Split_free id) by assumption. reflexivity.
    + change ("/products/" ++ id) with (String "/" (String "p" "roducts/" ++ id)).
      rewrite Htrim.
      change (String "p" "roducts/" ++ id) with ("products" ++ String "/" id).
      rewrite Split_segment by reflexivity. rewrite (Split_free id) by assumption.
      reflexivity.
Qed.

Lemma extractIDFromPath_segment_witness :
  Handler.extractIDFromPath "/product-service/products/42" = "42".
Proof.
  refine (proj1 (proj2 (proj2 (proj2 (extractIDFromPath_segment
            EmptyString "42")) _ eq_refl))).
  discriminate.
Defined.

(** X24: extractDepartmentIDFromPath returns the segment that follows
    /products/department/ (under /product-service in the second handler)
    when it is a non-empty id without slash, and never a string with a
    slash; it returns the empty string whenever the segment before the id
    is not "department" (the second segment in handler/handler.go, the
    third under /product-service), as on /products/<other>/<id>, and on a
    path that is too short.  On a department path extractIDFromPath of the
    /product-service handler returns the department id too, which is what
    getProduct, the handler such a GET request is dispatched to, takes as
    product id. *)
Theorem extractDepartmentIDFromPath_segment (path id : string) :
  Paths.free_of "/" (HandlerV1.extractDepartmentIDFromPath path) = true /\
  Paths.free_of "/" (Handler.extractDepartmentIDFromPath path) = true /\
  (id <> EmptyString -> Paths.free_of "/" id = true ->
   HandlerV1.extractDepartmentIDFromPath ("/products/department/" ++ id)
   = id /\
   Handler.extractDepartmentIDFromPath
     ("/product-service/products/department/" ++ id) = id /\
   Handler.extractIDFromPath
     ("/product-service/products/department/" ++ id) = id /\
   Handler.HandleRequest "GET"
     ("/product-service/products/department/" ++ id) = getProduct /\
   Handler.extractDepartmentIDFromPath
     ("/product-service/products/" ++ id) = EmptyString) /\
  (nth 1 (Paths.Split (Paths.Trim path "/") "/") EmptyString <> "department" ->
   HandlerV1.extractDepartmentIDFromPath path = EmptyString) /\
  (nth 2 (Paths.Split (Paths.Trim path "/") "/") EmptyString <> "department" ->
   Handler.extractDepartmentIDFromPath path = EmptyString) /\
  (forall seg,
     seg <> "department" -> Paths.free_of "/" seg = true ->
     id <> EmptyString -> Paths.free_of "/" id = true ->
     HandlerV1.extractDepartmentIDFromPath ("/products/" ++ seg ++ "/" ++ id)
     = EmptyString /\
     Handler.extractDepartmentIDFromPath
       ("/product-service/products/" ++ seg ++ "/" ++ id) = EmptyString).
Proof.
  split; [|split; [|split; [|split; [|split]]]];
    [| | |
     intros Hseg; apply String.eqb_neq in Hseg;
     unfold HandlerV1.extractDepartmentIDFromPath; cbv zeta;
     rewrite Hseg; now rewrite andb_false_r
    |intros Hseg; apply String.eqb_neq in Hseg;
     unfold Handler.extractDepartmentIDFromPath; cbv zeta;
     rewrite Hseg; now rewrite andb_false_r
    |intros seg; apply other_segment_has_no_department].
  - unfold HandlerV1.extractDepartmentIDFromPath. cbv zeta.
    destruct (_ && _); [|reflexivity].
    apply free_of_nth, Split_parts_free.
  - unfold Handler.extractDepartmentIDFromPath. cbv zeta.
    destruct (_ && _); [|reflexivity].
    apply free_of_nth, Split_parts_free.
  - intros Hne Hfree.
    assert (Htrim : forall a : string,
              Paths.Trim (String "/" (String "p" a ++ id)) "/"
              = String "p" a ++ id).
    { intros a. unfold Paths.Trim. cbn [Paths.TrimLeft append].
      change (Paths.in_cutset "/" "/") with true.
      change (Paths.in_cutset "p" "/") with false. cbv iota.
      exact (TrimRight_before (String "p" a) id Hne Hfree). }
    unfold HandlerV1.extractDepartmentIDFromPath,
      Handler.extractDepartmentIDFromPath, Handler.extractIDFromPath.
    split; [|split; [|split; [|split]]].
    + change ("/products/department/" ++ id)
        with (String "/" (String "p" "roducts/department/" ++ id)).
      rewrite Htrim.
      change (String "p" "roducts/department/" ++ id)
        with ("products" ++ String "/" ("department" ++ String "/" id)).
      rewrite !Split_segment by reflexivity.
      rewrite (Split_free id) by assumption. reflexivity.
    + change ("/product-service/products/department/" ++ id)
        with (String "/"
                (String "p" "roduct-service/products/department/" ++ id)).
      rewrite Htrim.
      change (String "p" "roduct-service/products/department/" ++ id)
        with ("product-service" ++ String "/"
                ("products" ++ String "/"
                   ("department" ++ String "/" id))).
      rewrite !Split_segment by reflexivity.
      rewrite (Split_free id) by assumption. reflexivity.
    + change ("/product-service/products/department/" ++ id)
        with (String "/"
                (String "p" "roduct-service/products/department/" ++ id)).
      rewrite Htrim.
      change (String "p" "roduct-service/products/department/" ++ id)
        with ("product-service" ++ String "/"
                ("products" ++ String "/"
                   ("department" ++ String "/" id))).
      rewrite !Split_segment by reflexivity.
      rewrite (Split_free id) by assumption. reflexivity.
    + unfold Handler.HandleRequest, Paths.HasPrefix. cbn.
      rewrite ?prefix_empty. reflexivity.
    + change ("/product-service/products/" ++ id)
        with (String "/" (String "p" "roduct-service/products/" ++ id)).
      rewrite Htrim.
      change (String "p" "roduct-service/products/" ++ id)
        with ("product-service" ++ String "/" ("products" ++ String "/" id)).
      rewrite !Split_segment by reflexivity.
      rewrite (Split_free id) by assumption. reflexivity.
Qed.

Lemma extractDepartmentIDFromPath_segment_witness :
  Handler.extractDepartmentIDFromPath
    "/product-service/products/department/d1" = "d1" /\
  Handler.extractDepartmentIDFromPath
    "/product-service/products/other/42" = EmptyString.
Proof.
  pose proof (extractDepartmentIDFromPath_segment EmptyString "d1")
    as (_ & _ & Hid & _).
  pose proof (extractDepartmentIDFromPath_segment EmptyString "42")
    as (_ & _ & _ & _ & _ & Hother).
  split.
  - refine (proj1 (proj2 (Hid _ eq_refl))). discriminate.
  - refine (proj2 (Hother "other" _ eq_refl _ eq_refl)); discriminate.
Defined.

(** X25: ListCategories of the relational repository, called through the
    category service, returns exactly the stored categories that are active
    and whose parent reference is the requested one: the given parent id,
    or no parent at all when none is given. *)
Theorem listed_categories_have_the_parent (parentID : option string)
    (db : Postgres.DB) (cs : list Category) (c : Category) :
  CategoryQueries.ListCategories parentID db = Ok cs ->
  (In c cs <->
   In c (Postgres.categories db) /\ cIsActive c = true /\
   cParentID c = parentID).
Proof.
  unfold CategoryQueries.ListCategories.
  cbn [repoListCategories PostgresCategories].
  unfold Postgres.ListCategories. intros H. injection H as <-.
  rewrite filter_In, andb_true_iff.
  split; intros (Hin & Ha & Hp); (split; [exact Hin|]).
  - split; [now apply Bool.eqb_prop|].
    destruct parentID as [want|], (cParentID c) as [have|];
      try discriminate; [|reflexivity].
    apply String.eqb_eq in Hp. now subst.
  - split; [now rewrite Ha|]. rewrite Hp.
    destruct parentID; [apply String.eqb_refl | reflexivity].
Qed.

Lemma listed_categories_have_the_parent_witness :
  let dairy := {| cID := "dairy"; cName := "dairy"; cSlug := "dairy";
                  cDescription := EmptyString; cParentID := Some "food";
                  cLevel := 1; cIsActive := true; cCreatedAt := 2;
                  cUpdatedAt := 2 |} in
  In dairy (Postgres.categories (run_ops history emptyDB)) /\
  cIsActive dairy = true /\ cParentID dairy = Some "food".
Proof.
  intros dairy.
  refine (proj1 (listed_categories_have_the_parent (Some "food")
                   (run_ops history emptyDB) [dairy] dairy eq_refl) _).
  left. reflexivity.
Defined.

(* ================================================================== *)
(** * Creating products                                                *)
(* ================================================================== *)

Section Creation.

Lemma find_replace_key (id : string) (item : Product) (rows : list Product) :
  ID item = id ->
  find (fun p => String.eqb (ID p) id)
    (update_where (fun p => String.eqb (ID p) id) (fun _ => item) rows) =
  option_map (fun _ => item) (find (fun p => String.eqb (ID p) id) rows).
Proof.
  intros Hid. induction rows as [|r rows IH]; simpl; [reflexivity|].
  destruct (String.eqb (ID r) id) eqn:E.
  - now rewrite Hid, String.eqb_refl.
  - rewrite E. exact IH.
Qed.

Lemma existsb_false {A} (P : A -> bool) (xs : list A) x :
  existsb P xs = false -> In x xs -> P x = false.
Proof.
  intros H Hin. destruct (P x) eqn:E; [|reflexivity].
  assert (existsb P xs = true) by (apply existsb_exists; eauto). congruence.
Qed.

End Creation.

(** X26: when the service's CreateProduct succeeds, on either backend, the
    product it returns carries the generated id and the fields of the
    request, is active, has rating 0 and no reviews; created_at is the first
    reading of the clock, and updated_at is the same reading on the
    relational backend and the second reading on the key-value backend.  A
    record is then stored under the id and returned by the repository's
    GetProduct, with the sku, slug, name, category, department, brand, unit,
    stock, min_stock and on-sale flag of the request, active and without
    reviews; every record stored before under another id is still stored. *)
Theorem created_product_is_stored (b : backend) (now now' : time)
    (newid : string) (request : CreateProductRequest) (s s' : store b)
    (p : Product) :
  ProductCreation.CreateProduct now now' newid (Some request) s = (Ok p, s') ->
  p = {| ID := newid; SKU := crSKU request; Slug := crSlug request;
         Name := crName request; Description := crDescription request;
         Price := crPrice request; OriginalPrice := crOriginalPrice request;
         Images := crImages request; CategoryID := crCategoryID request;
         DepartmentID := crDepartmentID request; Brand := crBrand request;
         Unit := crUnit request; Stock := crStock request;
         MinStock := crMinStock request; Weight := crWeight request;
         WeightUnit := crWeightUnit request;
         Dimensions := crDimensions request; IsOnSale := crIsOnSale request;
         Discount := crDiscount request; Rating := 0; Reviews := 0;
         IsActive := true; Tags := crTags request; CreatedAt := now;
         UpdatedAt := match b with Relational => now | KeyValue => now' end
      |} /\
  (exists q,
     repoGetProduct newid s' = Ok q /\ In q (records b s') /\
     ID q = newid /\ SKU q = crSKU request /\ Slug q = crSlug request /\
     Name q = crName request /\ CategoryID q = crCategoryID request /\
     DepartmentID q = crDepartmentID request /\ Brand q = crBrand request /\
     Unit q = crUnit request /\ Stock q = crStock request /\
     MinStock q = crMinStock request /\ IsOnSale q = crIsOnSale request /\
     Reviews q = 0 /\ IsActive q = true) /\
  (forall q, In q (records b s) -> ID q <> newid -> In q (records b s')).
Proof.
  unfold ProductCreation.CreateProduct.
  destruct b; cbn [repoCreateProduct backend_creator repoGetProduct
                   backend_repository PostgresProducts DynamoDBProducts
                   records store] in *.
  - unfold PostgresCreate.CreateProduct. cbv zeta.
    unfold PostgresCreate.auto_time. cbn [CreatedAt UpdatedAt].
    change (0 =? 0) with true. cbv iota.
    destruct (existsb _ (Postgres.products s)) eqn:Hex; [discriminate|].
    destruct (Postgres.first_category _ s); [|discriminate].
    intros H. injection H as <- <-.
    cbn [Postgres.products Postgres.with_products].
    split; [reflexivity|]. split; [|intros q Hq _; apply in_or_app; now left].
    eexists. split; [|split; [apply in_or_app; right; now left|]].
    + unfold Postgres.GetProduct.
      cbn [Postgres.products Postgres.with_products].
      assert (Hnone : find (fun q => String.eqb (ID q) newid &&
                                     Bool.eqb (IsActive q) true)
                        (Postgres.products s) = None).
      { apply find_all_false. intros q Hq.
        pose proof (existsb_false _ _ q Hex Hq) as Hf. cbn in Hf.
        apply orb_false_iff in Hf as [Hf _].
        apply orb_false_iff in Hf as [Hf _]. now rewrite Hf. }
      rewrite (find_app_last _ _ _ Hnone); [reflexivity|].
      cbn. now rewrite String.eqb_refl.
    + cbn. repeat split.
  - unfold DynamoDBCreate.CreateProduct, DynamoDBCreate.PutItem. cbv zeta.
    cbn [ID stamped].
    destruct (DynamoDB.valid_key newid) eqn:Hkey; [|discriminate].
    destruct (find (fun q => String.eqb (ID q) newid) s) as [old|] eqn:Hf;
      intros H; injection H as <- <-; (split; [reflexivity|]).
    + split.
      * eexists. split; [|split].
        -- apply ddb_GetProduct_found; [exact Hkey|].
           rewrite find_replace_key by reflexivity. now rewrite Hf.
        -- apply find_some in Hf as [Hin Hid]. unfold update_where.
           apply in_map_iff. exists old. now rewrite Hid.
        -- cbn. repeat split.
      * intros q Hq Hne. apply update_where_keeps; [exact Hq|].
        now apply String.eqb_neq.
    + split.
      * eexists. split; [|split].
        -- apply ddb_GetProduct_found; [exact Hkey|].
           apply (find_app_last _ _ _ Hf). apply String.eqb_refl.
        -- apply in_or_app. right. now left.
        -- cbn. repeat split.
      * intros q Hq _. apply in_or_app. now left.
Qed.

Lemma created_product_is_stored_witness :
  let request :=
    {| crName := "Cocoa"; crDescription := EmptyString; crSKU := "sku-p3";
       crSlug := "item-p3"; crPrice := 300; crOriginalPrice := None;
       crCategoryID := "c1"; crDepartmentID := "d1"; crBrand := "acme";
       crUnit := "unit"; crImages := []; crStock := 4; crMinStock := 1;
       crWeight := 0; crWeightUnit := EmptyString;
       crDimensions := {| Length := 0; Width := 0; Height := 0 |};
       crIsOnSale := false; crDiscount := None; crTags := [] |} in
  In milk (snd (ProductCreation.CreateProduct 7 8 "p3" (Some request)
                  (load KeyValue shelf))).
Proof.
  intros request.
  refine (proj2 (proj2
           (created_product_is_stored KeyValue 7 8 "p3" request
              (load KeyValue shelf)
              (snd (ProductCreation.CreateProduct 7 8 "p3" (Some request)
                      (load KeyValue shelf)))
              (stamped "p3" 7 8
                 {| ID := EmptyString; SKU := "sku-p3"; Slug := "item-p3";
                    Name := "Cocoa"; Description := EmptyString;
                    Price := 300; OriginalPrice := None; Images := [];
                    CategoryID := "c1"; DepartmentID := "d1";
                    Brand := "acme"; Unit := "unit"; Stock := 4;
                    MinStock := 1; Weight := 0; WeightUnit := EmptyString;
                    Dimensions := {| Length := 0; Width := 0; Height := 0 |};
                    IsOnSale := false; Discount := None; Rating := 0;
                    Reviews := 0; IsActive := false; Tags := [];
                    CreatedAt := 0; UpdatedAt := 0 |})
              eq_refl)) milk _ _).
  - left. reflexivity.
  - discriminate.
Defined.

(* ================================================================== *)
(** * Product handlers                                                 *)
(* ================================================================== *)

Section HandlerFacts.

Lemma extract_product_id (id : string) :
  id <> EmptyString -> Paths.free_of "/" id = true ->
  Handler.extractIDFromPath ("/product-service/products/" ++ id) = id.
Proof.
  intros Hne Hfree.
  assert (Htrim : Paths.Trim
                    (String "/"
                       (String "p" "roduct-service/products/" ++ id)) "/"
                  = String "p" "roduct-service/products/" ++ id).
  { unfold Paths.Trim. cbn [Paths.TrimLeft append].
    change (Paths.in_cutset "/" "/") with true.
    change (Paths.in_cutset "p" "/") with false. cbv iota.
    exact (TrimRight_before (String "p" "roduct-service/products/") id
             Hne Hfree). }
  unfold Handler.extractIDFromPath.
  change ("/product-service/products/" ++ id)
    with (String "/" (String "p" "roduct-service/products/" ++ id)).
  rewrite Htrim.
  change (String "p" "roduct-service/products/" ++ id)
    with ("product-service" ++ String "/" ("products" ++ String "/" id)).
  rewrite !Split_segment by reflexivity.
  rewrite (Split_free id) by assumption. reflexivity.
Qed.

End HandlerFacts.

(** X27: for a non-empty id without slash, the /product-service handler's
    deleteProduct on /product-service/products/<id> answers 204 when the
    relational repository returns the product, and 404 "Product not found"
    with the database unchanged when it does not; it never answers 400 or
    500.  After a 204, getProduct and a second deleteProduct on the same
    path answer 404 and leave the database as it is. *)
Theorem delete_then_get_is_not_found (now : time) (id : string)
    (db : Postgres.DB) :
  id <> EmptyString -> Paths.free_of "/" id = true ->
  let path := "/product-service/products/" ++ id in
  (forall p, Postgres.GetProduct id db = Ok p ->
     exists db',
       ProductHandlers.deleteProduct now path db
       = ({| StatusCode := 204; Body := NoBody |}, db') /\
       ProductHandlers.getProduct path db'
       = {| StatusCode := 404; Body := ErrorBody "Product not found" |} /\
       forall t,
         ProductHandlers.deleteProduct t path db'
         = ({| StatusCode := 404; Body := ErrorBody "Product not found" |},
            db')) /\
  (forall e, Postgres.GetProduct id db = Err e ->
     ProductHandlers.deleteProduct now path db
     = ({| StatusCode := 404; Body := ErrorBody "Product not found" |}, db) /\
     ProductHandlers.getProduct path db
     = {| StatusCode := 404; Body := ErrorBody "Product not found" |}).
Proof.
  intros Hne Hfree path.
  assert (Hid : String.eqb id EmptyString = false)
    by now apply String.eqb_neq.
  assert (Hmiss : forall t d,
            Postgres.GetProduct id d = Err "product not found" ->
            ProductHandlers.deleteProduct t path d
            = ({| StatusCode := 404;
                  Body := ErrorBody "Product not found" |}, d) /\
            ProductHandlers.getProduct path d
            = {| StatusCode := 404; Body := ErrorBody "Product not found" |}).
  { intros t d Hget.
    unfold ProductHandlers.deleteProduct, ProductHandlers.getProduct.
    subst path. rewrite (extract_product_id id Hne Hfree). cbv zeta.
    rewrite Hid. unfold ProductService.DeleteProduct, ProductService.GetProduct.
    rewrite Hid. cbn [repoGetProduct PostgresProducts]. rewrite Hget.
    split; reflexivity. }
  split.
  - intros p Hget.
    assert (Hdel : exists db',
               ProductService.DeleteProduct now id db = (Ok tt, db')).
    { unfold ProductService.DeleteProduct. rewrite Hid.
      cbn [repoGetProduct repoUpdateProduct PostgresProducts]. rewrite Hget.
      unfold Postgres.GetProduct in Hget.
      destruct (find _ (Postgres.products db)) as [p1|] eqn:Hf;
        [|discriminate].
      destruct (find_weaken _ (fun q => String.eqb (ID q) id) _ _
                  (fun x Hx => proj1 (proj1 (andb_true_iff _ _) Hx)) Hf)
        as [q Hq].
      rewrite (pg_UpdateProduct_deactivate _ _ _ _ Hq). eauto. }
    destruct Hdel as [db' Hdel]. exists db'.
    assert (Hget' : Postgres.GetProduct id db' = Err "product not found").
    { unfold Postgres.GetProduct. rewrite find_all_false; [reflexivity|].
      intros q Hin. destruct (String.eqb (ID q) id) eqn:E; [|reflexivity].
      apply String.eqb_eq in E.
      now rewrite (deleted_rows_inactive Relational now id db db' q Hdel
                     Hin E). }
    split; [|split].
    + unfold ProductHandlers.deleteProduct. subst path.
      rewrite (extract_product_id id Hne Hfree). cbv zeta.
      now rewrite Hid, Hdel.
    + exact (proj2 (Hmiss now db' Hget')).
    + intros t. exact (proj1 (Hmiss t db' Hget')).
  - intros e Hget. apply Hmiss. unfold Postgres.GetProduct in *.
    destruct (find _ _); [discriminate | reflexivity].
Qed.

Lemma delete_then_get_is_not_found_witness :
  ProductHandlers.deleteProduct 7 "/product-service/products/p9"
    (load Relational shelf)
  = ({| StatusCode := 404; Body := ErrorBody "Product not found" |},
     load Relational shelf).
Proof.
  assert (Hne : "p9" <> EmptyString) by discriminate.
  exact (proj1 (proj2 (delete_then_get_is_not_found 7 "p9"
                         (load Relational shelf) Hne eq_refl)
                  "product not found" eq_refl)).
Defined.
